(** * applepassgenerator: the pass-build pipeline

    A shallow embedding of [ApplePass] as it is written twice in the
    repository, in [models.py] and in [apple_pass.py]: staging of
    attachments, rendering of the pass document, manifest construction,
    signing and archive assembly, and of the [Barcode] value object of
    [fields.py] that the document rendering reads.

    Conventions.
    - Python [bytes] are [list byte].
    - Python [str] is [string]: a sequence of code points below 256.  Every
      text that [json.dumps] produces is ASCII and lies in that range; text
      with higher code points is outside the model, except that a staged
      text may hold a lone surrogate, which no codec encodes
      ([PySurrogateStr]).
    - A Python [dict] is an association list in insertion order with unique
      keys ([PyDict]); assignment to an existing key keeps its position.
    - A raised exception is the [Err] case of [result]; methods that mutate
      [self] return the new session next to their result.
    - [hashlib.sha1] is SHA-1 itself ([SHA1.digest]); the [cryptography]
      package is a parameter ([Extern]).
    - A zip archive is the list of its members in the order written; a
      member is named as [zipfile] names it, by the filename up to its
      first NUL. *)

From Stdlib Require Import List String Ascii Strings.Byte NArith ZArith Bool Lia.
From Stdlib Require Import Numbers.DecimalString.
Import ListNotations.

Local Open Scope string_scope.
Local Open Scope list_scope.

Notation "a +++ b" := (String.append a b) (at level 60, right associativity).

(* ===================================================================== *)
(** * Bytes and text *)
(* ===================================================================== *)

Definition bytes := list byte.

(** The byte whose value is [n mod 256]. *)
Definition byte_of_N (n : N) : byte :=
  match Byte.of_N (N.modulo n 256) with
  | Some b => b
  | None => x00
  end.

Definition cp_of_ascii (c : ascii) : N := N_of_ascii c.

(** [str.encode("utf-8")]: one byte below 128, two bytes from 128 to 255. *)
Definition utf8_char (c : ascii) : bytes :=
  let n := cp_of_ascii c in
  if N.ltb n 128 then [byte_of_N n]
  else [byte_of_N (N.lor 192 (N.shiftr n 6)); byte_of_N (N.lor 128 (N.land n 63))].

Fixpoint utf8_encode (s : string) : bytes :=
  match s with
  | EmptyString => []
  | String c s' => utf8_char c ++ utf8_encode s'
  end.

(** [str.encode("utf-16")]: the byte-order mark followed by one
    little-endian 16-bit unit per code point (CPython on a little-endian
    host; all code points of the model are below 65536). *)
Definition utf16_bom : bytes := [xff; xfe].

Fixpoint utf16le_units (s : string) : bytes :=
  match s with
  | EmptyString => []
  | String c s' => byte_of_N (cp_of_ascii c) :: x00 :: utf16le_units s'
  end.

Definition utf16_encode (s : string) : bytes := utf16_bom ++ utf16le_units s.

(* ===================================================================== *)
(** * hashlib.sha1 *)
(* ===================================================================== *)

Module SHA1.

Local Open Scope N_scope.

Definition mask32 : N := 4294967295.
Definition w32 (x : N) : N := N.land x mask32.
Definition add32 (x y : N) : N := w32 (x + y).
Definition rotl (k x : N) : N :=
  w32 (N.lor (N.shiftl x k) (N.shiftr x (32 - k))).
Definition not32 (x : N) : N := N.lxor x mask32.

(** Message padding: 0x80, zero bytes up to 56 modulo 64, then the bit
    length as a 64-bit big-endian integer. *)
Fixpoint be_bytes (k : nat) (x : N) : bytes :=
  match k with
  | O => []
  | S k' => byte_of_N (N.shiftr x (8 * N.of_nat k')) :: be_bytes k' x
  end.

Definition pad (m : bytes) : bytes :=
  let len := N.of_nat (List.length m) in
  let zeros := N.to_nat ((119 - (len mod 64)) mod 64) in
  m ++ x80 :: repeat x00 zeros ++ be_bytes 8 (8 * len).

Definition be_word (b0 b1 b2 b3 : byte) : N :=
  N.lor (N.shiftl (Byte.to_N b0) 24)
    (N.lor (N.shiftl (Byte.to_N b1) 16)
       (N.lor (N.shiftl (Byte.to_N b2) 8) (Byte.to_N b3))).

Fixpoint words (fuel : nat) (m : bytes) : list N :=
  match fuel, m with
  | S f, b0 :: b1 :: b2 :: b3 :: m' => be_word b0 b1 b2 b3 :: words f m'
  | _, _ => []
  end.

Definition state : Type := N * N * N * N * N.

Definition init : state :=
  (1732584193, 4023233417, 2562383102, 271733878, 3285377520).

Definition f_k (t : nat) (b c d : N) : N * N :=
  if Nat.ltb t 20 then
    (N.lor (N.land b c) (N.land (not32 b) d), 1518500249)
  else if Nat.ltb t 40 then
    (N.lxor b (N.lxor c d), 1859775393)
  else if Nat.ltb t 60 then
    (N.lor (N.land b c) (N.lor (N.land b d) (N.land c d)), 2400959708)
  else
    (N.lxor b (N.lxor c d), 3395469782).

(** [n] rounds starting at round [t]; [w] is the window
    [W t, ..., W (t+15)] of the message schedule. *)
Fixpoint rounds (n t : nat) (w : list N) (st : state) : state :=
  match n with
  | O => st
  | S n' =>
      let '(a, b, c, d, e) := st in
      let wt := nth 0 w 0 in
      let '(f, k) := f_k t b c d in
      let tmp := add32 (add32 (add32 (add32 (rotl 5 a) f) e) k) wt in
      let nxt :=
        rotl 1 (N.lxor (nth 13 w 0)
                  (N.lxor (nth 8 w 0) (N.lxor (nth 2 w 0) wt))) in
      rounds n' (S t) (tl w ++ [nxt]) (tmp, a, rotl 30 b, c, d)
  end.

Definition compress (st : state) (block : list N) : state :=
  let '(a, b, c, d, e) := st in
  let '(a', b', c', d', e') := rounds 80 0 block st in
  (add32 a a', add32 b b', add32 c c', add32 d d', add32 e e').

Fixpoint blocks (fuel : nat) (ws : list N) (st : state) : state :=
  match fuel, ws with
  | S f, _ :: _ => blocks f (skipn 16 ws) (compress st (firstn 16 ws))
  | _, _ => st
  end.

(** [hashlib.sha1(m).digest()] *)
Definition digest (m : bytes) : bytes :=
  let p := pad m in
  let ws := words (List.length p) p in
  let '(a, b, c, d, e) := blocks (List.length ws) ws init in
  be_bytes 4 a ++ be_bytes 4 b ++ be_bytes 4 c ++ be_bytes 4 d ++ be_bytes 4 e.

End SHA1.

Definition hex_digit (n : N) : ascii :=
  match n with
  | 0%N => "0" | 1%N => "1" | 2%N => "2" | 3%N => "3"
  | 4%N => "4" | 5%N => "5" | 6%N => "6" | 7%N => "7"
  | 8%N => "8" | 9%N => "9" | 10%N => "a" | 11%N => "b"
  | 12%N => "c" | 13%N => "d" | 14%N => "e" | _ => "f"
  end%char.

Fixpoint hex_of_bytes (bs : bytes) : string :=
  match bs with
  | [] => EmptyString
  | b :: bs' =>
      String (hex_digit (N.shiftr (Byte.to_N b) 4))
        (String (hex_digit (N.land (Byte.to_N b) 15)) (hex_of_bytes bs'))
  end.

(** [hashlib.sha1(m).hexdigest()] *)
Definition sha1_hexdigest (m : bytes) : string := hex_of_bytes (SHA1.digest m).




(* ===================================================================== *)
(** * Exceptions *)
(* ===================================================================== *)

(** The exception classes that the pipeline raises or receives from the
    libraries it calls, each with its message; [PassCreationError] also
    carries its [__cause__] (the [raise ... from e] of [create]). *)
Inductive exn : Type :=
| TypeError (msg : string)
| ValueError (msg : string)
| AttributeError (msg : string)
| FileNotFoundError (msg : string)
| OSError (msg : string)
| IsADirectoryError (msg : string)
| UnsupportedOperation (msg : string)
| UnicodeEncodeError (msg : string)
| IndexError (msg : string)
| StructError (msg : string)
| PassCreationError (msg : string) (cause : exn).

(** [str(e)] *)
Definition exn_str (e : exn) : string :=
  match e with
  | TypeError m | ValueError m | AttributeError m
  | FileNotFoundError m | OSError m | IsADirectoryError m
  | UnsupportedOperation m | UnicodeEncodeError m | IndexError m
  | StructError m | PassCreationError m _ => m
  end.

Inductive result (A : Type) : Type :=
| Ok (a : A)
| Err (e : exn).
Arguments Ok {A} a.
Arguments Err {A} e.

Definition rbind {A B} (r : result A) (k : A -> result B) : result B :=
  match r with
  | Ok a => k a
  | Err e => Err e
  end.

Notation "x <- c ;; k" := (rbind c (fun x => k))
  (at level 61, c at next level, right associativity).

(* ===================================================================== *)
(** * Python dictionaries *)
(* ===================================================================== *)

Module PyDict.

Definition t (V : Type) : Type := list (string * V).

Definition empty {V} : t V := [].

(** [d[k] = v]: replaces the value of an existing key where it stands,
    appends a new key. *)
Fixpoint set {V} (k : string) (v : V) (d : t V) : t V :=
  match d with
  | [] => [(k, v)]
  | (k', v') :: d' =>
      if String.eqb k k' then (k', v) :: d' else (k', v') :: set k v d'
  end.

Fixpoint get {V} (k : string) (d : t V) : option V :=
  match d with
  | [] => None
  | (k', v') :: d' => if String.eqb k k' then Some v' else get k d'
  end.

Definition keys {V} (d : t V) : list string := map fst d.

(** [d.update(other)] *)
Definition update {V} (d other : t V) : t V :=
  fold_left (fun acc kv => set (fst kv) (snd kv) acc) other d.


Definition wf {V} (d : t V) : Prop := NoDup (keys d).

End PyDict.

(* ===================================================================== *)
(** * json.dumps *)
(* ===================================================================== *)

#[warnings="-register-all"]
Inductive json : Type :=
| JNull
| JBool (b : bool)
| JInt (z : Z)
| JFloat (repr : string)
| JStr (s : string)
| JList (l : list json)
| JDict (d : list (string * json)).

Definition hex4 (n : N) : string :=
  String (hex_digit (N.land (N.shiftr n 12) 15))
    (String (hex_digit (N.land (N.shiftr n 8) 15))
       (String (hex_digit (N.land (N.shiftr n 4) 15))
          (String (hex_digit (N.land n 15)) EmptyString))).

Definition dquote : ascii := ascii_of_N 34.
Definition bslash : ascii := ascii_of_N 92.

(** One character under [ensure_ascii=True]: a backslash escape for the
    quote, the backslash and the named control characters, a [u] escape
    with four lowercase hexadecimal digits outside space..tilde. *)
Definition json_escape_char (c : ascii) : string :=
  let n := cp_of_ascii c in
  if N.eqb n 34 then String bslash (String dquote EmptyString)
  else if N.eqb n 92 then String bslash (String bslash EmptyString)
  else if N.eqb n 10 then String bslash "n"
  else if N.eqb n 13 then String bslash "r"
  else if N.eqb n 9 then String bslash "t"
  else if N.eqb n 8 then String bslash "b"
  else if N.eqb n 12 then String bslash "f"
  else if N.ltb n 32 || N.ltb 126 n then String bslash ("u" +++ hex4 n)
  else String c EmptyString.

Fixpoint json_escape (s : string) : string :=
  match s with
  | EmptyString => EmptyString
  | String c s' => json_escape_char c +++ json_escape s'
  end.

Definition json_quote (s : string) : string :=
  String dquote (json_escape s +++ String dquote EmptyString).

Definition Z_repr (z : Z) : string := NilZero.string_of_int (Z.to_int z).

(** [json.dumps(j)] with the default separators [", "] and [": "]. *)
Fixpoint json_dumps (j : json) : string :=
  match j with
  | JNull => "null"
  | JBool true => "true"
  | JBool false => "false"
  | JInt z => Z_repr z
  | JFloat r => r
  | JStr s => json_quote s
  | JList l =>
      "[" +++
      (fix items (l : list json) : string :=
         match l with
         | [] => EmptyString
         | x :: l' =>
             match l' with
             | [] => json_dumps x
             | _ :: _ => json_dumps x +++ ", " +++ items l'
             end
         end) l +++ "]"
  | JDict d =>
      "{" +++
      (fix members (d : list (string * json)) : string :=
         match d with
         | [] => EmptyString
         | (k, v) :: d' =>
             match d' with
             | [] => json_quote k +++ ": " +++ json_dumps v
             | _ :: _ => json_quote k +++ ": " +++ json_dumps v +++ ", " +++ members d'
             end
         end) d +++ "}"
  end.

(* ===================================================================== *)
(** * json.loads, for an object of strings *)
(* ===================================================================== *)

(** The reader's side of [json.dumps]: how the decoder of [json] reads a
    text that is an object whose values are strings.  It is used to say
    what a manifest text denotes, and stands for no code of the
    repository. *)










(* ===================================================================== *)
(** * Python values staged as attachment content *)
(* ===================================================================== *)

(** What [add_file] may be handed and [_files] may hold.
    - [PyBytesIO] and [PyBufferedReader] are open, seekable streams, each
      its buffer and its position; [PyClosedBytesIO] and [PyClosedReader]
      are the two after [close()], and [PyUnseekableReader] is a
      [BufferedReader] over a pipe or a socket.
    - [PySurrogateStr before surrogate] is a text whose first lone
      surrogate is the code point [surrogate], after the text [before].
    - [PyBuffer cls b] is an object of a class [cls] other than [bytes]
      and [bytearray] that has the buffer protocol and exposes the bytes
      [b]: a [memoryview], an [array.array], an [mmap.mmap].
    - [PyObject cls] is an object of any other class [cls], one without
      the buffer protocol, taken to have no [__len__] either. *)
Inductive pyval : Type :=
| PyBytes (b : bytes)
| PyByteArray (b : bytes)
| PyBytesIO (buf : bytes) (pos : nat)
| PyBufferedReader (buf : bytes) (pos : nat)
| PyStr (s : string)
| PyObject (cls : string)
| PyBuffer (cls : string) (b : bytes)
| PyClosedBytesIO
| PyClosedReader
| PyUnseekableReader
| PySurrogateStr (before : string) (surrogate : N).

(** The name of the class of a value, as [type(v)] prints it. *)
Definition py_type_name (v : pyval) : string :=
  match v with
  | PyBytes _ => "bytes"
  | PyByteArray _ => "bytearray"
  | PyBytesIO _ _ | PyClosedBytesIO => "_io.BytesIO"
  | PyBufferedReader _ _ | PyClosedReader | PyUnseekableReader =>
      "_io.BufferedReader"
  | PyStr _ | PySurrogateStr _ _ => "str"
  | PyObject cls | PyBuffer cls _ => cls
  end.

(** [f"{type(v)}"] *)
Definition py_type_repr (v : pyval) : string :=
  "<class '" +++ py_type_name v +++ "'>".

(** The [UnicodeEncodeError] of [str.encode(codec)] at a lone surrogate. *)
Definition surrogate_error (codec before : string) (surrogate : N) : exn :=
  UnicodeEncodeError
    ("'" +++ codec +++ "' codec can't encode character '" +++
     String bslash ("u" +++ hex4 surrogate) +++ "' in position " +++
     Z_repr (Z.of_nat (String.length before)) +++
     ": surrogates not allowed").

(** [stream.read()]: the bytes from the position to the end. *)
Definition stream_read (buf : bytes) (pos : nat) : bytes := skipn pos buf.

(* ===================================================================== *)
(** * enums.py and fields.py: barcodes *)
(* ===================================================================== *)

Module Fields.

Inductive BarcodeFormat : Type := PDF417 | QR | AZTEC | CODE128.

(** [BarcodeFormat.X.value] *)
Definition BarcodeFormat_value (f : BarcodeFormat) : string :=
  match f with
  | PDF417 => "PKBarcodeFormatPDF417"
  | QR => "PKBarcodeFormatQR"
  | AZTEC => "PKBarcodeFormatAztec"
  | CODE128 => "PKBarcodeFormatCode128"
  end.

Definition BarcodeFormat_eqb (f g : BarcodeFormat) : bool :=
  match f, g with
  | PDF417, PDF417 | QR, QR | AZTEC, AZTEC | CODE128, CODE128 => true
  | _, _ => false
  end.

(** The instance attributes that [Barcode.__init__] sets. *)
Record Barcode : Type := mkBarcode {
  _format : BarcodeFormat;
  _message : string;
  _message_encoding : string;
  _alt_text : string
}.

(** [Barcode(message, format, alt_text, message_encoding)] *)
Definition Barcode_init (message : string) (format : BarcodeFormat)
    (alt_text : string) (message_encoding : string) : result Barcode :=
  if String.eqb message EmptyString then
    Err (ValueError "Barcode message cannot be empty")
  else
    Ok (mkBarcode format message message_encoding alt_text).

(** [Barcode.json_dict] *)
Definition Barcode_json_dict (b : Barcode) : json :=
  let data :=
    PyDict.set "messageEncoding" (JStr (_message_encoding b))
      (PyDict.set "message" (JStr (_message b))
         (PyDict.set "format" (JStr (BarcodeFormat_value (_format b)))
            PyDict.empty)) in
  JDict (if String.eqb (_alt_text b) EmptyString then data
         else PyDict.set "altText" (JStr (_alt_text b)) data).

(** The value of an attribute of a barcode. *)
Inductive attr : Type :=
| AFormat (f : BarcodeFormat)
| AStr (s : string)
| AMethod (name : string).

(** [getattr(b, name)], the attributes inherited from [object] (whose
    names start with two underscores) left out: the class defines no
    property and no [__getattr__], so a barcode has the four attributes
    that [__init__] sets and the method [json_dict], and any other name
    raises. *)
Definition Barcode_getattr (b : Barcode) (name : string) : result attr :=
  if String.eqb name "_format" then Ok (AFormat (_format b))
  else if String.eqb name "_message" then Ok (AStr (_message b))
  else if String.eqb name "_message_encoding" then Ok (AStr (_message_encoding b))
  else if String.eqb name "_alt_text" then Ok (AStr (_alt_text b))
  else if String.eqb name "json_dict" then Ok (AMethod "json_dict")
  else Err (AttributeError ("'Barcode' object has no attribute '" +++ name +++ "'")).

(** The attribute as text: an enum member of a [str] enum is its value. *)
Definition attr_str (a : attr) : string :=
  match a with
  | AFormat f => BarcodeFormat_value f
  | AStr s => s
  | AMethod n => n
  end.

(** [{BarcodeFormat.PDF417, BarcodeFormat.QR, BarcodeFormat.AZTEC}] *)
Definition original_formats : list BarcodeFormat := [PDF417; QR; AZTEC].

Definition format_in (f : BarcodeFormat) (l : list BarcodeFormat) : bool :=
  existsb (BarcodeFormat_eqb f) l.

(** [a in original_formats] for an attribute value: set membership
    compares by value, and the members of the set are [str]s. *)
Definition attr_in_formats (a : attr) (l : list BarcodeFormat) : bool :=
  existsb (fun g => String.eqb (attr_str a) (BarcodeFormat_value g)) l.

End Fields.
Import Fields.

(* ===================================================================== *)
(** * The ApplePass dataclass *)
(* ===================================================================== *)

(** A pass-information object ([BoardingPass], [Coupon], ...), by the two
    things [ApplePass.json_dict] asks of it. *)
Record PassInformation : Type := mkPassInformation {
  jsonname : string;
  pi_json_dict : json
}.

(** The fields of the dataclass, the same in [models.py] and
    [apple_pass.py].  Lists and dicts of collaborator objects are held as
    the JSON value the encoder renders them to. *)
Record ApplePass : Type := mkApplePass {
  pass_information : PassInformation;
  pass_type_identifier : string;
  organization_name : string;
  team_identifier : string;
  serial_number : string;
  description : string;
  format_version : Z;
  background_color : option string;
  foreground_color : option string;
  label_color : option string;
  logo_text : option string;
  barcode : option Barcode;
  barcodes : option json;
  suppress_strip_shine : bool;
  web_service_url : option string;
  authentication_token : option string;
  locations : option json;
  ibeacons : option json;
  relevant_date : option string;
  associated_store_identifiers : option json;
  app_launch_url : option string;
  user_info : option json;
  expiration_date : option string;
  voided : option bool;
  _files : PyDict.t pyval;
  _hashes : PyDict.t string
}.

Definition set_files (f : PyDict.t pyval) (s : ApplePass) : ApplePass :=
  mkApplePass (pass_information s) (pass_type_identifier s)
    (organization_name s) (team_identifier s) (serial_number s)
    (description s) (format_version s) (background_color s)
    (foreground_color s) (label_color s) (logo_text s) (barcode s)
    (barcodes s) (suppress_strip_shine s) (web_service_url s)
    (authentication_token s) (locations s) (ibeacons s) (relevant_date s)
    (associated_store_identifiers s) (app_launch_url s) (user_info s)
    (expiration_date s) (voided s) f (_hashes s).

Definition set_hashes (h : PyDict.t string) (s : ApplePass) : ApplePass :=
  mkApplePass (pass_information s) (pass_type_identifier s)
    (organization_name s) (team_identifier s) (serial_number s)
    (description s) (format_version s) (background_color s)
    (foreground_color s) (label_color s) (logo_text s) (barcode s)
    (barcodes s) (suppress_strip_shine s) (web_service_url s)
    (authentication_token s) (locations s) (ibeacons s) (relevant_date s)
    (associated_store_identifiers s) (app_launch_url s) (user_info s)
    (expiration_date s) (voided s) (_files s) h.

(** [ApplePass(pass_information, pass_type_identifier=..., ...)] with the
    defaults of the dataclass. *)
Definition ApplePass_init (pi : PassInformation)
    (pass_type_identifier organization_name team_identifier : string)
    : ApplePass :=
  mkApplePass pi pass_type_identifier organization_name team_identifier
    EmptyString EmptyString 1 None None None None None None false None None
    None None None
    None None None None None PyDict.empty PyDict.empty.

(** The parts of [json_dict] before and after the barcode block, the same
    in both files. *)
Definition json_dict_head (s : ApplePass) : PyDict.t json :=
  PyDict.set (jsonname (pass_information s)) (pi_json_dict (pass_information s))
    (PyDict.set "suppressStripShine" (JBool (suppress_strip_shine s))
    (PyDict.set "teamIdentifier" (JStr (team_identifier s))
    (PyDict.set "serialNumber" (JStr (serial_number s))
    (PyDict.set "passTypeIdentifier" (JStr (pass_type_identifier s))
    (PyDict.set "organizationName" (JStr (organization_name s))
    (PyDict.set "formatVersion" (JInt (format_version s))
    (PyDict.set "description" (JStr (description s)) PyDict.empty))))))).

Definition optional_fields (s : ApplePass) : list (string * option json) :=
  [ ("relevantDate", option_map JStr (relevant_date s));
    ("backgroundColor", option_map JStr (background_color s));
    ("foregroundColor", option_map JStr (foreground_color s));
    ("labelColor", option_map JStr (label_color s));
    ("logoText", option_map JStr (logo_text s));
    ("locations", locations s);
    ("beacons", ibeacons s);
    ("userInfo", user_info s);
    ("associatedStoreIdentifiers", associated_store_identifiers s);
    ("appLaunchURL", option_map JStr (app_launch_url s));
    ("expirationDate", option_map JStr (expiration_date s)) ].

(** [{k: v for k, v in optional_fields.items() if v is not None}] *)
Fixpoint present (l : list (string * option json)) : PyDict.t json :=
  match l with
  | [] => []
  | (k, Some v) :: l' => (k, v) :: present l'
  | (_, None) :: l' => present l'
  end.

Definition json_of_option_str (o : option string) : json :=
  match o with
  | Some x => JStr x
  | None => JNull
  end.

Definition json_dict_tail (s : ApplePass) (d : PyDict.t json) : PyDict.t json :=
  let d1 := PyDict.update d (present (optional_fields s)) in
  let d2 :=
    match voided s with
    | Some true => PyDict.set "voided" (JBool true) d1
    | _ => d1
    end in
  match web_service_url s with
  | Some url =>
      if String.eqb url EmptyString then d2
      else
        PyDict.update d2
          [ ("webServiceURL", JStr url);
            ("authenticationToken", json_of_option_str (authentication_token s)) ]
  | None => d2
  end.

(* ===================================================================== *)
(** * The world of a build: files, zip archives, the cryptography library *)
(* ===================================================================== *)

(** A zip archive: its members in the order written. *)
Definition archive : Type := list (string * bytes).

Definition NUL : ascii := ascii_of_N 0.

(** [ZipInfo(filename).filename]: the name up to its first NUL. *)
Fixpoint arcname (filename : string) : string :=
  match filename with
  | EmptyString => EmptyString
  | String c rest =>
      if Ascii.eqb c NUL then EmptyString else String c (arcname rest)
  end.

(** The bytes of the member name in the file header: at most 65535. *)
Definition arcname_fits (filename : string) : bool :=
  N.leb (N.of_nat (List.length (utf8_encode (arcname filename)))) 65535.

(** [zf.writestr(name, data)], step by step: a text is encoded as UTF-8;
    the member name is cut at its first NUL and must not be empty
    ([zinfo.filename[-1]]); the data must have a length; the name must
    fit the file header; then the member is appended, even when the name
    is already there (the library only warns).  A call that raises has
    added no member. *)
Definition writestr (name : string) (data : pyval) (zf : archive)
    : result archive :=
  data <-
    match data with
    | PyStr t => Ok (PyBytes (utf8_encode t))
    | PySurrogateStr before surrogate =>
        Err (surrogate_error "utf-8" before surrogate)
    | _ => Ok data
    end ;;
  if String.eqb (arcname name) EmptyString then
    Err (IndexError "string index out of range")
  else
    b <-
      match data with
      | PyBytes b | PyByteArray b | PyBuffer _ b => Ok b
      | _ =>
          Err (TypeError ("object of type '" +++ py_type_name data +++
                          "' has no len()"))
      end ;;
    if arcname_fits name then Ok (zf ++ [(arcname name, b)])
    else Err (StructError "ushort format requires 0 <= number <= 65535").

(** The names that [writestr] takes. *)
Definition member_name_ok (name : string) : bool :=
  negb (String.eqb (arcname name) EmptyString) && arcname_fits name.

(** The members of an archive that carry a given name. *)
Definition members_named (name : string) (zf : archive) : list bytes :=
  map snd (filter (fun m => String.eqb name (fst m)) zf).

(** What a path leads to: a file of raw bytes, a zip archive written by
    [zipfile], still open or closed, or a directory. *)
Inductive fnode : Type :=
| RawFile (data : bytes)
| PkPass (open : bool) (members : archive)
| Directory.

(** The files by path, and the paths that cannot be opened for writing. *)
Record filesystem : Type := mkFs {
  nodes : PyDict.t fnode;
  unwritable : list string
}.

Definition slash : ascii := ascii_of_N 47.

(** [s.split(sep)] *)
Fixpoint split_on (sep : ascii) (s : string) : list string :=
  match s with
  | EmptyString => [EmptyString]
  | String c rest =>
      if Ascii.eqb c sep then EmptyString :: split_on sep rest
      else
        match split_on sep rest with
        | part :: parts => String c part :: parts
        | [] => [String c EmptyString]
        end
  end.

(** The root of a POSIX path: two leading slashes are kept, one, or more
    than two, are one. *)
Definition Path_root (path : string) : string :=
  match path with
  | String a (String b (String c _)) =>
      if Ascii.eqb a slash then
        if Ascii.eqb b slash then
          if Ascii.eqb c slash then "/" else "//"
        else "/"
      else EmptyString
  | String a (String b EmptyString) =>
      if Ascii.eqb a slash then
        if Ascii.eqb b slash then "//" else "/"
      else EmptyString
  | String a EmptyString => if Ascii.eqb a slash then "/" else EmptyString
  | EmptyString => EmptyString
  end.

(** The components of a path: empty ones and [.] are dropped, [..] is
    kept. *)
Definition Path_parts (path : string) : list string :=
  filter (fun part => negb (String.eqb part EmptyString) &&
                      negb (String.eqb part "."))
    (split_on slash path).

(** [str(pathlib.Path(path))] *)
Definition Path_str (path : string) : string :=
  match Path_root path, Path_parts path with
  | EmptyString, [] => "."
  | root, parts => root +++ String.concat "/" parts
  end.

(** [repr(s)] of a text: in single quotes, or in double quotes when it
    holds a single quote and no double quote; the backslash, the quote
    in use, tab, newline and carriage return by their escapes, and every
    other character that is not printable by its [\xNN] escape. *)
Definition squote : ascii := ascii_of_N 39.

Definition str_printable (n : N) : bool :=
  (N.leb 32 n && N.leb n 126) ||
  (N.leb 161 n && N.leb n 255 && negb (N.eqb n 173)).

Definition repr_char (quote c : ascii) : string :=
  let n := cp_of_ascii c in
  if N.eqb n 92 then String bslash (String bslash EmptyString)
  else if Ascii.eqb c quote then String bslash (String quote EmptyString)
  else if N.eqb n 9 then String bslash "t"
  else if N.eqb n 10 then String bslash "n"
  else if N.eqb n 13 then String bslash "r"
  else if str_printable n then String c EmptyString
  else String bslash
         (String "x"%char
            (String (hex_digit (N.shiftr n 4))
               (String (hex_digit (N.land n 15)) EmptyString))).

Fixpoint repr_body (quote : ascii) (s : string) : string :=
  match s with
  | EmptyString => EmptyString
  | String c rest => repr_char quote c +++ repr_body quote rest
  end.

Fixpoint string_mem (c : ascii) (s : string) : bool :=
  match s with
  | EmptyString => false
  | String c' rest => Ascii.eqb c c' || string_mem c rest
  end.

Definition str_repr (s : string) : string :=
  let quote :=
    if string_mem squote s && negb (string_mem dquote s) then dquote
    else squote in
  String quote (repr_body quote s +++ String quote EmptyString).

(** [os.stat(path)]: what the system finds under a path.  The working
    directory, its parent and the root are directories in every
    filesystem, and neither the empty path nor a path with a NUL leads
    anywhere. *)
Definition os_stat (path : string) (f : filesystem) : option fnode :=
  if string_mem NUL path then None
  else if String.eqb path EmptyString then None
  else if existsb (String.eqb path) ["."; ".."; "/"; "//"] then Some Directory
  else PyDict.get path (nodes f).

(** Why [open(output, "w+b")] fails, when it does: the path holds a NUL,
    is empty, leads to a directory, or is one that cannot be opened for
    writing. *)
Definition open_w_error (output : string) (f : filesystem) : option exn :=
  if string_mem NUL output then Some (ValueError "embedded null byte")
  else if String.eqb output EmptyString then
    Some (FileNotFoundError "[Errno 2] No such file or directory: ''")
  else
    match os_stat output f with
    | Some Directory =>
        Some (IsADirectoryError
                ("[Errno 21] Is a directory: " +++ str_repr output))
    | _ =>
        if existsb (String.eqb output) (unwritable f) then
          Some (OSError ("[Errno 13] Permission denied: " +++ str_repr output))
        else None
    end.

Inductive HashAlgorithm : Type := SHA1_alg.
Inductive Encoding : Type := DER | PEM | SMIME.
Inductive PKCS7Options : Type := DetachedSignature | Text | Binary.

(** The state of a [pkcs7.PKCS7SignatureBuilder]. *)
Record PKCS7SignatureBuilder (Certificate PrivateKey : Type) : Type :=
  mkBuilder {
    pk_data : option bytes;
    pk_signers : list (Certificate * PrivateKey * HashAlgorithm);
    pk_certs : list Certificate
  }.
Arguments mkBuilder {Certificate PrivateKey}.
Arguments pk_data {Certificate PrivateKey}.
Arguments pk_signers {Certificate PrivateKey}.
Arguments pk_certs {Certificate PrivateKey}.

(** The functions of the [cryptography] package and of the platform that
    the pipeline calls and the repository does not define. *)
Class Extern (Certificate PrivateKey : Type) : Type := {
  load_pem_x509_certificate : bytes -> result Certificate;
  load_pem_private_key : bytes -> option bytes -> result PrivateKey;
  (** [builder.sign(encoding, options)], with the randomness it draws *)
  pkcs7_sign : PKCS7SignatureBuilder Certificate PrivateKey -> Encoding ->
               list PKCS7Options -> N -> result bytes;
  (** the bytes of a zip file with the given members *)
  zip_image : archive -> bytes
}.

(** What a build reads and changes: the session, the filesystem and the
    randomness the signer draws next. *)
Record machine : Type := mkMachine {
  self : ApplePass;
  fs : filesystem;
  entropy : N
}.

Definition set_self (s : ApplePass) (m : machine) : machine :=
  mkMachine s (fs m) (entropy m).
Definition set_fs (f : filesystem) (m : machine) : machine :=
  mkMachine (self m) f (entropy m).
Definition set_entropy (n : N) (m : machine) : machine :=
  mkMachine (self m) (fs m) n.

(** Computations that may raise and that update a state [St]; the state
    reached when the exception is raised is kept. *)
Definition M (St A : Type) : Type := St -> result A * St.

Definition mret {St A} (a : A) : M St A := fun st => (Ok a, st).
Definition mbind {St A B} (c : M St A) (k : A -> M St B) : M St B :=
  fun st =>
    match c st with
    | (Ok a, st') => k a st'
    | (Err e, st') => (Err e, st')
    end.
Definition lift {St A} (r : result A) : M St A := fun st => (r, st).
Definition gets {St A} (f : St -> A) : M St A := fun st => (Ok (f st), st).
Definition modify {St} (f : St -> St) : M St unit := fun st => (Ok tt, f st).

(** A method of [self] run in a machine. *)
Definition on_self {A} (c : M ApplePass A) : M machine A :=
  fun m => let (r, s') := c (self m) in (r, set_self s' m).

(** [try: c  except Exception as e: raise h(e) from e] *)
Definition try_except {St A} (c : M St A) (h : exn -> exn) : M St A :=
  fun st =>
    match c st with
    | (Ok a, st') => (Ok a, st')
    | (Err e, st') => (Err (h e), st')
    end.

Notation "x <~ c ;; k" := (mbind c (fun x => k))
  (at level 61, c at next level, right associativity).

(** [add_file], the same in both files: a [BytesIO] is read when it is
    staged, from its position, which raises when it is closed; anything
    else is stored as it is. *)
Definition add_file (name : string) (file_data : pyval) : M ApplePass unit :=
  match file_data with
  | PyBytesIO buf pos =>
      modify (fun s =>
        set_files (PyDict.set name (PyBytes (stream_read buf pos)) (_files s)) s)
  | PyClosedBytesIO => lift (Err (ValueError "I/O operation on closed file."))
  | _ => modify (fun s => set_files (PyDict.set name file_data (_files s)) s)
  end.

(** Methods of [pkcs7.PKCS7SignatureBuilder]. *)
Definition new_builder {C K} : PKCS7SignatureBuilder C K := mkBuilder None [] [].
Definition set_data {C K} (data : bytes) (b : PKCS7SignatureBuilder C K) :=
  mkBuilder (Some data) (pk_signers b) (pk_certs b).
Definition add_signer {C K} (cert : C) (key : K) (h : HashAlgorithm)
    (b : PKCS7SignatureBuilder C K) :=
  mkBuilder (pk_data b) (pk_signers b ++ [(cert, key, h)]) (pk_certs b).
Definition add_certificate {C K} (cert : C) (b : PKCS7SignatureBuilder C K) :=
  mkBuilder (pk_data b) (pk_signers b) (pk_certs b ++ [cert]).

(** The message of [create]'s [PassCreationError]. *)
Definition wrap_error (e : exn) : exn :=
  PassCreationError ("Failed to create pass: " +++ exn_str e) e.

(** [json.dumps(self._hashes)] *)
Definition dumps_hashes (h : PyDict.t string) : string :=
  json_dumps (JDict (map (fun kv => (fst kv, JStr (snd kv))) h)).

Section Platform.

Context {Certificate PrivateKey : Type} {X : Extern Certificate PrivateKey}.

(** [_read_file_bytes], the same in both files: the path goes through
    [pathlib.Path], [exists()] and [open(path, "rb")]. *)
Definition _read_file_bytes (path : string) : M machine bytes :=
  fun m =>
    let path := Path_str path in
    match os_stat path (fs m) with
    | None => (Err (FileNotFoundError ("File not found: " +++ path)), m)
    | Some (RawFile b) => (Ok b, m)
    | Some (PkPass _ zf) => (Ok (zip_image zf), m)
    | Some Directory =>
        (Err (IsADirectoryError
                ("[Errno 21] Is a directory: " +++ str_repr path)), m)
    end.

(** [builder.sign(encoding, options)]: draws on the machine's entropy. *)
Definition sign (b : PKCS7SignatureBuilder Certificate PrivateKey)
    (enc : Encoding) (options : list PKCS7Options) : M machine bytes :=
  fun m => (pkcs7_sign b enc options (entropy m),
            set_entropy (N.succ (entropy m)) m).

End Platform.

(** The [BytesIO] that [create] of [models.py] may be handed as
    [zip_file]: open, its buffer and its position, or closed. *)
Inductive BytesIO : Type :=
| OpenBytesIO (buf : bytes) (pos : nat)
| ClosedBytesIO.

(** A [BytesIO] after [zipfile] has written an archive into it: the bytes
    it held before the position at which the archive starts (zeros where
    the position lay beyond its end), the members of the archive, and the
    bytes it held from that position on, of which the archive has
    replaced as many as it is long; what lies beyond stays. *)
Record zip_sink : Type := mkSink {
  sink_before : bytes;
  sink_members : archive;
  sink_beyond : bytes
}.

(** [zipfile.ZipFile(zip_file, "w")] on a [BytesIO]: [tell()] raises on a
    closed one. *)
Definition ZipFile_w (zip_file : BytesIO) : result zip_sink :=
  match zip_file with
  | OpenBytesIO buf pos =>
      Ok (mkSink (firstn pos buf ++ repeat x00 (pos - List.length buf)) []
            (skipn pos buf))
  | ClosedBytesIO => Err (ValueError "I/O operation on closed file.")
  end.

(** [if not zip_file: zip_file = BytesIO()]: a missing sink is replaced
    by a new [BytesIO]; a [BytesIO], closed or not, is true. *)
Definition sink_of (zip_file : option BytesIO) : BytesIO :=
  match zip_file with
  | Some given => given
  | None => OpenBytesIO [] 0
  end.

(* ===================================================================== *)
(** * models.py *)
(* ===================================================================== *)

Module Models.

(** The barcode block of [json_dict]: reads [self.barcode.format]. *)
Definition barcode_block (s : ApplePass) (d : PyDict.t json)
    : result (PyDict.t json) :=
  match barcode s with
  | None => Ok d
  | Some b =>
      let new_barcodes := [Barcode_json_dict b] in
      fmt <- Barcode_getattr b "format" ;;
      legacy_barcode <-
        (if negb (attr_in_formats fmt original_formats) then
           message <- Barcode_getattr b "message" ;;
           alt_text <- Barcode_getattr b "altText" ;;
           Barcode_init (attr_str message) PDF417 (attr_str alt_text)
             "iso-8859-1"
         else Ok b) ;;
      Ok (PyDict.update d
            [ ("barcodes", JList new_barcodes);
              ("barcode", Barcode_json_dict legacy_barcode) ])
  end.

Definition json_dict (s : ApplePass) : result (PyDict.t json) :=
  d <- barcode_block s (json_dict_head s) ;;
  Ok (json_dict_tail s d).

(** [json.dumps(self, default=pass_handler)]: [pass_handler] replaces the
    pass, and every object in it that has a [json_dict], by the result of
    its [json_dict]; the JSON values of the model are past that step. *)
Definition _create_pass_json (s : ApplePass) : result string :=
  d <- json_dict s ;;
  Ok (json_dumps (JDict d)).

(** [hashlib.sha1(filedata).hexdigest()] on a staged value: every object
    with the buffer protocol is digested, a text is refused by name. *)
Definition hashlib_sha1_hexdigest (filedata : pyval) : result string :=
  match filedata with
  | PyBytes b | PyByteArray b | PyBuffer _ b => Ok (sha1_hexdigest b)
  | PyStr _ | PySurrogateStr _ _ =>
      Err (TypeError "Strings must be encoded before hashing")
  | _ => Err (TypeError "object supporting the buffer API required")
  end.

Fixpoint hash_files (items : list (string * pyval)) : M ApplePass unit :=
  match items with
  | [] => mret tt
  | (filename, filedata) :: rest =>
      h <~ lift (hashlib_sha1_hexdigest filedata) ;;
      _ <~ modify (fun s => set_hashes (PyDict.set filename h (_hashes s)) s) ;;
      hash_files rest
  end.

Definition _create_manifest (pass_json : string) : M ApplePass string :=
  _ <~ modify (fun s =>
         set_hashes
           (PyDict.set "pass.json"
              (sha1_hexdigest (utf8_encode pass_json)) (_hashes s)) s) ;;
  items <~ gets _files ;;
  _ <~ hash_files items ;;
  h <~ gets _hashes ;;
  mret (dumps_hashes h).

Fixpoint write_files (items : list (string * pyval)) (zf : archive)
    : result archive :=
  match items with
  | [] => Ok zf
  | (filename, filedata) :: rest =>
      zf' <- writestr filename filedata zf ;;
      write_files rest zf'
  end.

(** The members that [_create_zip] writes, in its order. *)
Definition write_members (pass_json manifest : string) (signature : bytes)
    (s : ApplePass) : result archive :=
  zf1 <- writestr "signature" (PyBytes signature) [] ;;
  zf2 <- writestr "manifest.json" (PyStr manifest) zf1 ;;
  zf3 <- writestr "pass.json" (PyStr pass_json) zf2 ;;
  write_files (_files s) zf3.

(** [_create_zip] as [create] calls it, with the [BytesIO] that
    [zip_file or "pass.pkpass"] selects: the archive is written from the
    position of the sink on and closed. *)
Definition _create_zip (pass_json manifest : string) (signature : bytes)
    (zip_file : BytesIO) (s : ApplePass) : result zip_sink :=
  z <- ZipFile_w zip_file ;;
  zf <- write_members pass_json manifest signature s ;;
  Ok (mkSink (sink_before z) zf (sink_beyond z)).

Section WithExtern.

Context {Certificate PrivateKey : Type} {X : Extern Certificate PrivateKey}.

Definition _create_signature_crypto
    (manifest certificate key wwdr_certificate : string)
    (password : option string) : M machine bytes :=
  cert_pem <~ _read_file_bytes certificate ;;
  cert <~ lift (load_pem_x509_certificate cert_pem) ;;
  let password := option_map utf8_encode password in
  key_pem <~ _read_file_bytes key ;;
  priv_key <~ lift (load_pem_private_key key_pem password) ;;
  wwdr_pem <~ _read_file_bytes wwdr_certificate ;;
  wwdr_cert <~ lift (load_pem_x509_certificate wwdr_pem) ;;
  let options := [DetachedSignature] in
  sign
    (add_certificate wwdr_cert
       (add_signer cert priv_key SHA1_alg
          (set_data (utf8_encode manifest) new_builder)))
    DER options.

(** The body of the [try] of [create]. *)
Definition create_body (certificate key wwdr_certificate : string)
    (password : option string) (zip_file : option BytesIO)
    : M machine zip_sink :=
  pass_json <~ on_self (fun s => (_create_pass_json s, s)) ;;
  manifest <~ on_self (_create_manifest pass_json) ;;
  signature <~
    _create_signature_crypto manifest certificate key wwdr_certificate
      password ;;
  let zip_file := sink_of zip_file in
  on_self (fun s =>
    (_create_zip pass_json manifest signature zip_file s, s)).

(** [create(certificate, key, wwdr_certificate, password, zip_file)]: the
    result is the sink as the call leaves it. *)
Definition create_into (certificate key wwdr_certificate : string)
    (password : option string) (zip_file : option BytesIO)
    : M machine zip_sink :=
  try_except
    (create_body certificate key wwdr_certificate password zip_file)
    wrap_error.

(** [create(certificate, key, wwdr_certificate, password)], with
    [zip_file] left to its default: the [BytesIO] returned is new and
    holds the archive alone, given here by its members. *)
Definition create (certificate key wwdr_certificate : string)
    (password : option string) : M machine archive :=
  z <~ create_into certificate key wwdr_certificate password None ;;
  mret (sink_members z).

End WithExtern.

End Models.

(* ===================================================================== *)
(** * apple_pass.py *)
(* ===================================================================== *)

Module ApplePassPy.

(** The barcode block of [json_dict]: reads [self.barcode._format]. *)
Definition barcode_block (s : ApplePass) (d : PyDict.t json)
    : result (PyDict.t json) :=
  match barcode s with
  | None => Ok d
  | Some b =>
      let new_barcodes := [Barcode_json_dict b] in
      legacy_barcode <-
        (if negb (format_in (_format b) original_formats) then
           message <- Barcode_getattr b "message" ;;
           alt_text <- Barcode_getattr b "altText" ;;
           Barcode_init (attr_str message) PDF417 (attr_str alt_text)
             "iso-8859-1"
         else Ok b) ;;
      Ok (PyDict.update d
            [ ("barcodes", JList new_barcodes);
              ("barcode", Barcode_json_dict legacy_barcode) ])
  end.

Definition json_dict (s : ApplePass) : result (PyDict.t json) :=
  d <- barcode_block s (json_dict_head s) ;;
  Ok (json_dict_tail s d).

Definition _create_pass_json (s : ApplePass) : result string :=
  d <- json_dict s ;;
  Ok (json_dumps (JDict d)).

(** The [if isinstance ... elif ... else raise TypeError] chain that
    [_create_manifest] and [_create_zip] both run on a staged value: the
    bytes it yields, and the value afterwards (a stream has been rewound
    and read to its end). *)
Definition read_filedata (filename : string) (filedata : pyval)
    : result (bytes * pyval) :=
  match filedata with
  | PyBytes b | PyByteArray b => Ok (b, filedata)
  | PyBytesIO buf _ =>
      Ok (stream_read buf 0, PyBytesIO buf (List.length buf))
  | PyBufferedReader buf _ =>
      Ok (stream_read buf 0, PyBufferedReader buf (List.length buf))
  | PyClosedBytesIO => Err (ValueError "I/O operation on closed file.")
  | PyClosedReader => Err (ValueError "seek of closed file")
  | PyUnseekableReader =>
      Err (UnsupportedOperation "File or stream is not seekable.")
  | PyStr t => Ok (utf16_encode t, filedata)
  | PySurrogateStr before surrogate =>
      Err (surrogate_error "utf-16" before surrogate)
  | PyObject _ | PyBuffer _ _ =>
      Err (TypeError ("Unsupported file data type for " +++ filename +++
                      ": " +++ py_type_repr filedata))
  end.

Fixpoint hash_files (items : list (string * pyval)) : M ApplePass unit :=
  match items with
  | [] => mret tt
  | (filename, filedata) :: rest =>
      r <~ lift (read_filedata filename filedata) ;;
      _ <~ modify (fun s =>
             set_files (PyDict.set filename (snd r) (_files s)) s) ;;
      _ <~ modify (fun s =>
             set_hashes
               (PyDict.set filename (sha1_hexdigest (fst r)) (_hashes s)) s) ;;
      hash_files rest
  end.

Definition _create_manifest (pass_json : string) : M ApplePass string :=
  _ <~ modify (fun s =>
         set_hashes
           (PyDict.set "pass.json"
              (sha1_hexdigest (utf16_encode pass_json)) (_hashes s)) s) ;;
  items <~ gets _files ;;
  _ <~ hash_files items ;;
  h <~ gets _hashes ;;
  mret (dumps_hashes h).

(** [zipfile.ZipFile(output, "w")]: creates or truncates the file. *)
Definition zip_open (output : string) : M machine unit :=
  fun m =>
    match open_w_error output (fs m) with
    | Some e => (Err e, m)
    | None =>
        (Ok tt,
         set_fs (mkFs (PyDict.set output (PkPass true []) (nodes (fs m)))
                   (unwritable (fs m))) m)
    end.

(** [zf.writestr(name, data)] on the archive open at [output]. *)
Definition zip_writestr (output name : string) (data : pyval)
    : M machine unit :=
  fun m =>
    match PyDict.get output (nodes (fs m)) with
    | Some (PkPass true zf) =>
        match writestr name data zf with
        | Ok zf' =>
            (Ok tt,
             set_fs (mkFs (PyDict.set output (PkPass true zf') (nodes (fs m)))
                       (unwritable (fs m))) m)
        | Err e => (Err e, m)
        end
    | _ =>
        (Err (ValueError "Attempt to write to ZIP archive that was already closed"), m)
    end.

(** [zf.close()] *)
Definition zip_close (output : string) : M machine unit :=
  fun m =>
    match PyDict.get output (nodes (fs m)) with
    | Some (PkPass _ zf) =>
        (Ok tt,
         set_fs (mkFs (PyDict.set output (PkPass false zf) (nodes (fs m)))
                   (unwritable (fs m))) m)
    | _ => (Ok tt, m)
    end.

Fixpoint write_files (output : string) (items : list (string * pyval))
    : M machine unit :=
  match items with
  | [] => mret tt
  | (filename, filedata) :: rest =>
      r <~ lift (read_filedata filename filedata) ;;
      _ <~ on_self (modify (fun s =>
             set_files (PyDict.set filename (snd r) (_files s)) s)) ;;
      _ <~ zip_writestr output filename (PyBytes (fst r)) ;;
      write_files output rest
  end.

Definition _create_zip (pass_json manifest : string) (signature : bytes)
    (output : string) : M machine unit :=
  _ <~ zip_open output ;;
  _ <~ zip_writestr output "signature" (PyBytes signature) ;;
  _ <~ zip_writestr output "manifest.json" (PyStr manifest) ;;
  _ <~ zip_writestr output "pass.json" (PyStr pass_json) ;;
  items <~ gets (fun m => _files (self m)) ;;
  _ <~ write_files output items ;;
  zip_close output.

Section WithExtern.

Context {Certificate PrivateKey : Type} {X : Extern Certificate PrivateKey}.

Definition _create_signature_crypto
    (manifest certificate key wwdr_certificate : string)
    (password : option string) : M machine bytes :=
  cert_pem <~ _read_file_bytes certificate ;;
  cert <~ lift (load_pem_x509_certificate cert_pem) ;;
  let password := option_map utf16_encode password in
  key_pem <~ _read_file_bytes key ;;
  priv_key <~ lift (load_pem_private_key key_pem password) ;;
  wwdr_pem <~ _read_file_bytes wwdr_certificate ;;
  wwdr_cert <~ lift (load_pem_x509_certificate wwdr_pem) ;;
  let options := [DetachedSignature] in
  sign
    (add_certificate wwdr_cert
       (add_signer cert priv_key SHA1_alg
          (set_data (utf16_encode manifest) new_builder)))
    DER options.

Definition create_body (certificate key wwdr_certificate : string)
    (password : option string) (pass_path : string) : M machine string :=
  pass_json <~ on_self (fun s => (_create_pass_json s, s)) ;;
  manifest <~ on_self (_create_manifest pass_json) ;;
  signature <~
    _create_signature_crypto manifest certificate key wwdr_certificate
      password ;;
  _ <~ _create_zip pass_json manifest signature pass_path ;;
  mret pass_path.

Definition create (certificate key wwdr_certificate : string)
    (password : option string) (pass_path : string) : M machine string :=
  try_except
    (create_body certificate key wwdr_certificate password pass_path)
    wrap_error.

End WithExtern.

End ApplePassPy.

(* ===================================================================== *)
(** * Sessions that the public interface can produce *)
(* ===================================================================== *)

(** [s'] differs from [s] in document fields only. *)
Definition same_store (s s' : ApplePass) : Prop :=
  _files s' = _files s /\ _hashes s' = _hashes s.

(** A [models.py] session as callers get it: constructed with the default
    (empty) stores, then any sequence of attribute assignments to document
    fields, [add_file] calls and [create] calls, with or without a sink,
    successful or not, in any world. *)
Inductive reachable : ApplePass -> Prop :=
| reach_init : forall pi pti org team,
    reachable (ApplePass_init pi pti org team)
| reach_setattr : forall s s',
    reachable s -> same_store s s' -> reachable s'
| reach_add_file : forall s name data,
    reachable s -> reachable (snd (add_file name data s))
| reach_create : forall s (C K : Type) (X : Extern C K)
    (certificate key wwdr : string) (password : option string)
    (f : filesystem) (n : N),
    reachable s ->
    reachable
      (self (snd (Models.create certificate key wwdr password
                    (mkMachine s f n))))
| reach_create_into : forall s (C K : Type) (X : Extern C K)
    (certificate key wwdr : string) (password : option string)
    (zip_file : option BytesIO) (f : filesystem) (n : N),
    reachable s ->
    reachable
      (self (snd (Models.create_into certificate key wwdr password zip_file
                    (mkMachine s f n)))).

(** The keys of a dict after the keys [l] have been assigned in turn. *)
Definition add_key (ks : list string) (k : string) : list string :=
  if existsb (String.eqb k) ks then ks else ks ++ [k].

Definition uniq (l : list string) : list string := fold_left add_key l [].

(** The keys of [l] in order of first occurrence that are not in [seen]. *)
Fixpoint fresh (seen l : list string) : list string :=
  match l with
  | [] => []
  | x :: l' =>
      if existsb (String.eqb x) seen then fresh seen l'
      else x :: fresh (seen ++ [x]) l'
  end.

Definition prefix {A} (a b : list A) : Prop := exists r, b = a ++ r.

(** The order in which manifest construction assigns its keys. *)
Definition manifest_keys (s : ApplePass) : list string :=
  uniq ("pass.json" :: PyDict.keys (_files s)).

(** The names of the three fixed members of the archive. *)
Definition fixed_members : list string :=
  ["signature"; "manifest.json"; "pass.json"].


(** The bytes that a build digests and archives for a stored value: those
    of a bytes-like object (which [models.py] takes as it is), the whole
    buffer of a stream or the UTF-16 bytes of a text (which
    [apple_pass.py] reads); none for a value that cannot be read. *)
Definition content (v : pyval) : bytes :=
  match v with
  | PyBytes b | PyByteArray b | PyBuffer _ b => b
  | PyBytesIO buf _ | PyBufferedReader buf _ => buf
  | PyStr t => utf16_encode t
  | _ => []
  end.

(** A hexadecimal SHA-1 digest of some byte sequence. *)
Definition is_digest (h : string) : Prop := exists data, h = sha1_hexdigest data.

(** The digest entries of staged files, in staging order. *)
Definition digests (items : PyDict.t pyval) : PyDict.t string :=
  map (fun kv => (fst kv, sha1_hexdigest (content (snd kv)))) items.

(** The assignments to [_hashes] of a complete manifest construction that
    digests the document under the encoding [enc]. *)
Definition manifest_entries (enc : string -> bytes) (pass_json : string)
    (s : ApplePass) : PyDict.t string :=
  ("pass.json", sha1_hexdigest (enc pass_json)) :: digests (_files s).

(** Two sessions with the same document: they differ in their stores at
    most. *)
Definition same_document (s1 s2 : ApplePass) : Prop :=
  set_hashes [] (set_files [] s1) = set_hashes [] (set_files [] s2).

(** The invariant of reachable sessions. *)
Record session_inv (s : ApplePass) : Prop := mkInv {
  inv_files_wf : PyDict.wf (_files s);
  inv_hashes_wf : PyDict.wf (_hashes s);
  inv_order : prefix (PyDict.keys (_hashes s)) (manifest_keys s);
  inv_digests : forall k h, In (k, h) (_hashes s) -> is_digest h
}.

(** A stream after [seek(0)] and [read()]; other values as they are. *)
Definition rewound (v : pyval) : pyval :=
  match v with
  | PyBytesIO buf _ => PyBytesIO buf (List.length buf)
  | PyBufferedReader buf _ => PyBufferedReader buf (List.length buf)
  | _ => v
  end.

Definition rewinds (items : PyDict.t pyval) : PyDict.t pyval :=
  map (fun kv => (fst kv, rewound (snd kv))) items.

(** The staged values that [apple_pass.py] reads. *)
Definition readable (v : pyval) : bool :=
  match v with
  | PyBytes _ | PyByteArray _ | PyBytesIO _ _ | PyBufferedReader _ _
  | PyStr _ => true
  | _ => false
  end.


(** The first staged value, in staging order, that [apple_pass.py] fails
    to read: its filename and the error raised. *)
Fixpoint first_unreadable (items : PyDict.t pyval) : option (string * exn) :=
  match items with
  | [] => None
  | (k, v) :: rest =>
      match ApplePassPy.read_filedata k v with
      | Err e => Some (k, e)
      | Ok _ => first_unreadable rest
      end
  end.


(** The stage of [apple_pass.py]'s [create] that raises [cause] on [m]:
    document rendering, manifest construction, signing (which loads the
    certificate, the key and the WWDR certificate first) or archive
    writing, each reached when the stages before it returned. *)
Definition stage_raises {C K} {X : Extern C K}
    (certificate key wwdr : string) (password : option string)
    (pass_path : string) (m : machine) (cause : exn) : Prop :=
  ApplePassPy._create_pass_json (self m) = Err cause \/
  (exists pass_json,
     ApplePassPy._create_pass_json (self m) = Ok pass_json /\
     (fst (ApplePassPy._create_manifest pass_json (self m)) = Err cause \/
      exists manifest s1,
        ApplePassPy._create_manifest pass_json (self m) = (Ok manifest, s1) /\
        (fst (ApplePassPy._create_signature_crypto manifest certificate key
                wwdr password (set_self s1 m)) = Err cause \/
         exists signature m2,
           ApplePassPy._create_signature_crypto manifest certificate key
             wwdr password (set_self s1 m) = (Ok signature, m2) /\
           fst (ApplePassPy._create_zip pass_json manifest signature
                  pass_path m2) = Err cause))).

(** The archive members that a build writes for staged files. *)
Definition contents (items : PyDict.t pyval) : archive :=
  map (fun kv => (arcname (fst kv), content (snd kv))) items.

(** The staged values that [hashlib.sha1] accepts: the objects with the
    buffer protocol. *)
Definition bytes_like (v : pyval) : bool :=
  match v with
  | PyBytes _ | PyByteArray _ | PyBuffer _ _ => true
  | _ => false
  end.

(* ===================================================================== *)
(** * enums.py, fields.py and pass_information.py: fields and sections *)
(* ===================================================================== *)

Module PassInformationPy.

Inductive Alignment : Type := LEFT | CENTER | RIGHT | JUSTIFIED | NATURAL.

(** [Alignment.X.value] *)
Definition Alignment_value (a : Alignment) : string :=
  match a with
  | LEFT => "PKTextAlignmentLeft"
  | CENTER => "PKTextAlignmentCenter"
  | RIGHT => "PKTextAlignmentRight"
  | JUSTIFIED => "PKTextAlignmentJustified"
  | NATURAL => "PKTextAlignmentNatural"
  end.

Inductive TransitType : Type := AIR | TRAIN | BUS | BOAT | GENERIC.

(** [TransitType.X.value]; the enumeration derives from [str], and the
    encoder writes a member as this string. *)
Definition TransitType_value (t : TransitType) : string :=
  match t with
  | AIR => "PKTransitTypeAir"
  | TRAIN => "PKTransitTypeTrain"
  | BUS => "PKTransitTypeBus"
  | BOAT => "PKTransitTypeBoat"
  | GENERIC => "PKTransitTypeGeneric"
  end.

(** A [Field] of [fields.py].  The value is any JSON value; the label is
    [None] when the caller passes [None], as the [add_*_field] methods do
    by default. *)
Record Field : Type := mkField {
  _key : string;
  _value : json;
  _label : option string;
  _change_message : string;
  _text_alignment : Alignment
}.

(** [Field.__init__] *)
Definition Field_init (key : string) (value : json) (label : option string)
    : result Field :=
  if String.eqb key EmptyString then
    Err (ValueError "Field key cannot be empty")
  else Ok (mkField key value label EmptyString LEFT).

(** The two setters of [Field]. *)
Definition Field_set_change_message (value : string) (f : Field) : Field :=
  mkField (_key f) (_value f) (_label f) value (_text_alignment f).

Definition Field_set_text_alignment (value : Alignment) (f : Field) : Field :=
  mkField (_key f) (_value f) (_label f) (_change_message f) value.

(** [Field.json_dict] *)
Definition Field_json_dict (f : Field) : PyDict.t json :=
  [ ("key", JStr (_key f));
    ("value", _value f);
    ("label", json_of_option_str (_label f));
    ("changeMessage", JStr (_change_message f));
    ("textAlignment", JStr (Alignment_value (_text_alignment f))) ].

(** The classes of [pass_information.py]; a boarding pass carries its
    [transit_type]. *)
Inductive PassClass : Type :=
| PassInformation_base
| BoardingPass (transit_type : TransitType)
| Coupon
| EventTicket
| Generic
| StoreCard.

(** An object of one of these classes, its lists holding the [Field]
    objects that the [add_*_field] methods make. *)
Record PassInfo : Type := mkPassInfo {
  cls : PassClass;
  header_fields : list Field;
  primary_fields : list Field;
  secondary_fields : list Field;
  back_fields : list Field;
  auxiliary_fields : list Field
}.

(** The constructor with its defaults. *)
Definition PassInfo_init (c : PassClass) : PassInfo :=
  mkPassInfo c [] [] [] [] [].

Definition set_header_fields (l : list Field) (p : PassInfo) : PassInfo :=
  mkPassInfo (cls p) l (primary_fields p) (secondary_fields p)
    (back_fields p) (auxiliary_fields p).
Definition set_primary_fields (l : list Field) (p : PassInfo) : PassInfo :=
  mkPassInfo (cls p) (header_fields p) l (secondary_fields p)
    (back_fields p) (auxiliary_fields p).
Definition set_secondary_fields (l : list Field) (p : PassInfo) : PassInfo :=
  mkPassInfo (cls p) (header_fields p) (primary_fields p) l
    (back_fields p) (auxiliary_fields p).
Definition set_back_fields (l : list Field) (p : PassInfo) : PassInfo :=
  mkPassInfo (cls p) (header_fields p) (primary_fields p)
    (secondary_fields p) l (auxiliary_fields p).
Definition set_auxiliary_fields (l : list Field) (p : PassInfo) : PassInfo :=
  mkPassInfo (cls p) (header_fields p) (primary_fields p)
    (secondary_fields p) (back_fields p) l.

(** [self.header_fields.append(Field(key, value, label))] and its four
    siblings: the field is made first, so nothing is appended when its
    constructor raises. *)
Definition add_header_field (key : string) (value : json)
    (label : option string) : M PassInfo unit :=
  f <~ lift (Field_init key value label) ;;
  modify (fun p => set_header_fields (header_fields p ++ [f]) p).

Definition add_primary_field (key : string) (value : json)
    (label : option string) : M PassInfo unit :=
  f <~ lift (Field_init key value label) ;;
  modify (fun p => set_primary_fields (primary_fields p ++ [f]) p).

Definition add_secondary_field (key : string) (value : json)
    (label : option string) : M PassInfo unit :=
  f <~ lift (Field_init key value label) ;;
  modify (fun p => set_secondary_fields (secondary_fields p ++ [f]) p).

Definition add_back_field (key : string) (value : json)
    (label : option string) : M PassInfo unit :=
  f <~ lift (Field_init key value label) ;;
  modify (fun p => set_back_fields (back_fields p ++ [f]) p).

Definition add_auxiliary_field (key : string) (value : json)
    (label : option string) : M PassInfo unit :=
  f <~ lift (Field_init key value label) ;;
  modify (fun p => set_auxiliary_fields (auxiliary_fields p ++ [f]) p).

(** [field_mapping] of [PassInformation.json_dict], in its order. *)
Definition field_mapping (p : PassInfo) : list (string * list Field) :=
  [ ("headerFields", header_fields p);
    ("primaryFields", primary_fields p);
    ("secondaryFields", secondary_fields p);
    ("backFields", back_fields p);
    ("auxiliaryFields", auxiliary_fields p) ].

(** [[f.json_dict() for f in fields]] *)
Definition render_fields (fields : list Field) : json :=
  JList (map (fun f => JDict (Field_json_dict f)) fields).

(** The loop of [PassInformation.json_dict]: [if fields: result[key] = ...] *)
Fixpoint sections (mapping : list (string * list Field))
    (result : PyDict.t json) : PyDict.t json :=
  match mapping with
  | [] => result
  | (key, fields) :: rest =>
      sections rest
        (match fields with
         | [] => result
         | _ :: _ => PyDict.set key (render_fields fields) result
         end)
  end.

(** [PassInformation.json_dict] *)
Definition PassInformation_json_dict (p : PassInfo) : PyDict.t json :=
  sections (field_mapping p) PyDict.empty.

(** [json_dict] as the class of the object defines it: [BoardingPass]
    adds [transitType] to what the base class returns. *)
Definition json_dict (p : PassInfo) : PyDict.t json :=
  match cls p with
  | BoardingPass t =>
      PyDict.set "transitType" (JStr (TransitType_value t))
        (PassInformation_json_dict p)
  | _ => PassInformation_json_dict p
  end.

(** [p.jsonname]: a field of the five subclasses, not of the base class. *)
Definition getattr_jsonname (p : PassInfo) : result string :=
  match cls p with
  | PassInformation_base =>
      Err (AttributeError
             "'PassInformation' object has no attribute 'jsonname'")
  | BoardingPass _ => Ok "boardingPass"
  | Coupon => Ok "coupon"
  | EventTicket => Ok "eventTicket"
  | Generic => Ok "generic"
  | StoreCard => Ok "storeCard"
  end.

(** What [ApplePass.json_dict] takes from the object when it renders. *)
Definition snapshot (p : PassInfo) : result PassInformation :=
  name <- getattr_jsonname p ;;
  Ok (mkPassInformation name (JDict (json_dict p))).

(** The five sections, to speak of the five [add_*_field] methods at
    once. *)
Inductive part : Type := Header | Primary | Secondary | Back | Auxiliary.

Definition part_key (x : part) : string :=
  match x with
  | Header => "headerFields"
  | Primary => "primaryFields"
  | Secondary => "secondaryFields"
  | Back => "backFields"
  | Auxiliary => "auxiliaryFields"
  end.

Definition part_fields (x : part) (p : PassInfo) : list Field :=
  match x with
  | Header => header_fields p
  | Primary => primary_fields p
  | Secondary => secondary_fields p
  | Back => back_fields p
  | Auxiliary => auxiliary_fields p
  end.

Definition set_part_fields (x : part) (l : list Field) (p : PassInfo)
    : PassInfo :=
  match x with
  | Header => set_header_fields l p
  | Primary => set_primary_fields l p
  | Secondary => set_secondary_fields l p
  | Back => set_back_fields l p
  | Auxiliary => set_auxiliary_fields l p
  end.

Definition add_field (x : part) : string -> json -> option string ->
    M PassInfo unit :=
  match x with
  | Header => add_header_field
  | Primary => add_primary_field
  | Secondary => add_secondary_field
  | Back => add_back_field
  | Auxiliary => add_auxiliary_field
  end.

(** [l[i] = x] for [i] in range. *)
Fixpoint list_assign {A} (i : nat) (x : A) (l : list A) : list A :=
  match l, i with
  | [], _ => []
  | _ :: l', O => x :: l'
  | y :: l', S i' => y :: list_assign i' x l'
  end.

(** The objects that the constructor with its defaults, the [add_*_field]
    methods and the setters of the fields they hold can produce. *)
Inductive built : PassInfo -> Prop :=
| built_init c : built (PassInfo_init c)
| built_add x key value label p p' :
    built p -> add_field x key value label p = (Ok tt, p') -> built p'
| built_change_message x i f value p :
    built p -> nth_error (part_fields x p) i = Some f ->
    built (set_part_fields x
             (list_assign i (Field_set_change_message value f)
                (part_fields x p)) p)
| built_text_alignment x i f value p :
    built p -> nth_error (part_fields x p) i = Some f ->
    built (set_part_fields x
             (list_assign i (Field_set_text_alignment value f)
                (part_fields x p)) p).

End PassInformationPy.

(** The keys of the rendered document that [json_dict] writes whatever
    the pass holds. *)
Definition required_entries (s : ApplePass) : PyDict.t json :=
  [ ("description", JStr (description s));
    ("formatVersion", JInt (format_version s));
    ("organizationName", JStr (organization_name s));
    ("passTypeIdentifier", JStr (pass_type_identifier s));
    ("serialNumber", JStr (serial_number s));
    ("teamIdentifier", JStr (team_identifier s));
    ("suppressStripShine", JBool (suppress_strip_shine s)) ].

(** The web-service keys of the rendered document: both or none. *)
Definition web_service_entries (s : ApplePass) : PyDict.t json :=
  match web_service_url s with
  | Some url =>
      if String.eqb url EmptyString then []
      else [ ("webServiceURL", JStr url);
             ("authenticationToken",
              json_of_option_str (authentication_token s)) ]
  | None => []
  end.

(** The entry [voided] of the rendered document. *)
Definition voided_entries (s : ApplePass) : PyDict.t json :=
  match voided s with
  | Some true => [ ("voided", JBool true) ]
  | _ => []
  end.

(** The two barcode keys of the rendered document. *)
Definition barcode_entries (s : ApplePass) : PyDict.t json :=
  match barcode s with
  | Some b =>
      [ ("barcodes", JList [Barcode_json_dict b]);
        ("barcode", Barcode_json_dict b) ]
  | None => []
  end.

(** [self.barcodes = value] *)
Definition set_barcodes (value : option json) (s : ApplePass) : ApplePass :=
  mkApplePass (pass_information s) (pass_type_identifier s)
    (organization_name s) (team_identifier s) (serial_number s)
    (description s) (format_version s) (background_color s)
    (foreground_color s) (label_color s) (logo_text s) (barcode s)
    value (suppress_strip_shine s) (web_service_url s)
    (authentication_token s) (locations s) (ibeacons s) (relevant_date s)
    (associated_store_identifiers s) (app_launch_url s) (user_info s)
    (expiration_date s) (voided s) (_files s) (_hashes s).

(** Every staged file has a name that [writestr] takes. *)
Definition names_ok (items : PyDict.t pyval) : bool :=
  forallb (fun kv => member_name_ok (fst kv)) items.


(* ===================================================================== *)
(** * A stand-in library and concrete builds *)
(* ===================================================================== *)

(** A small instance of [Extern] on which the pipeline can be run: a
    certificate is accepted when it starts with the PEM header, a key file
    is a length-prefixed passphrase (empty: not encrypted) followed by the
    key, and the signature of a payload is its digest followed by one byte
    of the randomness drawn. *)
Module Demo.

Fixpoint prefixb (p l : bytes) : bool :=
  match p, l with
  | [], _ => true
  | a :: p', b :: l' => Byte.eqb a b && prefixb p' l'
  | _ :: _, [] => false
  end.

Fixpoint bytes_eqb (a b : bytes) : bool :=
  match a, b with
  | [], [] => true
  | x :: a', y :: b' => Byte.eqb x y && bytes_eqb a' b'
  | _, _ => false
  end.

Definition pem_header : bytes := utf8_encode "-----BEGIN CERTIFICATE-----".

Definition load_cert (pem : bytes) : result bytes :=
  if prefixb pem_header pem then Ok pem
  else Err (ValueError "Unable to load PEM file. MalformedFraming").

Definition load_key (pem : bytes) (password : option bytes) : result bytes :=
  match pem with
  | [] => Err (ValueError "Could not deserialize key data.")
  | n :: rest =>
      let k := N.to_nat (Byte.to_N n) in
      let passphrase := firstn k rest in
      let body := skipn k rest in
      match k, password with
      | O, None => Ok body
      | O, Some _ =>
          Err (TypeError "Password was given but private key is not encrypted.")
      | S _, None =>
          Err (TypeError "Password was not given but private key is encrypted")
      | S _, Some p =>
          if bytes_eqb p passphrase then Ok body
          else Err (ValueError "Bad decrypt. Incorrect password?")
      end
  end.

Definition sign_pkcs7 (b : PKCS7SignatureBuilder bytes bytes)
    (enc : Encoding) (options : list PKCS7Options) (rnd : N) : result bytes :=
  match pk_data b, pk_signers b with
  | Some d, _ :: _ => Ok (SHA1.digest d ++ [byte_of_N rnd])
  | None, _ => Err (ValueError "You must add data to sign.")
  | _, [] => Err (ValueError "Must have at least one signer.")
  end.

#[export] Instance extern : Extern bytes bytes := {
  load_pem_x509_certificate := load_cert;
  load_pem_private_key := load_key;
  pkcs7_sign := sign_pkcs7;
  zip_image := fun zf => List.concat (map snd zf)
}.

Definition cert_pem : bytes := utf8_encode "-----BEGIN CERTIFICATE-----MIIB".
Definition wwdr_pem : bytes := utf8_encode "-----BEGIN CERTIFICATE-----WWDR".
Definition key_pem : bytes := x00 :: utf8_encode "KEY".
(** The same key protected by the passphrase [a]. *)
Definition locked_key_pem : bytes := x01 :: utf8_encode "a" ++ utf8_encode "KEY".
Definition bad_pem : bytes := utf8_encode "not a certificate".

Definition disk : filesystem :=
  mkFs [ ("cert.pem", RawFile cert_pem);
         ("key.pem", RawFile key_pem);
         ("locked.pem", RawFile locked_key_pem);
         ("wwdr.pem", RawFile wwdr_pem);
         ("bad.pem", RawFile bad_pem) ]
       ["/readonly/pass.pkpass"].

(** A generic pass described "Gate 22", nothing staged. *)
Definition gate22 : ApplePass :=
  let s := ApplePass_init (mkPassInformation "generic" (JDict []))
             "pass.com.example" "Example" "TEAM123456" in
  mkApplePass (pass_information s) (pass_type_identifier s)
    (organization_name s) (team_identifier s) "0001" "Gate 22"
    (format_version s) None None None None None None false None None None
    None None None None None None None (_files s) (_hashes s).

Definition icon : bytes := [x89; x50; x4e; x47; x0d; x0a; x1a; x0a; x00; x00].

Definition with_icon : ApplePass :=
  snd (add_file "icon.png" (PyBytes icon) gate22).

Definition with_object : ApplePass :=
  snd (add_file "logo.png" (PyObject "int") with_icon).

Definition machine_of (s : ApplePass) : machine := mkMachine s disk 0.

Definition with_barcode (f : BarcodeFormat) : ApplePass :=
  let s := gate22 in
  mkApplePass (pass_information s) (pass_type_identifier s)
    (organization_name s) (team_identifier s) (serial_number s)
    (description s) (format_version s) None None None None
    (Some (mkBarcode f "0001" "iso-8859-1" EmptyString)) None false None None
    None
    None None None None None None None (_files s) (_hashes s).

Definition first_build : result archive * machine :=
  Models.create (X := extern) "cert.pem" "key.pem" "wwdr.pem" None
    (machine_of with_icon).

(** The session after a first build. *)
Definition used : ApplePass := self (snd first_build).

Definition archive_of (r : result archive) : archive :=
  match r with
  | Ok zf => zf
  | Err _ => []
  end.


(** The build of [apple_pass.py] on "Gate 22" with the icon staged. *)
Definition apple_pass_build : result string * machine :=
  ApplePassPy.create (X := extern) "cert.pem" "key.pem" "wwdr.pem" None
    "pass.pkpass" (machine_of with_icon).

(** The archive that a machine holds at [pass.pkpass]. *)
Definition pkpass_of (m : machine) : archive :=
  match PyDict.get "pass.pkpass" (nodes (fs m)) with
  | Some (PkPass false zf) => zf
  | _ => []
  end.

(** "Gate 22" with a text staged as [notes.txt] after the icon. *)
Definition with_text : ApplePass :=
  snd (add_file "notes.txt" (PyStr "hi") with_icon).

(** "Gate 22" with a reader staged as [strip.png], wherever its position
    is. *)
Definition with_reader : ApplePass :=
  snd (add_file "strip.png" (PyBufferedReader icon 4) gate22).

(** A boarding pass with three fields, two of them under one key. *)
Definition boarding : PassInformationPy.PassInfo :=
  let run (c : M PassInformationPy.PassInfo unit) p := snd (c p) in
  run (PassInformationPy.add_primary_field "gate" (JStr "23") None)
    (run (PassInformationPy.add_header_field "gate" (JStr "22") (Some "GATE"))
       (run (PassInformationPy.add_header_field "seat" (JStr "12A") None)
          (PassInformationPy.PassInfo_init
             (PassInformationPy.BoardingPass PassInformationPy.TRAIN)))).

(** "Gate 22" carrying that boarding pass, served by a web service, with
    a colour and nothing else set. *)
Definition boarding_pass : ApplePass :=
  let s := gate22 in
  mkApplePass
    (mkPassInformation "boardingPass"
       (JDict (PassInformationPy.json_dict boarding)))
    (pass_type_identifier s)
    (organization_name s) (team_identifier s) (serial_number s)
    (description s) (format_version s) None (Some "rgb(0, 0, 0)") None None
    None None false (Some "https://example.com/passes") None
    None
    None None None None None None None (_files s) (_hashes s).





(** The build of [models.py] on "Gate 22" with the icon staged, into a
    [BytesIO] that holds three bytes and stands after the first. *)
Definition sink_build : result zip_sink * machine :=
  Models.create_into (X := extern) "cert.pem" "key.pem" "wwdr.pem" None
    (Some (OpenBytesIO [x01; x02; x03] 1)) (machine_of with_icon).

Definition members_of (r : result zip_sink) : archive :=
  match r with
  | Ok z => sink_members z
  | Err _ => []
  end.

(** "Gate 22" with the icon staged under the empty name. *)
Definition with_empty_name : ApplePass :=
  snd (add_file EmptyString (PyBytes icon) gate22).

End Demo.

(* ===================================================================== *)
(** * Properties of the building blocks *)
(* ===================================================================== *)

Section DictFacts.

Context {V : Type}.
Implicit Types (d : PyDict.t V) (k : string) (v : V).

Lemma existsb_eqb_In k (l : list string) :
  existsb (String.eqb k) l = true <-> In k l.
Proof.
  rewrite existsb_exists. split.
  - intros [x [Hin Heq]]. apply String.eqb_eq in Heq. now subst.
  - intros Hin. exists k. split; [assumption | apply String.eqb_refl].
Qed.

Lemma keys_set k v d :
  PyDict.keys (PyDict.set k v d) = add_key (PyDict.keys d) k.
Proof.
  unfold add_key. induction d as [|[k' v'] d IH]; simpl; [reflexivity|].
  destruct (String.eqb k k') eqn:E; simpl; [reflexivity|].
  rewrite IH. now destruct (existsb (String.eqb k) (PyDict.keys d)).
Qed.

Lemma In_add_key (ks : list string) k k' :
  In k' (add_key ks k) <-> k' = k \/ In k' ks.
Proof.
  unfold add_key. destruct (existsb (String.eqb k) ks) eqn:E.
  - apply existsb_eqb_In in E. split; [now right | intros [->|H]; assumption].
  - rewrite in_app_iff. simpl. intuition.
Qed.


Lemma NoDup_add_key (ks : list string) k : NoDup ks -> NoDup (add_key ks k).
Proof.
  intros H. unfold add_key. destruct (existsb (String.eqb k) ks) eqn:E;
    [assumption|].
  apply NoDup_app; [assumption | repeat constructor; intros [] |].
  intros x Hx [<-|[]]. apply existsb_eqb_In in Hx. congruence.
Qed.

Lemma wf_set k v d : PyDict.wf d -> PyDict.wf (PyDict.set k v d).
Proof. unfold PyDict.wf. rewrite keys_set. apply NoDup_add_key. Qed.

Lemma get_set_eq k v d : PyDict.get k (PyDict.set k v d) = Some v.
Proof.
  induction d as [|[k' v'] d IH]; simpl.
  - now rewrite String.eqb_refl.
  - destruct (String.eqb k k') eqn:E; simpl; rewrite E; [reflexivity | exact IH].
Qed.

Lemma get_set_neq k k' v d :
  k <> k' -> PyDict.get k' (PyDict.set k v d) = PyDict.get k' d.
Proof.
  intros Hne. induction d as [|[k0 v0] d IH]; simpl.
  - destruct (String.eqb k' k) eqn:E; [|reflexivity].
    apply String.eqb_eq in E. congruence.
  - destruct (String.eqb k k0) eqn:E; simpl.
    + apply String.eqb_eq in E. subst k0.
      destruct (String.eqb k' k) eqn:E'; [|reflexivity].
      apply String.eqb_eq in E'. congruence.
    + now rewrite IH.
Qed.

Lemma get_None_notin k d :
  PyDict.get k d = None <-> ~ In k (PyDict.keys d).
Proof.
  induction d as [|[k' v'] d IH]; simpl; [intuition|].
  destruct (String.eqb k k') eqn:E.
  - apply String.eqb_eq in E. subst. split; [discriminate | intros H; exfalso; auto].
  - apply String.eqb_neq in E. rewrite IH. intuition.
Qed.

Lemma get_In k v d : PyDict.get k d = Some v -> In (k, v) d.
Proof.
  induction d as [|[k' v'] d IH]; simpl; [discriminate|].
  destruct (String.eqb k k') eqn:E.
  - apply String.eqb_eq in E. intros [= ->]. subst. now left.
  - intros H. right. auto.
Qed.

Lemma In_get k v d : PyDict.wf d -> In (k, v) d -> PyDict.get k d = Some v.
Proof.
  unfold PyDict.wf. induction d as [|[k' v'] d IH]; simpl; [intros _ []|].
  intros Hnd [Heq|Hin]; inversion Hnd as [|? ? Hnotin Hnd']; subst.
  - injection Heq as -> ->. now rewrite String.eqb_refl.
  - destruct (String.eqb k k') eqn:E; [|auto].
    apply String.eqb_eq in E. subst. exfalso. apply Hnotin.
    change k' with (fst (k', v)). now apply in_map.
Qed.

(** A value found in [set k v d] is the new one or was already there. *)
Lemma In_set k v d k' v' :
  In (k', v') (PyDict.set k v d) -> (k' = k /\ v' = v) \/ In (k', v') d.
Proof.
  induction d as [|[k0 v0] d IH]; simpl.
  - intros [[= <- <-]|[]]. now left.
  - destruct (String.eqb k k0) eqn:E; simpl.
    + apply String.eqb_eq in E. subst.
      intros [[= <- <-]|H]; [now left | now right; right].
    + intros [H|H]; [now right; left|]. destruct (IH H); [now left | now right; right].
Qed.



(** Two dicts with the same keys in the same order and the same value
    under every key are the same dict. *)
Lemma dict_ext (d1 d2 : PyDict.t V) :
  PyDict.wf d1 ->
  PyDict.keys d1 = PyDict.keys d2 ->
  (forall k, In k (PyDict.keys d1) -> PyDict.get k d1 = PyDict.get k d2) ->
  d1 = d2.
Proof.
  unfold PyDict.wf. revert d2.
  induction d1 as [|[k1 v1] d1 IH]; intros [|[k2 v2] d2]; simpl;
    try discriminate; [reflexivity|].
  intros Hnd [= <- Hk] Hget. inversion Hnd as [|? ? Hnotin Hnd']; subst.
  pose proof (Hget k1 (or_introl eq_refl)) as H1.
  rewrite String.eqb_refl in H1. injection H1 as <-.
  f_equal. apply IH; [assumption | assumption |].
  intros k Hin. specialize (Hget k (or_intror Hin)).
  destruct (String.eqb k k1) eqn:E; [|assumption].
  apply String.eqb_eq in E. subst. contradiction.
Qed.

End DictFacts.

Section DigestFacts.

(** The test vectors of FIPS 180: the empty message, one block, two
    blocks. *)
Example sha1_empty :
  sha1_hexdigest [] = "da39a3ee5e6b4b0d3255bfef95601890afd80709".
Proof. vm_compute. reflexivity. Qed.

Example sha1_abc :
  sha1_hexdigest (utf8_encode "abc") = "a9993e364706816aba3e25717850c26c9cd0d89d".
Proof. vm_compute. reflexivity. Qed.

Example sha1_two_blocks :
  sha1_hexdigest
    (utf8_encode "abcdbcdecdefdefgefghfghighijhijkijkljklmklmnlmnomnopnopq") =
  "84983e441c3bd26ebaae4aa1f95129e5e54670f1".
Proof. vm_compute. reflexivity. Qed.

Example utf8_latin1 : utf8_encode (String (ascii_of_N 233) "t") = [xc3; xa9; x74].
Proof. reflexivity. Qed.

Example utf16_latin1 :
  utf16_encode (String (ascii_of_N 233) "t") = [xff; xfe; xe9; x00; x74; x00].
Proof. reflexivity. Qed.







(** The UTF-16 rendering of a text is never its UTF-8 rendering: it
    starts with the byte 0xFF, which UTF-8 never produces. *)
Lemma utf16_ne_utf8 (t : string) : utf16_encode t <> utf8_encode t.
Proof.
  destruct t as [|c t]; [discriminate|].
  unfold utf16_encode. simpl. intros H.
  assert (Hc : hd x00 (utf8_char c ++ utf8_encode t) = xff) by now rewrite <- H.
  clear H. revert Hc.
  destruct c as [[] [] [] [] [] [] [] []]; vm_compute; discriminate.
Qed.

End DigestFacts.

Section KeyOrder.

Implicit Types (ks l : list string) (k x : string).

Lemma fold_add_key l : forall ks, fold_left add_key l ks = ks ++ fresh ks l.
Proof.
  induction l as [|x l IH]; intros ks; simpl.
  - now rewrite app_nil_r.
  - unfold add_key at 2. destruct (existsb (String.eqb x) ks); rewrite IH.
    + reflexivity.
    + now rewrite <- app_assoc.
Qed.

Lemma uniq_fresh l : uniq l = fresh [] l.
Proof. unfold uniq. now rewrite fold_add_key. Qed.

Lemma fresh_prefix l : forall seen ks,
  prefix ks (fresh seen l) -> fresh seen l = ks ++ fresh (seen ++ ks) l.
Proof.
  induction l as [|x l IH]; intros seen ks [r Hr]; simpl in *.
  - destruct ks; [reflexivity | discriminate].
  - destruct (existsb (String.eqb x) seen) eqn:E.
    + assert (E' : existsb (String.eqb x) (seen ++ ks) = true).
      { rewrite existsb_app, E. reflexivity. }
      rewrite E'. apply IH. now exists r.
    + destruct ks as [|k ks].
      * simpl. rewrite app_nil_r, E. reflexivity.
      * simpl in Hr. injection Hr as <- Hr.
        assert (E' : existsb (String.eqb x) (seen ++ x :: ks) = true).
        { rewrite existsb_app. simpl. rewrite String.eqb_refl.
          now rewrite orb_true_r. }
        rewrite E'. simpl. f_equal.
        rewrite (IH (seen ++ [x]) ks) by now exists r.
        now rewrite <- app_assoc.
Qed.

(** Assigning all of [l] to a dict whose keys are a prefix of [uniq l]
    leaves the keys [uniq l]. *)
Lemma fold_add_key_prefix l ks :
  prefix ks (uniq l) -> fold_left add_key l ks = uniq l.
Proof.
  intros H. rewrite uniq_fresh in *. rewrite fold_add_key.
  now rewrite (fresh_prefix l [] ks H).
Qed.

(** Assigning only the first keys of [l] keeps the keys a prefix. *)
Lemma fold_add_key_partial l1 l2 ks :
  prefix ks (uniq (l1 ++ l2)) ->
  prefix (fold_left add_key l1 ks) (uniq (l1 ++ l2)).
Proof.
  intros H. rewrite <- (fold_add_key_prefix _ _ H).
  rewrite fold_left_app.
  exists (fresh (fold_left add_key l1 ks) l2). apply fold_add_key.
Qed.

Lemma uniq_snoc l x : uniq (l ++ [x]) = add_key (uniq l) x.
Proof. unfold uniq. now rewrite fold_left_app. Qed.

Lemma prefix_add_key ks l x : prefix ks l -> prefix ks (add_key l x).
Proof.
  intros [r ->]. unfold add_key.
  destruct (existsb _ _); [now exists r | exists (r ++ [x])].
  now rewrite app_assoc.
Qed.

Lemma In_fold_add_key l : forall ks k,
  In k (fold_left add_key l ks) <-> In k ks \/ In k l.
Proof.
  induction l as [|x l IH]; intros ks k; simpl; [intuition|].
  rewrite IH, In_add_key. intuition.
Qed.

Lemma In_uniq l k : In k (uniq l) <-> In k l.
Proof. unfold uniq. rewrite In_fold_add_key. simpl. intuition. Qed.

Lemma NoDup_fold_add_key l : forall ks,
  NoDup ks -> NoDup (fold_left add_key l ks).
Proof.
  induction l as [|x l IH]; intros ks H; simpl; [assumption|].
  apply IH. now apply NoDup_add_key.
Qed.

Context {V : Type}.
Implicit Types (d : PyDict.t V).

Lemma update_snoc d (l : PyDict.t V) k (v : V) :
  PyDict.update d (l ++ [(k, v)]) = PyDict.set k v (PyDict.update d l).
Proof. unfold PyDict.update. now rewrite fold_left_app. Qed.

Lemma keys_update (l : PyDict.t V) : forall d,
  PyDict.keys (PyDict.update d l) =
  fold_left add_key (PyDict.keys l) (PyDict.keys d).
Proof.
  unfold PyDict.update.
  induction l as [|[k v] l IH]; intros d; simpl; [reflexivity|].
  now rewrite IH, keys_set.
Qed.

Lemma wf_update (l : PyDict.t V) d :
  PyDict.wf d -> PyDict.wf (PyDict.update d l).
Proof.
  unfold PyDict.wf. rewrite keys_update. apply NoDup_fold_add_key.
Qed.

(** Under a key that [l] assigns, the value after the update does not
    depend on the dict updated. *)
Lemma get_update_in (l : PyDict.t V) d d' k :
  In k (PyDict.keys l) ->
  PyDict.get k (PyDict.update d l) = PyDict.get k (PyDict.update d' l).
Proof.
  induction l as [|[k0 v0] l IH] using rev_ind; [intros []|].
  unfold PyDict.keys. rewrite map_app, in_app_iff. simpl.
  rewrite !update_snoc. intros Hin.
  destruct (String.eqb k0 k) eqn:E.
  - apply String.eqb_eq in E. subst. now rewrite !get_set_eq.
  - apply String.eqb_neq in E. rewrite !get_set_neq by assumption.
    apply IH. destruct Hin as [H|[H|[]]]; [exact H | contradiction].
Qed.

Lemma In_update (l : PyDict.t V) d k (v : V) :
  In (k, v) (PyDict.update d l) -> In (k, v) d \/ In (k, v) l.
Proof.
  induction l as [|[k0 v0] l IH] using rev_ind; [now left|].
  rewrite update_snoc. intros H. apply In_set in H.
  rewrite in_app_iff. simpl.
  destruct H as [[-> ->]|H]; [now right; right; left|].
  destruct (IH H); [now left | now right; left].
Qed.

End KeyOrder.

(* ===================================================================== *)
(** * models.py: manifest construction and the session invariant *)
(* ===================================================================== *)

Section ModelsManifest.

Lemma set_hashes_id s : set_hashes (_hashes s) s = s.
Proof. now destruct s. Qed.

Lemma set_files_id s : set_files (_files s) s = s.
Proof. now destruct s. Qed.

Lemma digests_is_digest items k h : In (k, h) (digests items) -> is_digest h.
Proof.
  unfold digests. rewrite in_map_iff. intros [[k' v] [[= <- <-] _]].
  now eexists.
Qed.

Lemma keys_digests items : PyDict.keys (digests items) = PyDict.keys items.
Proof. unfold digests, PyDict.keys. rewrite map_map. reflexivity. Qed.

(** The loop of [_create_manifest]: it performs a prefix of the
    assignments [digests items], all of them when it returns. *)
Lemma models_hash_files_run items : forall s,
  exists n,
    snd (Models.hash_files items s) =
      set_hashes (PyDict.update (_hashes s) (firstn n (digests items))) s /\
    (fst (Models.hash_files items s) = Ok tt -> firstn n (digests items) = digests items).
Proof.
  induction items as [|[k v] items IH]; intros s.
  - exists 0. simpl. split; [now rewrite set_hashes_id | reflexivity].
  - assert (Hstop : forall e, Models.hashlib_sha1_hexdigest v = Err e ->
              exists n,
                snd (Models.hash_files ((k, v) :: items) s) =
                  set_hashes (PyDict.update (_hashes s)
                                (firstn n (digests ((k, v) :: items)))) s /\
                (fst (Models.hash_files ((k, v) :: items) s) = Ok tt ->
                 firstn n (digests ((k, v) :: items)) = digests ((k, v) :: items))).
    { intros e He. exists 0. simpl. unfold mbind, lift. rewrite He. simpl.
      split; [now rewrite set_hashes_id | discriminate]. }
    assert (Hgo : forall b, Models.hashlib_sha1_hexdigest v = Ok (sha1_hexdigest b) ->
              content v = b ->
              exists n,
                snd (Models.hash_files ((k, v) :: items) s) =
                  set_hashes (PyDict.update (_hashes s)
                                (firstn n (digests ((k, v) :: items)))) s /\
                (fst (Models.hash_files ((k, v) :: items) s) = Ok tt ->
                 firstn n (digests ((k, v) :: items)) = digests ((k, v) :: items))).
    { intros b Hb Hc.
      destruct (IH (set_hashes (PyDict.set k (sha1_hexdigest b) (_hashes s)) s))
        as [n [Hs Hr]].
      exists (S n). simpl. unfold mbind, lift, modify. rewrite Hb. simpl.
      unfold mbind in Hs, Hr. rewrite Hc. split.
      - rewrite Hs. reflexivity.
      - intros H. f_equal. now apply Hr. }
    destruct v; simpl in *;
      try (now apply (Hgo b)); now eapply Hstop.
Qed.

(** [_create_manifest] performs a nonempty prefix of the assignments
    [manifest_entries], all of them when it returns; it then returns
    the rendering of [_hashes]. *)
Lemma models_manifest_run pass_json s :
  exists n,
    snd (Models._create_manifest pass_json s) =
      set_hashes
        (PyDict.update (_hashes s)
           (firstn (S n) (manifest_entries utf8_encode pass_json s))) s /\
    (forall manifest,
       fst (Models._create_manifest pass_json s) = Ok manifest ->
       firstn (S n) (manifest_entries utf8_encode pass_json s) =
         manifest_entries utf8_encode pass_json s /\
       manifest = dumps_hashes (_hashes (snd (Models._create_manifest pass_json s)))).
Proof.
  unfold Models._create_manifest, mbind, modify, gets, mret. simpl.
  set (s1 := set_hashes _ s).
  destruct (models_hash_files_run (_files s) s1) as [n [Hs Hr]].
  exists n. destruct (Models.hash_files (_files s) s1) as [[[]|e] s2];
    simpl in *; subst s2; (split; [reflexivity|]); intros manifest H;
    [|discriminate].
  injection H as <-. split; [|reflexivity].
  unfold manifest_entries. simpl. f_equal. now apply Hr.
Qed.

End ModelsManifest.

Section ModelsInvariant.

Lemma In_firstn {A} (x : A) n l : In x (firstn n l) -> In x l.
Proof.
  intros H. rewrite <- (firstn_skipn n l). apply in_or_app. now left.
Qed.

Lemma keys_firstn {V} (d : PyDict.t V) n :
  PyDict.keys (firstn n d) = firstn n (PyDict.keys d).
Proof. unfold PyDict.keys. now rewrite firstn_map. Qed.

Lemma keys_manifest_entries enc pass_json s :
  PyDict.keys (manifest_entries enc pass_json s) =
  "pass.json" :: PyDict.keys (_files s).
Proof. unfold manifest_entries. simpl. now rewrite keys_digests. Qed.

Lemma inv_init pi pti org team : session_inv (ApplePass_init pi pti org team).
Proof.
  split; simpl.
  - constructor.
  - constructor.
  - now eexists.
  - intros k h [].
Qed.

Lemma inv_set_file name v s :
  session_inv s -> session_inv (set_files (PyDict.set name v (_files s)) s).
Proof.
  intros [Hf Hh Ho Hd]. split; simpl; try assumption.
  - now apply wf_set.
  - unfold manifest_keys in *. simpl. rewrite keys_set.
    unfold add_key at 1.
    destruct (existsb (String.eqb name) (PyDict.keys (_files s)));
      [assumption|].
    change ("pass.json" :: PyDict.keys (_files s) ++ [name])
      with (("pass.json" :: PyDict.keys (_files s)) ++ [name]).
    rewrite uniq_snoc. now apply prefix_add_key.
Qed.

Lemma inv_add_file name data s :
  session_inv s -> session_inv (snd (add_file name data s)).
Proof.
  intros H. destruct data; simpl; try (now apply inv_set_file). exact H.
Qed.

Lemma inv_same_store s s' : session_inv s -> same_store s s' -> session_inv s'.
Proof.
  intros [Hf Hh Ho Hd] [Ef Eh]. unfold manifest_keys in *.
  split; unfold manifest_keys; rewrite ?Ef, ?Eh; assumption.
Qed.

(** Manifest construction, complete or interrupted, keeps the
    invariant. *)
Lemma inv_manifest pass_json s :
  session_inv s -> session_inv (snd (Models._create_manifest pass_json s)).
Proof.
  intros [Hf Hh Ho Hd].
  destruct (models_manifest_run pass_json s) as [n [-> _]].
  pose proof (keys_manifest_entries utf8_encode pass_json s) as Hk.
  set (es := manifest_entries utf8_encode pass_json s) in *.
  split; unfold manifest_keys in *; cbn [set_hashes _files _hashes];
    try assumption.
  - now apply wf_update.
  - rewrite keys_update, keys_firstn. rewrite <- Hk in *.
    rewrite <- (firstn_skipn (S n) (PyDict.keys es)) in Ho |- * at 2.
    now apply fold_add_key_partial.
  - intros k h Hin. apply In_update in Hin. destruct Hin as [Hin|Hin].
    + now apply (Hd k).
    + apply In_firstn in Hin. subst es. destruct Hin as [[= _ <-]|Hin].
      * now eexists.
      * now apply (digests_is_digest (_files s) k).
Qed.

End ModelsInvariant.

Section ModelsCreate.

Context {Certificate PrivateKey : Type} {X : Extern Certificate PrivateKey}.

Lemma read_file_bytes_frame path m :
  snd (_read_file_bytes path m) = m.
Proof.
  unfold _read_file_bytes.
  destruct (os_stat (Path_str path) (fs m)) as [[b|o zf|]|]; reflexivity.
Qed.

(** Signing reads files and draws randomness; it leaves the session and
    the filesystem as they are. *)
Lemma models_signature_frame manifest certificate key wwdr password m :
  self (snd (Models._create_signature_crypto manifest certificate key wwdr
               password m)) = self m /\
  fs (snd (Models._create_signature_crypto manifest certificate key wwdr
               password m)) = fs m.
Proof.
  unfold Models._create_signature_crypto, mbind, lift.
  pose proof (read_file_bytes_frame certificate m) as H1.
  destruct (_read_file_bytes certificate m) as [[b1|e1] m1];
    simpl in H1; subst m1; [|now split].
  destruct (load_pem_x509_certificate b1) as [c1|e1]; [|now split].
  pose proof (read_file_bytes_frame key m) as H2.
  destruct (_read_file_bytes key m) as [[b2|e2] m2];
    simpl in H2; subst m2; [|now split].
  destruct (load_pem_private_key b2 _) as [k2|e2]; [|now split].
  pose proof (read_file_bytes_frame wwdr m) as H3.
  destruct (_read_file_bytes wwdr m) as [[b3|e3] m3];
    simpl in H3; subst m3; [|now split].
  destruct (load_pem_x509_certificate b3) as [c3|e3]; now split.
Qed.

Lemma set_self_id m : set_self (self m) m = m.
Proof. now destruct m. Qed.

(** The body of [create], stage by stage. *)
Lemma models_create_body_eq certificate key wwdr password zip_file m :
  Models.create_body certificate key wwdr password zip_file m =
  match Models._create_pass_json (self m) with
  | Err e => (Err e, m)
  | Ok pass_json =>
      match Models._create_manifest pass_json (self m) with
      | (Err e, s1) => (Err e, set_self s1 m)
      | (Ok manifest, s1) =>
          match Models._create_signature_crypto manifest certificate key
                  wwdr password (set_self s1 m) with
          | (Err e, m2) => (Err e, m2)
          | (Ok signature, m2) =>
              match Models._create_zip pass_json manifest signature
                      (sink_of zip_file) (self m2) with
              | Ok z => (Ok z, m2)
              | Err e => (Err e, m2)
              end
          end
      end
  end.
Proof.
  unfold Models.create_body, mbind, on_self, mret.
  destruct (Models._create_pass_json (self m)) as [pj|e];
    cbn [self set_self]; rewrite ?set_self_id; [|reflexivity].
  destruct (Models._create_manifest pj (self m)) as [[manifest|e] s1];
    [|reflexivity].
  change (set_self s1 (set_self (self m) m)) with (set_self s1 m).
  destruct (Models._create_signature_crypto manifest certificate key wwdr
              password (set_self s1 m)) as [[sg|e] m2]; [|reflexivity].
  cbv zeta.
  destruct (Models._create_zip pj manifest sg (sink_of zip_file) (self m2));
    now rewrite set_self_id.
Qed.

(** [create] with a sink, stage by stage. *)
Lemma models_create_into_eq certificate key wwdr password zip_file m :
  Models.create_into certificate key wwdr password zip_file m =
  match
    match Models._create_pass_json (self m) with
    | Err e => (Err e, m)
    | Ok pass_json =>
        match Models._create_manifest pass_json (self m) with
        | (Err e, s1) => (Err e, set_self s1 m)
        | (Ok manifest, s1) =>
            match Models._create_signature_crypto manifest certificate key
                    wwdr password (set_self s1 m) with
            | (Err e, m2) => (Err e, m2)
            | (Ok signature, m2) =>
                match Models._create_zip pass_json manifest signature
                        (sink_of zip_file) (self m2) with
                | Ok z => (Ok z, m2)
                | Err e => (Err e, m2)
                end
            end
        end
    end
  with
  | (Ok z, m') => (Ok z, m')
  | (Err e, m') => (Err (wrap_error e), m')
  end.
Proof.
  unfold Models.create_into, try_except.
  now rewrite models_create_body_eq.
Qed.

(** [create] without a sink, stage by stage: the archive is written into
    a new [BytesIO]. *)
Lemma models_create_eq certificate key wwdr password m :
  Models.create certificate key wwdr password m =
  match
    match Models._create_pass_json (self m) with
    | Err e => (Err e, m)
    | Ok pass_json =>
        match Models._create_manifest pass_json (self m) with
        | (Err e, s1) => (Err e, set_self s1 m)
        | (Ok manifest, s1) =>
            match Models._create_signature_crypto manifest certificate key
                    wwdr password (set_self s1 m) with
            | (Err e, m2) => (Err e, m2)
            | (Ok signature, m2) =>
                match Models.write_members pass_json manifest signature
                        (self m2) with
                | Ok zf => (Ok zf, m2)
                | Err e => (Err e, m2)
                end
            end
        end
    end
  with
  | (Ok zf, m') => (Ok zf, m')
  | (Err e, m') => (Err (wrap_error e), m')
  end.
Proof.
  unfold Models.create, mbind, mret. rewrite models_create_into_eq.
  destruct (Models._create_pass_json (self m)) as [pj|e]; [|reflexivity].
  destruct (Models._create_manifest pj (self m)) as [[manifest|e] s1];
    [|reflexivity].
  destruct (Models._create_signature_crypto manifest certificate key wwdr
              password (set_self s1 m)) as [[sg|e] m2]; [|reflexivity].
  unfold Models._create_zip, sink_of. cbn [ZipFile_w rbind].
  destruct (Models.write_members pj manifest sg (self m2)); reflexivity.
Qed.

(** What [create] does to the session: nothing when the document does
    not serialize, else what manifest construction does. *)
Lemma models_create_self certificate key wwdr password m :
  self (snd (Models.create certificate key wwdr password m)) = self m \/
  exists pass_json,
    self (snd (Models.create certificate key wwdr password m)) =
    snd (Models._create_manifest pass_json (self m)).
Proof.
  rewrite models_create_eq.
  destruct (Models._create_pass_json (self m)) as [pj|e]; [|now left].
  right. exists pj.
  destruct (Models._create_manifest pj (self m)) as [[manifest|e] s1];
    [|reflexivity].
  destruct (models_signature_frame manifest certificate key wwdr password
              (set_self s1 m)) as [Hs _].
  destruct (Models._create_signature_crypto manifest certificate key wwdr
              password (set_self s1 m)) as [[sg|e] m2]; simpl in *;
    [|exact Hs].
  destruct (Models.write_members pj manifest sg (self m2)); exact Hs.
Qed.

Lemma models_create_into_self certificate key wwdr password zip_file m :
  self (snd (Models.create_into certificate key wwdr password zip_file m))
    = self m \/
  exists pass_json,
    self (snd (Models.create_into certificate key wwdr password zip_file m)) =
    snd (Models._create_manifest pass_json (self m)).
Proof.
  rewrite models_create_into_eq.
  destruct (Models._create_pass_json (self m)) as [pj|e]; [|now left].
  right. exists pj.
  destruct (Models._create_manifest pj (self m)) as [[manifest|e] s1];
    [|reflexivity].
  destruct (models_signature_frame manifest certificate key wwdr password
              (set_self s1 m)) as [Hs _].
  destruct (Models._create_signature_crypto manifest certificate key wwdr
              password (set_self s1 m)) as [[sg|e] m2]; simpl in *;
    [|exact Hs].
  destruct (Models._create_zip pj manifest sg (sink_of zip_file) (self m2));
    exact Hs.
Qed.

Lemma writestr_app name data zf :
  writestr name data zf =
  match writestr name data [] with
  | Ok members => Ok (zf ++ members)
  | Err e => Err e
  end.
Proof.
  unfold writestr.
  destruct data; cbn [rbind]; try reflexivity;
    destruct (String.eqb (arcname name) EmptyString); try reflexivity;
    cbn [rbind]; destruct (arcname_fits name); reflexivity.
Qed.

(** [writestr] on data with the buffer protocol: the member is written
    under the name cut at its first NUL when that name is not empty and
    fits, and nothing is written otherwise. *)
Lemma writestr_bytes_like name v zf :
  bytes_like v = true ->
  writestr name v zf =
  if member_name_ok name then Ok (zf ++ [(arcname name, content v)])
  else if String.eqb (arcname name) EmptyString
       then Err (IndexError "string index out of range")
       else Err (StructError "ushort format requires 0 <= number <= 65535").
Proof.
  unfold writestr, member_name_ok.
  destruct v; try discriminate; intros _; cbn [rbind content];
    destruct (String.eqb (arcname name) EmptyString); try reflexivity;
    cbn [rbind negb andb]; destruct (arcname_fits name); reflexivity.
Qed.

Lemma writestr_text name t zf :
  writestr name (PyStr t) zf = writestr name (PyBytes (utf8_encode t)) zf.
Proof. reflexivity. Qed.

Lemma writestr_fixed name b zf :
  In name fixed_members ->
  writestr name (PyBytes b) zf = Ok (zf ++ [(name, b)]).
Proof.
  intros [<-|[<-|[<-|[]]]]; rewrite writestr_bytes_like by reflexivity;
    reflexivity.
Qed.

(** The members written for the staged files do not depend on what the
    archive already holds. *)
Lemma models_write_files_app items : forall zf,
  Models.write_files items zf =
  match Models.write_files items [] with
  | Ok members => Ok (zf ++ members)
  | Err e => Err e
  end.
Proof.
  induction items as [|[k v] items IH]; intros zf; simpl.
  - now rewrite app_nil_r.
  - rewrite (writestr_app k v zf). unfold rbind.
    destruct (writestr k v []) as [ms|e]; [|reflexivity].
    rewrite (IH (zf ++ ms)), (IH ms).
    destruct (Models.write_files items []); [|reflexivity].
    now rewrite app_assoc.
Qed.

(** The three fixed members are always written; the rest is the loop
    over the staged files. *)
Lemma models_write_members_eq pass_json manifest sg s :
  Models.write_members pass_json manifest sg s =
  match Models.write_files (_files s) [] with
  | Ok members =>
      Ok (("signature", sg) :: ("manifest.json", utf8_encode manifest)
            :: ("pass.json", utf8_encode pass_json) :: members)
  | Err e => Err e
  end.
Proof.
  unfold Models.write_members.
  rewrite writestr_fixed by (simpl; tauto). cbn [rbind app].
  rewrite writestr_text, writestr_fixed by (simpl; tauto). cbn [rbind app].
  rewrite writestr_text, writestr_fixed by (simpl; tauto). cbn [rbind app].
  now rewrite models_write_files_app.
Qed.

(** A signature comes out of [_create_signature_crypto] only as the
    result of signing, detached and in DER, the UTF-8 bytes of the
    manifest with the loaded certificate and key and the WWDR
    certificate attached; the key was asked for with the UTF-8 bytes of
    the password. *)
Lemma models_signature_ok manifest certificate key wwdr password m sg m' :
  Models._create_signature_crypto manifest certificate key wwdr password m
    = (Ok sg, m') ->
  exists cert_pem cert key_pem priv_key wwdr_pem wwdr_cert,
    fst (_read_file_bytes certificate m) = Ok cert_pem /\
    load_pem_x509_certificate cert_pem = Ok cert /\
    fst (_read_file_bytes key m) = Ok key_pem /\
    load_pem_private_key key_pem (option_map utf8_encode password) = Ok priv_key /\
    fst (_read_file_bytes wwdr m) = Ok wwdr_pem /\
    load_pem_x509_certificate wwdr_pem = Ok wwdr_cert /\
    pkcs7_sign
      (mkBuilder (Some (utf8_encode manifest)) [(cert, priv_key, SHA1_alg)]
         [wwdr_cert])
      DER [DetachedSignature] (entropy m) = Ok sg /\
    m' = set_entropy (N.succ (entropy m)) m.
Proof.
  unfold Models._create_signature_crypto, mbind, lift.
  pose proof (read_file_bytes_frame certificate m) as H1.
  destruct (_read_file_bytes certificate m) as [[b1|e1] m1];
    simpl in H1; subst m1; [|discriminate].
  destruct (load_pem_x509_certificate b1) as [c1|e1] eqn:E1; [|discriminate].
  pose proof (read_file_bytes_frame key m) as H2.
  destruct (_read_file_bytes key m) as [[b2|e2] m2];
    simpl in H2; subst m2; [|discriminate].
  destruct (load_pem_private_key b2 _) as [k2|e2] eqn:E2; [|discriminate].
  pose proof (read_file_bytes_frame wwdr m) as H3.
  destruct (_read_file_bytes wwdr m) as [[b3|e3] m3];
    simpl in H3; subst m3; [|discriminate].
  destruct (load_pem_x509_certificate b3) as [c3|e3] eqn:E3; [|discriminate].
  unfold sign. intros [= Hs <-].
  exists b1, c1, b2, k2, b3, c3. repeat split; assumption.
Qed.

(** A successful [create], stage by stage. *)
Lemma models_create_ok certificate key wwdr password m zf m' :
  Models.create certificate key wwdr password m = (Ok zf, m') ->
  exists pass_json manifest sg members,
    Models._create_pass_json (self m) = Ok pass_json /\
    Models._create_manifest pass_json (self m) = (Ok manifest, self m') /\
    Models._create_signature_crypto manifest certificate key wwdr password
      (set_self (self m') m) = (Ok sg, m') /\
    Models.write_files (_files (self m')) [] = Ok members /\
    zf = ("signature", sg) :: ("manifest.json", utf8_encode manifest)
           :: ("pass.json", utf8_encode pass_json) :: members.
Proof.
  rewrite models_create_eq.
  destruct (Models._create_pass_json (self m)) as [pj|e]; [|discriminate].
  destruct (Models._create_manifest pj (self m)) as [[manifest|e] s1]
    eqn:Eman; [|discriminate].
  destruct (models_signature_frame manifest certificate key wwdr password
              (set_self s1 m)) as [Hs _].
  destruct (Models._create_signature_crypto manifest certificate key wwdr
              password (set_self s1 m)) as [[sg|e] m2] eqn:Esig;
    simpl in Hs; [|discriminate].
  destruct (Models.write_members pj manifest sg (self m2)) as [a|e] eqn:Ezip;
    [|discriminate].
  intros [= <- <-].
  rewrite models_write_members_eq in Ezip.
  destruct (Models.write_files (_files (self m2)) []) as [members|e] eqn:Ew;
    [|discriminate].
  injection Ezip as <-.
  exists pj, manifest, sg, members. rewrite Hs.
  split; [reflexivity|]. split; [exact Eman|]. split; [exact Esig|].
  split; reflexivity.
Qed.

End ModelsCreate.

(** Every reachable session satisfies the invariant. *)
Lemma reachable_inv s : reachable s -> session_inv s.
Proof.
  induction 1 as [pi pti org team | s s' _ IH Hsame | s name data _ IH
                 | s C K X certificate key wwdr password f n _ IH
                 | s C K X certificate key wwdr password zip_file f n _ IH].
  - apply inv_init.
  - now apply (inv_same_store s).
  - now apply inv_add_file.
  - destruct (models_create_self certificate key wwdr password
                (mkMachine s f n)) as [->|[pj ->]]; simpl.
    + exact IH.
    + now apply inv_manifest.
  - destruct (models_create_into_self certificate key wwdr password zip_file
                (mkMachine s f n)) as [->|[pj ->]]; simpl.
    + exact IH.
    + now apply inv_manifest.
Qed.


(** A complete manifest construction on a reachable session: the stores
    afterwards. *)
Lemma models_manifest_ok s pass_json manifest s' :
  reachable s ->
  Models._create_manifest pass_json s = (Ok manifest, s') ->
  s' = set_hashes
         (PyDict.update (_hashes s) (manifest_entries utf8_encode pass_json s)) s /\
  manifest = dumps_hashes (_hashes s') /\
  PyDict.keys (_hashes s') = manifest_keys s.
Proof.
  intros Hr Hrun. pose proof (reachable_inv s Hr) as [Hf Hh Ho Hd].
  destruct (models_manifest_run pass_json s) as [n [Hs Hok]].
  rewrite Hrun in Hs, Hok. cbn [fst snd] in Hs, Hok.
  destruct (Hok manifest eq_refl) as [Hall ->]. rewrite Hall in Hs.
  subst s'. repeat split. cbn [set_hashes _hashes].
  rewrite keys_update, keys_manifest_entries.
  now apply fold_add_key_prefix.
Qed.

(** ** The manifest text, read back *)

















Lemma with_icon_reachable : reachable Demo.with_icon.
Proof.
  unfold Demo.with_icon. apply reach_add_file.
  apply (reach_setattr
           (ApplePass_init (mkPassInformation "generic" (JDict []))
              "pass.com.example" "Example" "TEAM123456")).
  - apply reach_init.
  - split; reflexivity.
Defined.


Section ModelsDeterminism.

Context {Certificate PrivateKey : Type} {X : Extern Certificate PrivateKey}.

Lemma models_pass_json_document s :
  Models._create_pass_json s =
  Models._create_pass_json (set_hashes [] (set_files [] s)).
Proof. reflexivity. Qed.

Lemma models_pass_json_same s1 s2 :
  same_document s1 s2 ->
  Models._create_pass_json s1 = Models._create_pass_json s2.
Proof.
  intros H. rewrite (models_pass_json_document s1), H. reflexivity.
Qed.

(** On reachable sessions the manifest is determined by the document
    text and the staged files: what [_hashes] held before does not show. *)
Lemma models_manifest_deterministic s1 s2 pass_json manifest1 manifest2 s1' s2' :
  reachable s1 -> reachable s2 -> _files s1 = _files s2 ->
  Models._create_manifest pass_json s1 = (Ok manifest1, s1') ->
  Models._create_manifest pass_json s2 = (Ok manifest2, s2') ->
  manifest1 = manifest2 /\ _hashes s1' = _hashes s2' /\
  _files s1' = _files s1 /\ _files s2' = _files s2.
Proof.
  intros Hr1 Hr2 Hf H1 H2.
  destruct (models_manifest_ok _ _ _ _ Hr1 H1) as [E1 [-> K1]].
  destruct (models_manifest_ok _ _ _ _ Hr2 H2) as [E2 [-> K2]].
  assert (Hh : _hashes s1' = _hashes s2').
  { apply dict_ext.
    - rewrite E1. cbn [set_hashes _hashes]. apply wf_update.
      apply (inv_hashes_wf _ (reachable_inv _ Hr1)).
    - rewrite K1, K2. unfold manifest_keys. now rewrite Hf.
    - intros k Hk. rewrite K1 in Hk. unfold manifest_keys in Hk.
      rewrite In_uniq in Hk.
      rewrite E1, E2. cbn [set_hashes _hashes].
      unfold manifest_entries. rewrite <- Hf.
      apply get_update_in.
      change (PyDict.keys
                (("pass.json", sha1_hexdigest (utf8_encode pass_json))
                   :: digests (_files s1)))
        with ("pass.json" :: PyDict.keys (digests (_files s1))).
      now rewrite keys_digests. }
  rewrite Hh. repeat split.
  - now rewrite E1.
  - now rewrite E2.
Qed.

(** C7. In [models.py], two successful [create] calls on sessions
    obtained through the public interface that hold the same document
    fields and the same staged attachments, with the same material
    paths, password and filesystem, produce archives whose [pass.json]
    members are byte-identical and whose [manifest.json] members are
    byte-identical; the randomness drawn by the signer may differ, and
    only the [signature] member can. *)
Theorem create_twice_same_members s1 s2 certificate key wwdr password
    f n1 n2 zf1 zf2 m1 m2 :
  reachable s1 -> reachable s2 ->
  same_document s1 s2 -> _files s1 = _files s2 ->
  Models.create certificate key wwdr password (mkMachine s1 f n1) = (Ok zf1, m1) ->
  Models.create certificate key wwdr password (mkMachine s2 f n2) = (Ok zf2, m2) ->
  members_named "pass.json" zf1 = members_named "pass.json" zf2 /\
  members_named "manifest.json" zf1 = members_named "manifest.json" zf2 /\
  exists sg1 sg2 manifest pass_json members,
    zf1 = ("signature", sg1) :: ("manifest.json", manifest)
            :: ("pass.json", pass_json) :: members /\
    zf2 = ("signature", sg2) :: ("manifest.json", manifest)
            :: ("pass.json", pass_json) :: members.
Proof.
  intros Hr1 Hr2 Hdoc Hf H1 H2.
  apply models_create_ok in H1. apply models_create_ok in H2.
  destruct H1 as [pj1 [mf1 [sg1 [ms1 [P1 [M1 [_ [W1 ->]]]]]]]].
  destruct H2 as [pj2 [mf2 [sg2 [ms2 [P2 [M2 [_ [W2 ->]]]]]]]].
  simpl in P1, P2, M1, M2.
  assert (Hpj : pj1 = pj2).
  { rewrite (models_pass_json_same s1 s2 Hdoc), P2 in P1. congruence. }
  subst pj2.
  destruct (models_manifest_deterministic _ _ _ _ _ _ _ Hr1 Hr2 Hf M1 M2)
    as [Hmf [_ [F1 F2]]].
  subst mf2.
  assert (Hms : ms1 = ms2).
  { rewrite F1, Hf, <- F2, W2 in W1. congruence. }
  subst ms2.
  assert (Htail : forall name sga sgb,
            String.eqb name "signature" = false ->
            members_named name
              (("signature", sga) :: ("manifest.json", utf8_encode mf1)
                 :: ("pass.json", utf8_encode pj1) :: ms1) =
            members_named name
              (("signature", sgb) :: ("manifest.json", utf8_encode mf1)
                 :: ("pass.json", utf8_encode pj1) :: ms1)).
  { intros name sga sgb Hn. unfold members_named. simpl. now rewrite Hn. }
  split; [now apply Htail|]. split; [now apply Htail|].
  now exists sg1, sg2, (utf8_encode mf1), (utf8_encode pj1), ms1.
Qed.

End ModelsDeterminism.

Lemma create_twice_same_members_witness :
  let r1 := Demo.first_build in
  let r2 := Models.create (X := Demo.extern) "cert.pem" "key.pem" "wwdr.pem"
              None (mkMachine Demo.used Demo.disk 7) in
  let zf1 := Demo.archive_of (fst r1) in
  let zf2 := Demo.archive_of (fst r2) in
  (r1 = (Ok zf1, snd r1) /\ r2 = (Ok zf2, snd r2)) /\
  _hashes Demo.with_icon <> _hashes Demo.used /\
  members_named "pass.json" zf1 = members_named "pass.json" zf2 /\
  members_named "manifest.json" zf1 = members_named "manifest.json" zf2 /\
  members_named "signature" zf1 <> members_named "signature" zf2.
Proof.
  intros r1 r2 zf1 zf2.
  assert (H1 : r1 = (Ok zf1, snd r1)) by (vm_compute; reflexivity).
  assert (H2 : r2 = (Ok zf2, snd r2)) by (vm_compute; reflexivity).
  assert (Hr2 : reachable Demo.used).
  { unfold Demo.used, Demo.first_build, Demo.machine_of.
    apply reach_create. exact with_icon_reachable. }
  assert (Hd : same_document Demo.with_icon Demo.used)
    by (vm_compute; reflexivity).
  assert (Hf : _files Demo.with_icon = _files Demo.used)
    by (vm_compute; reflexivity).
  split; [now split|].
  split; [vm_compute; discriminate|].
  pose proof (create_twice_same_members (X := Demo.extern)
                Demo.with_icon Demo.used "cert.pem" "key.pem" "wwdr.pem"
                None Demo.disk 0 7 zf1 zf2 (snd r1) (snd r2)
                with_icon_reachable Hr2 Hd Hf H1 H2) as [Hp [Hm _]].
  split; [exact Hp|]. split; [exact Hm|].
  vm_compute. discriminate.
Defined.

(* ===================================================================== *)
(** * apple_pass.py: manifest construction *)
(* ===================================================================== *)

Section ApplePassPyManifest.

Lemma read_filedata_supported name v :
  readable v = true ->
  ApplePassPy.read_filedata name v = Ok (content v, rewound v).
Proof. destruct v; try discriminate; reflexivity. Qed.

Lemma read_filedata_unreadable name v :
  readable v = false ->
  exists e, ApplePassPy.read_filedata name v = Err e.
Proof. destruct v; try discriminate; intros _; now eexists. Qed.


Lemma read_filedata_ok name v r :
  ApplePassPy.read_filedata name v = Ok r ->
  readable v = true /\ r = (content v, rewound v).
Proof.
  destruct v; try discriminate; intros [= <-]; now split.
Qed.

(** The loop of [_create_manifest]: when every value can be read it
    rewinds every stream and assigns every digest; else it stops at the
    first value that cannot, with the error of reading it, having
    handled the files before it. *)
Lemma app_hash_files_run items : forall s,
  match first_unreadable items with
  | None =>
      ApplePassPy.hash_files items s =
      (Ok tt,
       set_hashes (PyDict.update (_hashes s) (digests items))
         (set_files (PyDict.update (_files s) (rewinds items)) s))
  | Some (name, e) =>
      exists n,
        ApplePassPy.hash_files items s =
        (Err e,
         set_hashes (PyDict.update (_hashes s) (firstn n (digests items)))
           (set_files (PyDict.update (_files s) (firstn n (rewinds items))) s))
  end.
Proof.
  induction items as [|[k v] items IH]; intros s.
  - simpl. unfold mret. now rewrite set_files_id, set_hashes_id.
  - cbn [first_unreadable ApplePassPy.hash_files]. unfold mbind at 1, lift.
    destruct (ApplePassPy.read_filedata k v) as [r|e] eqn:Hread.
    + destruct (read_filedata_ok _ _ _ Hread) as [_ ->].
      unfold mbind, modify. cbn [fst snd].
      set (s2 := set_hashes
                   (PyDict.set k (sha1_hexdigest (content v)) _)
                   (set_files (PyDict.set k (rewound v) (_files s)) s)).
      specialize (IH s2).
      destruct (first_unreadable items) as [[name e]|].
      * destruct IH as [n IH]. exists (S n). rewrite IH. reflexivity.
      * rewrite IH. reflexivity.
    + exists 0. simpl. now rewrite set_files_id, set_hashes_id.
Qed.

Lemma first_unreadable_In items name e :
  first_unreadable items = Some (name, e) ->
  exists v, In (name, v) items /\ ApplePassPy.read_filedata name v = Err e.
Proof.
  induction items as [|[k v] items IH]; simpl; [discriminate|].
  destruct (ApplePassPy.read_filedata k v) as [r|e0] eqn:Hread.
  - intros H. destruct (IH H) as [v0 [Hin Hv]]. exists v0. split; auto.
  - intros [= -> ->]. exists v. split; [now left | exact Hread].
Qed.

Lemma first_unreadable_None items :
  first_unreadable items = None <->
  forall name v, In (name, v) items -> readable v = true.
Proof.
  induction items as [|[k v] items IH]; simpl.
  - split; [intros _ ? ? [] | reflexivity].
  - destruct (ApplePassPy.read_filedata k v) as [r|e] eqn:Hread.
    + destruct (read_filedata_ok _ _ _ Hread) as [Hv _]. rewrite IH. split.
      * intros H name v0 [[= <- <-]|Hin]; [exact Hv | now apply (H name)].
      * intros H name v0 Hin. apply (H name). now right.
    + split; [discriminate|]. intros H.
      assert (Hv : readable v = true) by (apply (H k); now left).
      rewrite (read_filedata_supported k v Hv) in Hread. discriminate.
Qed.



(** [_create_manifest] of [apple_pass.py], outcome by outcome. *)
Lemma app_manifest_run pass_json s :
  match first_unreadable (_files s) with
  | None =>
      ApplePassPy._create_manifest pass_json s =
      (Ok (dumps_hashes
             (PyDict.update (_hashes s)
                (manifest_entries utf16_encode pass_json s))),
       set_hashes
         (PyDict.update (_hashes s) (manifest_entries utf16_encode pass_json s))
         (set_files (PyDict.update (_files s) (rewinds (_files s))) s))
  | Some (name, e) =>
      exists n,
        ApplePassPy._create_manifest pass_json s =
        (Err e,
         set_hashes
           (PyDict.update (_hashes s)
              (firstn (S n) (manifest_entries utf16_encode pass_json s)))
           (set_files
              (PyDict.update (_files s) (firstn n (rewinds (_files s)))) s))
  end.
Proof.
  unfold ApplePassPy._create_manifest, mbind, modify, gets, mret.
  cbn [fst snd].
  set (s1 := set_hashes _ s).
  pose proof (app_hash_files_run (_files s) s1) as H.
  change (_files s1) with (_files s).
  destruct (first_unreadable (_files s)) as [[name e]|].
  - destruct H as [n ->]. exists n. reflexivity.
  - rewrite H. reflexivity.
Qed.

End ApplePassPyManifest.

(* ===================================================================== *)
(** * apple_pass.py: create, its stages and its errors *)
(* ===================================================================== *)

Section ApplePassPyCreate.

Context {Certificate PrivateKey : Type} {X : Extern Certificate PrivateKey}.


(** When the certificate file is there and the loader rejects it,
    signing raises the loader's error at once. *)
Lemma app_signature_bad_certificate manifest certificate key wwdr password
    m pem e :
  fst (_read_file_bytes certificate m) = Ok pem ->
  load_pem_x509_certificate pem = Err e ->
  ApplePassPy._create_signature_crypto manifest certificate key wwdr
    password m = (Err e, m).
Proof.
  intros Hread Hload.
  unfold ApplePassPy._create_signature_crypto, mbind, lift.
  pose proof (read_file_bytes_frame certificate m) as H1.
  destruct (_read_file_bytes certificate m) as [[b1|e1] m1];
    simpl in H1, Hread; subst m1; [|discriminate].
  injection Hread as ->. now rewrite Hload.
Qed.

(** The body of [create], stage by stage. *)
Lemma app_create_body_eq certificate key wwdr password pass_path m :
  ApplePassPy.create_body certificate key wwdr password pass_path m =
  match ApplePassPy._create_pass_json (self m) with
  | Err e => (Err e, m)
  | Ok pass_json =>
      match ApplePassPy._create_manifest pass_json (self m) with
      | (Err e, s1) => (Err e, set_self s1 m)
      | (Ok manifest, s1) =>
          match ApplePassPy._create_signature_crypto manifest certificate
                  key wwdr password (set_self s1 m) with
          | (Err e, m2) => (Err e, m2)
          | (Ok signature, m2) =>
              match ApplePassPy._create_zip pass_json manifest signature
                      pass_path m2 with
              | (Ok _, m3) => (Ok pass_path, m3)
              | (Err e, m3) => (Err e, m3)
              end
          end
      end
  end.
Proof.
  unfold ApplePassPy.create_body, mbind, on_self, mret.
  destruct (ApplePassPy._create_pass_json (self m)) as [pj|e];
    cbn [self set_self]; rewrite ?set_self_id; [|reflexivity].
  destruct (ApplePassPy._create_manifest pj (self m)) as [[manifest|e] s1];
    [|reflexivity].
  change (set_self s1 (set_self (self m) m)) with (set_self s1 m).
  destruct (ApplePassPy._create_signature_crypto manifest certificate key
              wwdr password (set_self s1 m)) as [[sg|e] m2]; [|reflexivity].
  destruct (ApplePassPy._create_zip pj manifest sg pass_path m2)
    as [[u|e] m3]; reflexivity.
Qed.

Lemma app_create_eq certificate key wwdr password pass_path m :
  ApplePassPy.create certificate key wwdr password pass_path m =
  match ApplePassPy.create_body certificate key wwdr password pass_path m with
  | (Ok p, m') => (Ok p, m')
  | (Err cause, m') =>
      (Err (PassCreationError ("Failed to create pass: " +++ exn_str cause)
              cause), m')
  end.
Proof. reflexivity. Qed.

(** C9. [create] of [apple_pass.py] raises nothing but
    [PassCreationError]: it fails with [e] exactly when one of its
    stages (document rendering, manifest construction, signing with its
    loading of certificate, key and WWDR certificate, archive writing)
    raises some [cause], and then [e] is the one [PassCreationError]
    whose message quotes [str(cause)] and whose [__cause__] is
    [cause]. *)
Theorem create_wraps_every_stage_error certificate key wwdr password
    pass_path m e :
  fst (ApplePassPy.create certificate key wwdr password pass_path m) = Err e
  <->
  exists cause,
    e = PassCreationError ("Failed to create pass: " +++ exn_str cause) cause /\
    stage_raises certificate key wwdr password pass_path m cause.
Proof.
  rewrite app_create_eq, app_create_body_eq. unfold stage_raises.
  destruct (ApplePassPy._create_pass_json (self m)) as [pj|e0].
  2:{ simpl. split.
      - intros [= <-]. exists e0. split; [reflexivity | now left].
      - intros [cause [-> [[= ->]|[pj [[=] _]]]]]. reflexivity. }
  destruct (ApplePassPy._create_manifest pj (self m)) as [[manifest|e1] s1]
    eqn:Eman.
  2:{ simpl. split.
      - intros [= <-]. exists e1. split; [reflexivity|].
        right. exists pj. split; [reflexivity|]. left. now rewrite Eman.
      - intros [cause [-> [[=]|[pj' [[= <-] H]]]]]. rewrite Eman in H.
        destruct H as [[= ->]|[mf [s' [[=] _]]]]. reflexivity. }
  destruct (ApplePassPy._create_signature_crypto manifest certificate key
              wwdr password (set_self s1 m)) as [[sg|e2] m2] eqn:Esig.
  2:{ simpl. split.
      - intros [= <-]. exists e2. split; [reflexivity|].
        right. exists pj. split; [reflexivity|]. right.
        exists manifest, s1. split; [exact Eman|]. left. now rewrite Esig.
      - intros [cause [-> [[=]|[pj' [[= <-] H]]]]]. rewrite Eman in H.
        destruct H as [[=]|[mf [s' [[= <- <-] H]]]]. rewrite Esig in H.
        destruct H as [[= ->]|[sg [m2' [[=] _]]]]. reflexivity. }
  destruct (ApplePassPy._create_zip pj manifest sg pass_path m2)
    as [[u|e3] m3] eqn:Ezip.
  - simpl. split; [discriminate|].
    intros [cause [-> [[=]|[pj' [[= <-] H]]]]]. rewrite Eman in H.
    destruct H as [[=]|[mf [s' [[= <- <-] H]]]]. rewrite Esig in H.
    destruct H as [[=]|[sg' [m2' [[= <- <-] H]]]].
    rewrite Ezip in H. discriminate.
  - simpl. split.
    + intros [= <-]. exists e3. split; [reflexivity|].
      right. exists pj. split; [reflexivity|]. right.
      exists manifest, s1. split; [exact Eman|]. right.
      exists sg, m2. split; [exact Esig|]. now rewrite Ezip.
    + intros [cause [-> [[=]|[pj' [[= <-] H]]]]]. rewrite Eman in H.
      destruct H as [[=]|[mf [s' [[= <- <-] H]]]]. rewrite Esig in H.
      destruct H as [[=]|[sg' [m2' [[= <- <-] H]]]].
      rewrite Ezip in H. simpl in H. injection H as ->. reflexivity.
Qed.

End ApplePassPyCreate.


Section ApplePassPyFailures.

Context {Certificate PrivateKey : Type} {X : Extern Certificate PrivateKey}.

Lemma read_file_bytes_fs path m1 m2 :
  fs m1 = fs m2 ->
  fst (_read_file_bytes path m1) = fst (_read_file_bytes path m2).
Proof.
  intros H. unfold _read_file_bytes. rewrite H.
  destruct (os_stat (Path_str path) (fs m2)) as [[b|o zf|]|]; reflexivity.
Qed.

(** C4, amended. In [apple_pass.py], when the certificate file holds PEM
    that the loader rejects, [create] fails with a [PassCreationError],
    nothing is written to the filesystem and the signer is never called.
    The certificate is loaded only after the manifest has been built: when
    the document renders and manifest construction returns, the session
    keeps the [_hashes] that manifest construction assigned and the cause
    carried by the error is the loader's error. *)
Theorem malformed_certificate_fails_after_manifest certificate key wwdr
    password pass_path m pem e :
  fst (_read_file_bytes certificate m) = Ok pem ->
  load_pem_x509_certificate pem = Err e ->
  exists cause m',
    ApplePassPy.create certificate key wwdr password pass_path m =
      (Err (PassCreationError ("Failed to create pass: " +++ exn_str cause)
              cause), m') /\
    fs m' = fs m /\ entropy m' = entropy m /\
    (forall pass_json manifest s1,
       ApplePassPy._create_pass_json (self m) = Ok pass_json ->
       ApplePassPy._create_manifest pass_json (self m) = (Ok manifest, s1) ->
       cause = e /\ self m' = s1).
Proof.
  intros Hread Hload. rewrite app_create_eq, app_create_body_eq.
  destruct (ApplePassPy._create_pass_json (self m)) as [pj|e0].
  2:{ exists e0, m. do 3 (split; [reflexivity|]). intros ? ? ? H.
      discriminate H. }
  destruct (ApplePassPy._create_manifest pj (self m)) as [[manifest|e1] s1]
    eqn:Eman.
  2:{ exists e1, (set_self s1 m). do 3 (split; [reflexivity|]).
      intros ? ? ? [= <-] H. rewrite Eman in H. discriminate H. }
  rewrite (app_signature_bad_certificate manifest certificate key wwdr
             password (set_self s1 m) pem e).
  - exists e, (set_self s1 m). do 3 (split; [reflexivity|]).
    intros ? ? ? [= <-] H. rewrite Eman in H. injection H as <- <-.
    now split.
  - rewrite <- Hread. now apply read_file_bytes_fs.
  - exact Hload.
Qed.


End ApplePassPyFailures.

Lemma malformed_certificate_fails_after_manifest_witness :
  let m := Demo.machine_of Demo.gate22 in
  fst (_read_file_bytes (X := Demo.extern) "bad.pem" m) = Ok Demo.bad_pem /\
  Demo.load_cert Demo.bad_pem =
    Err (ValueError "Unable to load PEM file. MalformedFraming") /\
  exists cause m',
    ApplePassPy.create (X := Demo.extern) "bad.pem" "key.pem" "wwdr.pem" None
      "pass.pkpass" m =
      (Err (PassCreationError ("Failed to create pass: " +++ exn_str cause)
              cause), m') /\
    fs m' = fs m /\ entropy m' = entropy m.
Proof.
  intros m.
  assert (H1 : fst (_read_file_bytes (X := Demo.extern) "bad.pem" m)
               = Ok Demo.bad_pem) by reflexivity.
  assert (H2 : load_pem_x509_certificate (Extern := Demo.extern) Demo.bad_pem =
               Err (ValueError "Unable to load PEM file. MalformedFraming"))
    by (vm_compute; reflexivity).
  split; [exact H1|]. split; [exact H2|].
  destruct (malformed_certificate_fails_after_manifest (X := Demo.extern)
              "bad.pem" "key.pem" "wwdr.pem" None "pass.pkpass" m _ _ H1 H2)
    as [cause [m' [Hc [Hf [He _]]]]].
  exists cause, m'. repeat split; assumption.
Defined.

(** C4 as stated fails: with a certificate file that is not PEM, the
    "Gate 22" build fails with the loader's error only after manifest
    construction has returned the manifest text; the session that started
    with empty [_hashes] ends with the digest of the document recorded. *)
Lemma malformed_certificate_manifest_already_built :
  let m := Demo.machine_of Demo.gate22 in
  let r := ApplePassPy.create (X := Demo.extern) "bad.pem" "key.pem"
             "wwdr.pem" None "pass.pkpass" m in
  let h := [("pass.json", "d4aaff1cc60c01348909a8b9cebd149a62d74cae")] in
  fst r = Err (PassCreationError
                 "Failed to create pass: Unable to load PEM file. MalformedFraming"
                 (ValueError "Unable to load PEM file. MalformedFraming")) /\
  (exists pass_json,
     ApplePassPy._create_pass_json (self m) = Ok pass_json /\
     ApplePassPy._create_manifest pass_json (self m) =
       (Ok (dumps_hashes h), self (snd r))) /\
  _hashes (self m) = [] /\
  _hashes (self (snd r)) = h.
Proof.
  cbv zeta. split; [vm_compute; reflexivity|].
  split; [|split; vm_compute; reflexivity].
  eexists. split; [vm_compute; reflexivity|]. vm_compute. reflexivity.
Qed.



(** The error that the caller sees for an [int] staged as [logo.png]. *)
Example unsupported_attachment_message :
  fst (ApplePassPy.create (X := Demo.extern) "cert.pem" "key.pem" "wwdr.pem"
         None "pass.pkpass" (Demo.machine_of Demo.with_object)) =
  Err (PassCreationError
         "Failed to create pass: Unsupported file data type for logo.png: <class 'int'>"
         (TypeError "Unsupported file data type for logo.png: <class 'int'>")).
Proof. vm_compute. reflexivity. Qed.

(* ===================================================================== *)
(** * apple_pass.py: the archive *)
(* ===================================================================== *)

Section ApplePassPyArchive.

Context {Certificate PrivateKey : Type} {X : Extern Certificate PrivateKey}.

Lemma set_same {V} k (v : V) d :
  PyDict.get k d = Some v -> PyDict.set k v d = d.
Proof.
  induction d as [|[k' v'] d IH]; simpl; [discriminate|].
  destruct (String.eqb k k') eqn:E.
  - now intros [= ->].
  - intros H. now rewrite IH.
Qed.

Lemma set_set {V} k (v v' : V) d :
  PyDict.set k v (PyDict.set k v' d) = PyDict.set k v d.
Proof.
  induction d as [|[k0 v0] d IH]; simpl.
  - now rewrite String.eqb_refl.
  - destruct (String.eqb k k0) eqn:E; simpl; rewrite E; [reflexivity|].
    now rewrite IH.
Qed.

Lemma set_app_notin {V} k (v v' : V) a b :
  ~ In k (PyDict.keys a) ->
  PyDict.set k v' (a ++ (k, v) :: b) = a ++ (k, v') :: b.
Proof.
  induction a as [|[k0 v0] a IH]; simpl; intros H.
  - now rewrite String.eqb_refl.
  - destruct (String.eqb k k0) eqn:E.
    + apply String.eqb_eq in E. subst. exfalso. auto.
    + rewrite IH; [reflexivity | auto].
Qed.

(** Rewinding every stream of a dict of staged files, entry by entry,
    gives the dict of the rewound values. *)
Lemma update_rewinds_app b : forall a,
  PyDict.wf (a ++ b) -> PyDict.update (a ++ b) (rewinds b) = a ++ rewinds b.
Proof.
  induction b as [|[k v] b IH]; intros a Hwf; [reflexivity|].
  change (PyDict.update (a ++ (k, v) :: b) (rewinds ((k, v) :: b)))
    with (PyDict.update (PyDict.set k (rewound v) (a ++ (k, v) :: b)) (rewinds b)).
  assert (Hk : ~ In k (PyDict.keys a)).
  { unfold PyDict.wf, PyDict.keys in Hwf. rewrite map_app in Hwf.
    simpl in Hwf. apply NoDup_remove_2 in Hwf. intros Hin. apply Hwf.
    apply in_or_app. now left. }
  rewrite set_app_notin by assumption.
  change (a ++ (k, rewound v) :: b) with (a ++ [(k, rewound v)] ++ b).
  rewrite app_assoc, IH.
  - now rewrite <- app_assoc.
  - unfold PyDict.wf, PyDict.keys in *. rewrite <- app_assoc.
    rewrite !map_app in *. exact Hwf.
Qed.

Lemma update_rewinds d : PyDict.wf d -> PyDict.update d (rewinds d) = rewinds d.
Proof. intros H. exact (update_rewinds_app d [] H). Qed.

Lemma contents_rewinds d : contents (rewinds d) = contents d.
Proof.
  unfold contents, rewinds. rewrite map_map. apply map_ext.
  intros [k v]. now destruct v.
Qed.

Lemma readable_rewound v : readable (rewound v) = readable v.
Proof. now destruct v. Qed.

Lemma first_unreadable_rewinds d :
  first_unreadable d = None -> first_unreadable (rewinds d) = None.
Proof.
  rewrite !first_unreadable_None. intros H name v Hin.
  unfold rewinds in Hin. apply in_map_iff in Hin.
  destruct Hin as [[k w] [[= <- <-] Hin]].
  rewrite readable_rewound. now apply (H k).
Qed.

Lemma keys_rewinds d : PyDict.keys (rewinds d) = PyDict.keys d.
Proof. unfold rewinds, PyDict.keys. now rewrite map_map. Qed.

Lemma names_ok_rewinds d : names_ok (rewinds d) = names_ok d.
Proof.
  unfold names_ok, rewinds. induction d as [|[k v] d IH]; [reflexivity|].
  simpl. now rewrite IH.
Qed.

(** [zf.writestr(name, data)] on the archive open at [output], for
    bytes. *)
Lemma zip_writestr_bytes output name b m zf :
  PyDict.get output (nodes (fs m)) = Some (PkPass true zf) ->
  ApplePassPy.zip_writestr output name (PyBytes b) m =
  if member_name_ok name then
    (Ok tt,
     set_fs (mkFs (PyDict.set output (PkPass true (zf ++ [(arcname name, b)]))
                     (nodes (fs m)))
               (unwritable (fs m))) m)
  else
    (Err (if String.eqb (arcname name) EmptyString
          then IndexError "string index out of range"
          else StructError "ushort format requires 0 <= number <= 65535"),
     m).
Proof.
  intros Hget. unfold ApplePassPy.zip_writestr. rewrite Hget.
  rewrite (writestr_bytes_like name (PyBytes b) zf eq_refl).
  destruct (member_name_ok name); [reflexivity|].
  now destruct (String.eqb (arcname name) EmptyString).
Qed.

(** The loop of [_create_zip] when every staged value can be read: with
    names that [writestr] takes, every stream is rewound and every member
    appended to the archive open at [output]; else the loop raises at the
    first name that it does not take. *)
Lemma app_write_files_run output items : forall m zf,
  PyDict.get output (nodes (fs m)) = Some (PkPass true zf) ->
  first_unreadable items = None ->
  if names_ok items then
    ApplePassPy.write_files output items m =
    (Ok tt,
     mkMachine
       (set_files (PyDict.update (_files (self m)) (rewinds items)) (self m))
       (mkFs (PyDict.set output (PkPass true (zf ++ contents items))
                (nodes (fs m)))
          (unwritable (fs m)))
       (entropy m))
  else
    exists e m',
      ApplePassPy.write_files output items m = (Err e, m') /\
      (exists msg, e = IndexError msg \/ e = StructError msg).
Proof.
  induction items as [|[k v] items IH]; intros m zf Hget Hsup.
  - simpl. unfold mret. rewrite app_nil_r, (set_same _ _ _ Hget).
    rewrite set_files_id. destruct m as [s [nd uw] en]. reflexivity.
  - rewrite first_unreadable_None in Hsup.
    assert (Hv : readable v = true) by (apply (Hsup k); now left).
    assert (Hrest : first_unreadable items = None).
    { rewrite first_unreadable_None. intros k0 v0 Hin. apply (Hsup k0).
      now right. }
    cbn [names_ok forallb fst]. fold (names_ok items).
    set (m1 := set_self (set_files (PyDict.set k (rewound v) (_files (self m)))
                           (self m)) m).
    set (m2 := set_fs
                 (mkFs (PyDict.set output
                          (PkPass true (zf ++ [(arcname k, content v)]))
                          (nodes (fs m1)))
                    (unwritable (fs m1))) m1).
    assert (Hstep :
      ApplePassPy.write_files output ((k, v) :: items) m =
      if member_name_ok k then ApplePassPy.write_files output items m2
      else
        (Err (if String.eqb (arcname k) EmptyString
              then IndexError "string index out of range"
              else StructError "ushort format requires 0 <= number <= 65535"),
         m1)).
    { cbn [ApplePassPy.write_files]. unfold mbind at 1, lift.
      rewrite (read_filedata_supported k v Hv). cbn [fst snd].
      unfold mbind at 1, on_self, modify. cbn [fst snd].
      unfold mbind at 1. fold m1.
      rewrite (zip_writestr_bytes output k (content v) m1 zf) by exact Hget.
      now destruct (member_name_ok k). }
    rewrite Hstep. clear Hstep.
    destruct (member_name_ok k) eqn:Hk; cbn [andb].
    + assert (Hg : PyDict.get output (nodes (fs m2)) =
                   Some (PkPass true (zf ++ [(arcname k, content v)])))
        by apply get_set_eq.
      specialize (IH m2 _ Hg Hrest).
      destruct (names_ok items); [|exact IH].
      rewrite IH. subst m2 m1.
      cbn [self fs set_self set_fs nodes unwritable entropy _files set_files].
      rewrite set_set, <- app_assoc. reflexivity.
    + eexists _, _. split; [reflexivity|].
      destruct (String.eqb (arcname k) EmptyString); eexists; [left|right];
        reflexivity.
Qed.

Lemma zip_writestr_fixed output name b m zf :
  In name fixed_members ->
  PyDict.get output (nodes (fs m)) = Some (PkPass true zf) ->
  ApplePassPy.zip_writestr output name (PyBytes b) m =
  (Ok tt,
   set_fs (mkFs (PyDict.set output (PkPass true (zf ++ [(name, b)]))
                   (nodes (fs m)))
             (unwritable (fs m))) m).
Proof.
  intros Hin Hget. unfold ApplePassPy.zip_writestr. rewrite Hget.
  now rewrite (writestr_fixed name b zf Hin).
Qed.

Lemma zip_writestr_text output name t m :
  ApplePassPy.zip_writestr output name (PyStr t) m =
  ApplePassPy.zip_writestr output name (PyBytes (utf8_encode t)) m.
Proof. reflexivity. Qed.

(** [_create_zip] up to its loop: on a writable destination the three
    fixed members are written. *)
Lemma app_create_zip_eq pass_json manifest sg output m :
  open_w_error output (fs m) = None ->
  ApplePassPy._create_zip pass_json manifest sg output m =
  let m3 :=
    set_fs
      (mkFs (PyDict.set output
               (PkPass true
                  [("signature", sg); ("manifest.json", utf8_encode manifest);
                   ("pass.json", utf8_encode pass_json)])
               (nodes (fs m)))
         (unwritable (fs m))) m in
  match ApplePassPy.write_files output (_files (self m)) m3 with
  | (Ok _, m4) => ApplePassPy.zip_close output m4
  | (Err e, m4) => (Err e, m4)
  end.
Proof.
  intros Hw.
  unfold ApplePassPy._create_zip.
  unfold mbind at 1, ApplePassPy.zip_open. rewrite Hw.
  unfold mbind at 1.
  rewrite (zip_writestr_fixed output "signature" sg _ [])
    by (simpl; tauto || (cbn [fs set_fs nodes]; apply get_set_eq)).
  unfold mbind at 1. rewrite zip_writestr_text.
  rewrite (zip_writestr_fixed output "manifest.json" _ _ [("signature", sg)])
    by (simpl; tauto || (cbn [fs set_fs nodes]; apply get_set_eq)).
  unfold mbind at 1. rewrite zip_writestr_text.
  rewrite (zip_writestr_fixed output "pass.json" _ _
             [("signature", sg); ("manifest.json", utf8_encode manifest)])
    by (simpl; tauto || (cbn [fs set_fs nodes]; apply get_set_eq)).
  unfold mbind at 1, gets. cbn [self set_fs].
  unfold mbind at 1.
  cbn [self fs set_fs nodes unwritable entropy app].
  rewrite !set_set. unfold set_fs. cbn [self fs nodes unwritable entropy].
  reflexivity.
Qed.

(** [_create_zip] on a writable destination, with every staged value
    readable and every name taken: the archive it leaves at [output]. *)
Lemma app_create_zip_run pass_json manifest sg output m :
  open_w_error output (fs m) = None ->
  first_unreadable (_files (self m)) = None ->
  names_ok (_files (self m)) = true ->
  ApplePassPy._create_zip pass_json manifest sg output m =
  (Ok tt,
   mkMachine
     (set_files (PyDict.update (_files (self m)) (rewinds (_files (self m))))
        (self m))
     (mkFs (PyDict.set output
              (PkPass false
                 (("signature", sg) :: ("manifest.json", utf8_encode manifest)
                    :: ("pass.json", utf8_encode pass_json)
                    :: contents (_files (self m))))
              (nodes (fs m)))
        (unwritable (fs m)))
     (entropy m)).
Proof.
  intros Hw Hsup Hnames.
  rewrite app_create_zip_eq by exact Hw. cbv zeta.
  match goal with
  | |- context [ApplePassPy.write_files output ?i ?m3] =>
      pose proof (app_write_files_run output i m3
        [("signature", sg); ("manifest.json", utf8_encode manifest);
         ("pass.json", utf8_encode pass_json)]) as Hrun
  end.
  cbn [self fs set_fs nodes unwritable entropy] in Hrun.
  specialize (Hrun (get_set_eq _ _ _) Hsup). rewrite Hnames in Hrun.
  rewrite Hrun.
  unfold ApplePassPy.zip_close.
  cbn [self fs set_fs nodes unwritable entropy].
  rewrite get_set_eq. unfold set_fs.
  cbn [self fs nodes unwritable entropy app].
  now rewrite !set_set.
Qed.

(** With a name that [writestr] does not take among the staged files,
    [_create_zip] raises, after the destination has been created. *)
Lemma app_create_zip_bad_name pass_json manifest sg output m :
  open_w_error output (fs m) = None ->
  first_unreadable (_files (self m)) = None ->
  names_ok (_files (self m)) = false ->
  exists e m',
    ApplePassPy._create_zip pass_json manifest sg output m = (Err e, m') /\
    (exists msg, e = IndexError msg \/ e = StructError msg).
Proof.
  intros Hw Hsup Hnames.
  rewrite app_create_zip_eq by exact Hw. cbv zeta.
  match goal with
  | |- context [ApplePassPy.write_files output ?i ?m3] =>
      pose proof (app_write_files_run output i m3
        [("signature", sg); ("manifest.json", utf8_encode manifest);
         ("pass.json", utf8_encode pass_json)]) as Hrun
  end.
  cbn [self fs set_fs nodes unwritable entropy] in Hrun.
  specialize (Hrun (get_set_eq _ _ _) Hsup). rewrite Hnames in Hrun.
  destruct Hrun as [e [m' [-> He]]]. now exists e, m'.
Qed.

Lemma app_create_zip_unwritable pass_json manifest sg output m e :
  open_w_error output (fs m) = Some e ->
  ApplePassPy._create_zip pass_json manifest sg output m = (Err e, m).
Proof.
  intros Hw. unfold ApplePassPy._create_zip, mbind, ApplePassPy.zip_open.
  now rewrite Hw.
Qed.








End ApplePassPyArchive.

Section ApplePassPySuccess.

Context {Certificate PrivateKey : Type} {X : Extern Certificate PrivateKey}.

(** A signature comes out of [apple_pass.py]'s [_create_signature_crypto]
    only as the result of signing the UTF-16 bytes of the manifest; the
    key was asked for with the UTF-16 bytes of the password. *)
Lemma app_signature_ok manifest certificate key wwdr password m sg m' :
  ApplePassPy._create_signature_crypto manifest certificate key wwdr password m
    = (Ok sg, m') ->
  exists cert_pem cert key_pem priv_key wwdr_pem wwdr_cert,
    fst (_read_file_bytes certificate m) = Ok cert_pem /\
    load_pem_x509_certificate cert_pem = Ok cert /\
    fst (_read_file_bytes key m) = Ok key_pem /\
    load_pem_private_key key_pem (option_map utf16_encode password) = Ok priv_key /\
    fst (_read_file_bytes wwdr m) = Ok wwdr_pem /\
    load_pem_x509_certificate wwdr_pem = Ok wwdr_cert /\
    pkcs7_sign
      (mkBuilder (Some (utf16_encode manifest)) [(cert, priv_key, SHA1_alg)]
         [wwdr_cert])
      DER [DetachedSignature] (entropy m) = Ok sg /\
    m' = set_entropy (N.succ (entropy m)) m.
Proof.
  unfold ApplePassPy._create_signature_crypto, mbind, lift.
  pose proof (read_file_bytes_frame certificate m) as H1.
  destruct (_read_file_bytes certificate m) as [[b1|e1] m1];
    simpl in H1; subst m1; [|discriminate].
  destruct (load_pem_x509_certificate b1) as [c1|e1] eqn:E1; [|discriminate].
  pose proof (read_file_bytes_frame key m) as H2.
  destruct (_read_file_bytes key m) as [[b2|e2] m2];
    simpl in H2; subst m2; [|discriminate].
  destruct (load_pem_private_key b2 _) as [k2|e2] eqn:E2; [|discriminate].
  pose proof (read_file_bytes_frame wwdr m) as H3.
  destruct (_read_file_bytes wwdr m) as [[b3|e3] m3];
    simpl in H3; subst m3; [|discriminate].
  destruct (load_pem_x509_certificate b3) as [c3|e3] eqn:E3; [|discriminate].
  unfold sign. intros [= Hs <-].
  exists b1, c1, b2, k2, b3, c3. repeat split; assumption.
Qed.

(** One step through [_create_signature_crypto]: a file lookup or a call
    of a loader is split into its outcomes. *)
Ltac signature_step m :=
  cbn [fs set_self entropy nodes fst snd];
  match goal with
  | |- context [os_stat ?p (fs m)] =>
      destruct (os_stat p (fs m)) as [[?|? ?|]|]
  | |- context [load_pem_x509_certificate ?b] =>
      destruct (load_pem_x509_certificate b)
  | |- context [load_pem_private_key ?b ?p] =>
      destruct (load_pem_private_key b p)
  end.

(** Signing does not look at the session. *)
Lemma app_signature_set_self manifest certificate key wwdr password s m :
  fst (ApplePassPy._create_signature_crypto manifest certificate key wwdr
         password (set_self s m)) =
  fst (ApplePassPy._create_signature_crypto manifest certificate key wwdr
         password m).
Proof.
  unfold ApplePassPy._create_signature_crypto, mbind, lift, _read_file_bytes,
    sign.
  repeat signature_step m; reflexivity.
Qed.

(** A successful [create] of [apple_pass.py], stage by stage, and the
    archive it leaves at [pass_path]. *)
Lemma app_create_ok certificate key wwdr password pass_path m p m' :
  PyDict.wf (_files (self m)) ->
  ApplePassPy.create certificate key wwdr password pass_path m = (Ok p, m') ->
  exists pass_json sg,
    ApplePassPy._create_pass_json (self m) = Ok pass_json /\
    first_unreadable (_files (self m)) = None /\
    _hashes (self m') =
      PyDict.update (_hashes (self m))
        (manifest_entries utf16_encode pass_json (self m)) /\
    fst (ApplePassPy._create_signature_crypto
           (dumps_hashes (_hashes (self m'))) certificate key wwdr password m)
      = Ok sg /\
    PyDict.get pass_path (nodes (fs m')) =
      Some (PkPass false
              (("signature", sg)
                 :: ("manifest.json", utf8_encode (dumps_hashes (_hashes (self m'))))
                 :: ("pass.json", utf8_encode pass_json)
                 :: contents (_files (self m)))) /\
    names_ok (_files (self m)) = true.
Proof.
  intros Hwf. rewrite app_create_eq, app_create_body_eq.
  destruct (ApplePassPy._create_pass_json (self m)) as [pj|e]; [|discriminate].
  pose proof (app_manifest_run pj (self m)) as Hrun.
  destruct (first_unreadable (_files (self m))) as [[name e]|] eqn:Hsup.
  { destruct Hrun as [n ->]. discriminate. }
  rewrite Hrun. clear Hrun.
  set (h := PyDict.update (_hashes (self m))
              (manifest_entries utf16_encode pj (self m))).
  rewrite (update_rewinds _ Hwf).
  set (s1 := set_hashes h (set_files (rewinds (_files (self m))) (self m))).
  pose proof (app_signature_set_self (dumps_hashes h) certificate key wwdr
                password s1 m) as Hsame.
  destruct (ApplePassPy._create_signature_crypto (dumps_hashes h) certificate
              key wwdr password (set_self s1 m)) as [[sg|e] m2] eqn:Esig;
    [|discriminate].
  destruct (app_signature_ok _ _ _ _ _ _ _ _ Esig)
    as [_ [_ [_ [_ [_ [_ [_ [_ [_ [_ [_ [_ [_ ->]]]]]]]]]]]]].
  destruct (open_w_error pass_path (fs m)) as [e_open|] eqn:Hw.
  { rewrite app_create_zip_unwritable with (e := e_open) by exact Hw. discriminate. }
  assert (Hsup1 : first_unreadable
                    (_files (self (set_entropy (N.succ (entropy (set_self s1 m)))
                                     (set_self s1 m)))) = None).
  { subst s1. cbn [self set_self set_entropy _files set_files set_hashes].
    now apply first_unreadable_rewinds. }
  assert (Hn1 : names_ok
                  (_files (self (set_entropy (N.succ (entropy (set_self s1 m)))
                                   (set_self s1 m)))) =
                names_ok (_files (self m))).
  { subst s1. cbn [self set_self set_entropy _files set_files set_hashes].
    apply names_ok_rewinds. }
  destruct (names_ok (_files (self m))) eqn:Hnames.
  2:{ destruct (app_create_zip_bad_name pj (dumps_hashes h) sg pass_path
                  (set_entropy (N.succ (entropy (set_self s1 m)))
                     (set_self s1 m)) Hw Hsup1 Hn1) as [e [m3 [-> _]]].
      discriminate. }
  rewrite app_create_zip_run by assumption.
  cbn [self fs set_self set_entropy entropy nodes unwritable].
  intros [= <- <-]. cbn [self fs nodes].
  exists pj, sg. split; [reflexivity|]. split; [reflexivity|].
  split; [reflexivity|]. split; [|split; [|reflexivity]].
  - change (_hashes (set_files _ s1)) with h. now rewrite <- Hsame.
  - rewrite get_set_eq. subst s1. cbn [_files set_files set_hashes _hashes].
    now rewrite contents_rewinds.
Qed.

End ApplePassPySuccess.

(* ===================================================================== *)
(** * Staging a file twice *)
(* ===================================================================== *)

Section AddFileTwice.

Context {Certificate PrivateKey : Type} {X : Extern Certificate PrivateKey}.



(** The members under the name that [zipfile] gives a staged file, when
    no other staged name is cut to that name. *)
Lemma members_named_contents name v d :
  PyDict.wf d -> PyDict.get name d = Some v ->
  (forall k, In k (PyDict.keys d) -> arcname k = arcname name -> k = name) ->
  members_named (arcname name) (contents d) = [content v].
Proof.
  unfold PyDict.wf, members_named, contents.
  induction d as [|[k0 v0] d IH]; simpl; [discriminate|].
  intros Hnd Hget Huniq. inversion Hnd as [|? ? Hnotin Hnd']; subst.
  destruct (String.eqb name k0) eqn:E.
  - apply String.eqb_eq in E. subst k0. injection Hget as ->.
    rewrite String.eqb_refl. simpl. f_equal.
    clear IH Hnd Hnd'. induction d as [|[k1 v1] d IH]; [reflexivity|].
    simpl in *. destruct (String.eqb (arcname name) (arcname k1)) eqn:E1.
    + apply String.eqb_eq in E1. exfalso. apply Hnotin. left.
      apply Huniq; [right; now left | now symmetry].
    + apply IH; [tauto|]. intros k [Hk|Hk] Hc; apply Huniq; auto.
  - destruct (String.eqb (arcname name) (arcname k0)) eqn:E0.
    + apply String.eqb_eq in E0. apply String.eqb_neq in E.
      exfalso. apply E. symmetry. apply Huniq; [now left | now symmetry].
    + apply IH; [exact Hnd' | exact Hget |].
      intros k Hk Hc. apply Huniq; [now right | exact Hc].
Qed.

Lemma members_named_fixed name sg manifest pass_json zf :
  ~ In name fixed_members ->
  members_named name
    (("signature", sg) :: ("manifest.json", manifest)
       :: ("pass.json", pass_json) :: zf) =
  members_named name zf.
Proof.
  intros H. unfold members_named. simpl.
  assert (E : forall k, In k fixed_members -> String.eqb name k = false).
  { intros k Hk. apply String.eqb_neq. intros ->. contradiction. }
  rewrite (E "signature"), (E "manifest.json"), (E "pass.json");
    simpl; auto.
Qed.


End AddFileTwice.



(* ===================================================================== *)
(** * The encoding of apple_pass.py against the bytes it writes *)
(* ===================================================================== *)

(** C1, at a failing input. [apple_pass.py] builds "Gate 22" with a
    10-byte [icon.png]: the build succeeds, the archive member [pass.json]
    holds the UTF-8 bytes of the document, and the digest recorded for
    [pass.json], in [_hashes] and in the member [manifest.json], is the
    digest of its UTF-16 bytes, not the digest of the member.  The digest
    recorded for [icon.png] is the digest of its member. *)
Theorem apple_pass_py_pass_json_digest_mismatch :
  let r := Demo.apple_pass_build in
  let zf := Demo.pkpass_of (snd r) in
  let h := _hashes (self (snd r)) in
  fst r = Ok "pass.pkpass" /\
  PyDict.get "pass.pkpass" (nodes (fs (snd r))) = Some (PkPass false zf) /\
  members_named "manifest.json" zf = [utf8_encode (dumps_hashes h)] /\
  (exists pass_json written,
     ApplePassPy._create_pass_json Demo.with_icon = Ok pass_json /\
     members_named "pass.json" zf = [written] /\
     written = utf8_encode pass_json /\
     PyDict.get "pass.json" h = Some (sha1_hexdigest (utf16_encode pass_json)) /\
     PyDict.get "pass.json" h = Some "d4aaff1cc60c01348909a8b9cebd149a62d74cae" /\
     sha1_hexdigest written = "88d026f9d17f9882459436d92156acc9055139ec" /\
     PyDict.get "pass.json" h <> Some (sha1_hexdigest written)) /\
  members_named "icon.png" zf = [Demo.icon] /\
  PyDict.get "icon.png" h = Some (sha1_hexdigest Demo.icon).
Proof.
  cbv zeta. split; [vm_compute; reflexivity|].
  split; [vm_compute; reflexivity|]. split; [vm_compute; reflexivity|].
  split; [|split; vm_compute; reflexivity].
  eexists _, _. split; [vm_compute; reflexivity|].
  split; [vm_compute; reflexivity|]. split; [vm_compute; reflexivity|].
  split; [vm_compute; reflexivity|]. split; [vm_compute; reflexivity|].
  split; [vm_compute; reflexivity|]. vm_compute. discriminate.
Qed.

(** C2, at a failing input. In the same build of [apple_pass.py] the
    member [signature] is the detached DER signature, with the WWDR
    certificate attached, of the UTF-16 bytes of the manifest text; the
    member [manifest.json] holds its UTF-8 bytes, which are other bytes,
    and the signature of those is another signature. *)
Theorem apple_pass_py_signature_not_over_manifest_member :
  let r := Demo.apple_pass_build in
  let zf := Demo.pkpass_of (snd r) in
  let manifest := dumps_hashes (_hashes (self (snd r))) in
  let builder payload :=
    mkBuilder (Some payload) [(Demo.cert_pem, utf8_encode "KEY", SHA1_alg)]
      [Demo.wwdr_pem] in
  fst r = Ok "pass.pkpass" /\
  exists sg written,
    members_named "signature" zf = [sg] /\
    members_named "manifest.json" zf = [written] /\
    written = utf8_encode manifest /\
    pkcs7_sign (Extern := Demo.extern) (builder (utf16_encode manifest))
      DER [DetachedSignature] 0 = Ok sg /\
    utf16_encode manifest <> written /\
    pkcs7_sign (Extern := Demo.extern) (builder written)
      DER [DetachedSignature] 0 <> Ok sg.
Proof.
  cbv zeta. split; [vm_compute; reflexivity|].
  eexists _, _. split; [vm_compute; reflexivity|].
  split; [vm_compute; reflexivity|]. split; [vm_compute; reflexivity|].
  split; [vm_compute; reflexivity|].
  split; [apply utf16_ne_utf8 | vm_compute; discriminate].
Qed.

(** C6, at a failing input. The key file is protected by the passphrase
    [a], one byte in UTF-8.  Given the password [a], [models.py] hands the
    key loader that byte and builds the pass; [apple_pass.py] hands it the
    four bytes of the UTF-16 rendering, and the build fails on the wrong
    password. *)
Theorem apple_pass_py_password_not_utf8 :
  let m := Demo.machine_of Demo.with_icon in
  utf8_encode "a" = [x61] /\
  utf16_encode "a" = [xff; xfe; x61; x00] /\
  load_pem_private_key (Extern := Demo.extern) Demo.locked_key_pem
    (Some (utf8_encode "a")) = Ok (utf8_encode "KEY") /\
  (exists zf,
     fst (Models.create (X := Demo.extern) "cert.pem" "locked.pem" "wwdr.pem"
            (Some "a") m) = Ok zf) /\
  fst (ApplePassPy.create (X := Demo.extern) "cert.pem" "locked.pem"
         "wwdr.pem" (Some "a") "pass.pkpass" m) =
  Err (PassCreationError
         "Failed to create pass: Bad decrypt. Incorrect password?"
         (ValueError "Bad decrypt. Incorrect password?")).
Proof.
  cbv zeta. split; [reflexivity|]. split; [reflexivity|].
  split; [vm_compute; reflexivity|].
  split; [eexists; vm_compute; reflexivity | vm_compute; reflexivity].
Qed.

(* ===================================================================== *)
(** * Barcodes and the rendering of the document *)
(* ===================================================================== *)

Section BarcodeAttributes.

Lemma barcode_has_no_format b :
  Barcode_getattr b "format" =
  Err (AttributeError "'Barcode' object has no attribute 'format'").
Proof. reflexivity. Qed.

Lemma barcode_has_no_altText b :
  Barcode_getattr b "altText" =
  Err (AttributeError "'Barcode' object has no attribute 'altText'").
Proof. reflexivity. Qed.

Lemma barcode_has_no_message b :
  Barcode_getattr b "message" =
  Err (AttributeError "'Barcode' object has no attribute 'message'").
Proof. reflexivity. Qed.

(** C10. A barcode has neither an attribute [format] nor an attribute
    [altText].  In [models.py], rendering the document of any pass whose
    barcode is set reads [barcode.format] and raises [AttributeError]
    instead of producing a document.  In [apple_pass.py] the same happens
    in the fallback branch, when the format of the barcode is none of
    PDF417, QR and Aztec: the branch reads [barcode.message] and
    [barcode.altText], and the first of these reads raises. *)
Theorem barcode_rendering_raises_AttributeError s b :
  barcode s = Some b ->
  (exists e1 e2,
     Barcode_getattr b "format" = Err (AttributeError e1) /\
     Barcode_getattr b "altText" = Err (AttributeError e2)) /\
  Models.json_dict s =
    Err (AttributeError "'Barcode' object has no attribute 'format'") /\
  Models._create_pass_json s =
    Err (AttributeError "'Barcode' object has no attribute 'format'") /\
  (format_in (_format b) original_formats = false ->
   ApplePassPy.json_dict s =
     Err (AttributeError "'Barcode' object has no attribute 'message'") /\
   ApplePassPy._create_pass_json s =
     Err (AttributeError "'Barcode' object has no attribute 'message'")).
Proof.
  intros Hb. split; [now eexists _, _|].
  unfold Models._create_pass_json, Models.json_dict, Models.barcode_block,
    ApplePassPy._create_pass_json, ApplePassPy.json_dict,
    ApplePassPy.barcode_block.
  rewrite Hb. split; [reflexivity|]. split; [reflexivity|].
  intros Hf. rewrite Hf. split; reflexivity.
Qed.

(** With a barcode in one of the three original formats [apple_pass.py]
    does not enter the fallback branch and renders the document. *)
Lemma apple_pass_py_original_format_renders s b :
  barcode s = Some b ->
  format_in (_format b) original_formats = true ->
  exists pass_json, ApplePassPy._create_pass_json s = Ok pass_json.
Proof.
  intros Hb Hf.
  unfold ApplePassPy._create_pass_json, ApplePassPy.json_dict,
    ApplePassPy.barcode_block.
  rewrite Hb, Hf. simpl. now eexists.
Qed.

End BarcodeAttributes.

Lemma barcode_rendering_raises_AttributeError_witness :
  let s := Demo.with_barcode CODE128 in
  let b := mkBarcode CODE128 "0001" "iso-8859-1" EmptyString in
  barcode s = Some b /\
  format_in (_format b) original_formats = false /\
  Models._create_pass_json s =
    Err (AttributeError "'Barcode' object has no attribute 'format'") /\
  ApplePassPy._create_pass_json s =
    Err (AttributeError "'Barcode' object has no attribute 'message'").
Proof.
  intros s b.
  assert (Hb : barcode s = Some b) by reflexivity.
  assert (Hf : format_in (_format b) original_formats = false) by reflexivity.
  destruct (barcode_rendering_raises_AttributeError s b Hb)
    as [_ [_ [Hm Ha]]].
  split; [exact Hb|]. split; [exact Hf|]. split; [exact Hm|].
  exact (proj2 (Ha Hf)).
Defined.

(* ===================================================================== *)
(** * Recorded digests against archive members, build by build *)
(* ===================================================================== *)

Section DigestsAndMembers.

Context {Certificate PrivateKey : Type} {X : Extern Certificate PrivateKey}.

Lemma get_update_notin {V} (l : PyDict.t V) : forall d k,
  ~ In k (PyDict.keys l) ->
  PyDict.get k (PyDict.update d l) = PyDict.get k d.
Proof.
  unfold PyDict.update.
  induction l as [|[k0 v0] l IH]; intros d k Hk; [reflexivity|].
  simpl in *. rewrite IH by auto. apply get_set_neq. auto.
Qed.

(** The value under [k] after an update is the last one assigned. *)
Lemma get_update_last {V} (l1 l2 : PyDict.t V) d k v :
  ~ In k (PyDict.keys l2) ->
  PyDict.get k (PyDict.update d (l1 ++ (k, v) :: l2)) = Some v.
Proof.
  intros Hk. unfold PyDict.update. rewrite fold_left_app. simpl.
  fold (PyDict.update (PyDict.set k v (fold_left
          (fun acc kv => PyDict.set (fst kv) (snd kv) acc) l1 d)) l2).
  rewrite get_update_notin by assumption. apply get_set_eq.
Qed.

Lemma wf_split {V} (d : PyDict.t V) k v :
  PyDict.wf d -> PyDict.get k d = Some v ->
  exists a b, d = a ++ (k, v) :: b /\ ~ In k (PyDict.keys b).
Proof.
  unfold PyDict.wf. induction d as [|[k0 v0] d IH]; simpl; [discriminate|].
  intros Hnd. inversion Hnd as [|? ? Hnotin Hnd']; subst.
  destruct (String.eqb k k0) eqn:E.
  - apply String.eqb_eq in E. subst. intros [= ->]. now exists [], d.
  - intros H. destruct (IH Hnd' H) as [a [b [-> Hb]]].
    now exists ((k0, v0) :: a), b.
Qed.

(** After manifest construction the digest recorded under the name of a
    staged file is the digest of its content. *)
Lemma entries_get_attachment enc pass_json s h name v :
  PyDict.wf (_files s) -> PyDict.get name (_files s) = Some v ->
  PyDict.get name (PyDict.update h (manifest_entries enc pass_json s)) =
  Some (sha1_hexdigest (content v)).
Proof.
  intros Hwf Hget. destruct (wf_split _ _ _ Hwf Hget) as [a [b [Hd Hb]]].
  unfold manifest_entries. rewrite Hd. unfold digests. rewrite map_app.
  apply (get_update_last
           (("pass.json", sha1_hexdigest (enc pass_json)) :: digests a)
           (digests b)).
  now rewrite keys_digests.
Qed.

(** And the digest recorded under [pass.json] is the digest of the
    document as [enc] renders it, unless a file is staged under that
    name. *)
Lemma entries_get_pass_json enc pass_json s h :
  ~ In "pass.json" (PyDict.keys (_files s)) ->
  PyDict.get "pass.json" (PyDict.update h (manifest_entries enc pass_json s)) =
  Some (sha1_hexdigest (enc pass_json)).
Proof.
  intros Hk. unfold manifest_entries.
  apply (get_update_last [] (digests (_files s))).
  now rewrite keys_digests.
Qed.

Lemma members_named_pass_json sg manifest pass_json zf :
  members_named "pass.json"
    (("signature", sg) :: ("manifest.json", manifest)
       :: ("pass.json", pass_json) :: zf) =
  pass_json :: members_named "pass.json" zf.
Proof. reflexivity. Qed.

Lemma members_named_manifest_json sg manifest pass_json zf :
  members_named "manifest.json"
    (("signature", sg) :: ("manifest.json", manifest)
       :: ("pass.json", pass_json) :: zf) =
  manifest :: members_named "manifest.json" zf.
Proof. reflexivity. Qed.

Lemma members_named_absent name d :
  ~ In name (map arcname (PyDict.keys d)) ->
  members_named name (contents d) = [].
Proof.
  unfold members_named, contents.
  induction d as [|[k v] d IH]; simpl; [reflexivity|]. intros H.
  destruct (String.eqb name (arcname k)) eqn:E.
  - apply String.eqb_eq in E. subst. exfalso. auto.
  - apply IH. auto.
Qed.

Lemma arcname_fixed name : In name fixed_members -> arcname name = name.
Proof. intros [<-|[<-|[<-|[]]]]; reflexivity. Qed.

Lemma not_cut_to_not_key name (d : PyDict.t pyval) :
  In name fixed_members ->
  ~ In name (map arcname (PyDict.keys d)) -> ~ In name (PyDict.keys d).
Proof.
  intros Hfix H Hin. apply H. rewrite <- (arcname_fixed name Hfix).
  now apply in_map.
Qed.


(** The document half fails in every successful build of [apple_pass.py]:
    the digest recorded under [pass.json] is that of the UTF-16 bytes of
    the document, the member [pass.json] holds its UTF-8 bytes, and the
    two byte sequences are never the same. *)
Lemma apple_pass_py_document_digest_of_other_bytes certificate key wwdr
    password pass_path m p m' :
  PyDict.wf (_files (self m)) ->
  ~ In "pass.json" (map arcname (PyDict.keys (_files (self m)))) ->
  ApplePassPy.create certificate key wwdr password pass_path m = (Ok p, m') ->
  exists zf pass_json,
    PyDict.get pass_path (nodes (fs m')) = Some (PkPass false zf) /\
    members_named "pass.json" zf = [utf8_encode pass_json] /\
    PyDict.get "pass.json" (_hashes (self m')) =
      Some (sha1_hexdigest (utf16_encode pass_json)) /\
    utf16_encode pass_json <> utf8_encode pass_json.
Proof.
  intros Hwf Hk Hcreate.
  destruct (app_create_ok _ _ _ _ _ _ _ _ Hwf Hcreate)
    as [pj [sg [_ [_ [Hh [_ [Hzip _]]]]]]].
  eexists _, pj. split; [exact Hzip|]. split; [|split].
  - rewrite members_named_pass_json, members_named_absent by exact Hk.
    reflexivity.
  - rewrite Hh. apply entries_get_pass_json.
    apply not_cut_to_not_key; [simpl; tauto | exact Hk].
  - apply utf16_ne_utf8.
Qed.

(** In every successful build of [apple_pass.py] the signature is over
    the UTF-16 bytes of the manifest text, with the WWDR certificate
    attached, while the member [manifest.json] holds the UTF-8 bytes. *)
Lemma apple_pass_py_signature_over_utf16 certificate key wwdr password
    pass_path m p m' :
  PyDict.wf (_files (self m)) ->
  ~ In "manifest.json" (map arcname (PyDict.keys (_files (self m)))) ->
  ApplePassPy.create certificate key wwdr password pass_path m = (Ok p, m') ->
  exists zf sg manifest cert priv_key wwdr_cert,
    PyDict.get pass_path (nodes (fs m')) = Some (PkPass false zf) /\
    members_named "manifest.json" zf = [utf8_encode manifest] /\
    hd_error zf = Some ("signature", sg) /\
    pkcs7_sign
      (mkBuilder (Some (utf16_encode manifest)) [(cert, priv_key, SHA1_alg)]
         [wwdr_cert])
      DER [DetachedSignature] (entropy m) = Ok sg /\
    utf16_encode manifest <> utf8_encode manifest.
Proof.
  intros Hwf Hk Hcreate.
  destruct (app_create_ok _ _ _ _ _ _ _ _ Hwf Hcreate)
    as [pj [sg [_ [_ [_ [Hsig [Hzip _]]]]]]].
  destruct (ApplePassPy._create_signature_crypto
              (dumps_hashes (_hashes (self m'))) certificate key wwdr
              password m) as [r m2] eqn:Esig.
  simpl in Hsig. subst r.
  destruct (app_signature_ok _ _ _ _ _ _ _ _ Esig)
    as [_ [cert [_ [priv_key [_ [wwdr_cert [_ [_ [_ [_ [_ [_ [Hs _]]]]]]]]]]]]].
  eexists _, sg, _, cert, priv_key, wwdr_cert.
  split; [exact Hzip|]. split; [|split; [reflexivity|split]].
  - rewrite members_named_manifest_json, members_named_absent by exact Hk.
    reflexivity.
  - exact Hs.
  - apply utf16_ne_utf8.
Qed.

End DigestsAndMembers.

Section ModelsRoundTrip.

Context {Certificate PrivateKey : Type} {X : Extern Certificate PrivateKey}.

Lemma models_hash_files_bytes_like items : forall s,
  fst (Models.hash_files items s) = Ok tt ->
  forallb (fun kv => bytes_like (snd kv)) items = true.
Proof.
  induction items as [|[k v] items IH]; intros s; [reflexivity|].
  cbn [Models.hash_files]. unfold mbind at 1, lift.
  destruct v; simpl; try discriminate;
    unfold mbind at 1, modify; apply IH.
Qed.

(** The loop of [_create_zip] over values that have been digested: every
    member is written when every name is taken, none is returned
    otherwise. *)
Lemma models_write_files_bytes_like items :
  forallb (fun kv => bytes_like (snd kv)) items = true ->
  if names_ok items then Models.write_files items [] = Ok (contents items)
  else exists e, Models.write_files items [] = Err e.
Proof.
  induction items as [|[k v] items IH]; [reflexivity|].
  cbn [forallb snd]. intros H. apply andb_true_iff in H.
  destruct H as [Hv Hrest]. specialize (IH Hrest).
  cbn [names_ok forallb fst]. fold (names_ok items).
  assert (Hstep : Models.write_files ((k, v) :: items) [] =
                  zf' <- writestr k v [] ;; Models.write_files items zf')
    by reflexivity.
  rewrite Hstep, (writestr_bytes_like k v [] Hv). clear Hstep.
  destruct (member_name_ok k); cbn [andb].
  - cbn [rbind app]. rewrite models_write_files_app.
    destruct (names_ok items).
    + now rewrite IH.
    + destruct IH as [e ->]. now exists e.
  - destruct (String.eqb (arcname k) EmptyString); now eexists.
Qed.

Lemma models_manifest_bytes_like pass_json s manifest s' :
  Models._create_manifest pass_json s = (Ok manifest, s') ->
  forallb (fun kv => bytes_like (snd kv)) (_files s) = true.
Proof.
  unfold Models._create_manifest, mbind, modify, gets, mret. simpl.
  set (s1 := set_hashes _ s).
  pose proof (models_hash_files_bytes_like (_files s) s1) as H.
  destruct (Models.hash_files (_files s) s1) as [[[]|e] s2]; [|discriminate].
  intros _. now apply H.
Qed.

(** A successful [create] of [models.py] on a reachable session, with or
    without a sink: the stores afterwards and the archive written into
    the sink. *)
Lemma models_create_archive certificate key wwdr password zip_file s f n
    z m' :
  reachable s ->
  Models.create_into certificate key wwdr password zip_file (mkMachine s f n)
    = (Ok z, m') ->
  exists pass_json sg,
    Models._create_pass_json s = Ok pass_json /\
    _hashes (self m') =
      PyDict.update (_hashes s) (manifest_entries utf8_encode pass_json s) /\
    Models._create_signature_crypto (dumps_hashes (_hashes (self m')))
      certificate key wwdr password (mkMachine (self m') f n) = (Ok sg, m') /\
    sink_members z =
      ("signature", sg)
        :: ("manifest.json", utf8_encode (dumps_hashes (_hashes (self m'))))
        :: ("pass.json", utf8_encode pass_json) :: contents (_files s) /\
    ZipFile_w (sink_of zip_file) =
      Ok (mkSink (sink_before z) [] (sink_beyond z)).
Proof.
  intros Hr. rewrite models_create_into_eq. cbn [self].
  destruct (Models._create_pass_json s) as [pj|e] eqn:Hpj; [|discriminate].
  destruct (Models._create_manifest pj s) as [[manifest|e] s1] eqn:Hman;
    [|discriminate].
  destruct (models_signature_frame manifest certificate key wwdr password
              (set_self s1 (mkMachine s f n))) as [Hs Hfs].
  destruct (Models._create_signature_crypto manifest certificate key wwdr
              password (set_self s1 (mkMachine s f n))) as [[sg|e] m2]
    eqn:Esig; [|discriminate].
  cbn [snd self fs set_self] in Hs, Hfs.
  destruct (Models._create_zip pj manifest sg (sink_of zip_file) (self m2))
    as [z0|e] eqn:Ezip; [|discriminate].
  intros [= <- <-].
  destruct (models_manifest_ok _ _ _ _ Hr Hman) as [Hs' [Hm _]].
  pose proof (models_manifest_bytes_like _ _ _ _ Hman) as Hb.
  assert (Hf : _files (self m2) = _files s) by (rewrite Hs, Hs'; reflexivity).
  unfold Models._create_zip in Ezip.
  destruct (ZipFile_w (sink_of zip_file)) as [z1|e] eqn:Ez; [|discriminate].
  cbn [rbind] in Ezip. rewrite models_write_members_eq, Hf in Ezip.
  pose proof (models_write_files_bytes_like _ Hb) as Hw.
  destruct (names_ok (_files s)).
  2:{ destruct Hw as [e Hw]. rewrite Hw in Ezip. discriminate. }
  rewrite Hw in Ezip. injection Ezip as <-. cbn [sink_members sink_before
    sink_beyond].
  assert (Hh : _hashes (self m2) =
               PyDict.update (_hashes s) (manifest_entries utf8_encode pj s))
    by (rewrite Hs, Hs'; reflexivity).
  assert (Hmf : manifest = dumps_hashes (_hashes (self m2)))
    by (rewrite Hs; exact Hm).
  exists pj, sg. split; [reflexivity|]. split; [exact Hh|].
  split; [|split].
  - rewrite <- Hmf, Hs. exact Esig.
  - now rewrite <- Hmf.
  - unfold ZipFile_w in Ez. destruct (sink_of zip_file); [|discriminate].
    now injection Ez as <-.
Qed.

(** X1. [models.py] keeps the round trip, whatever sink [create] is
    handed.  In every successful build on a reachable session the
    archive is written into the sink handed, or into a new one when none
    is, from the position at which the sink stands: what the sink holds
    before that position stays, and nothing is cut off behind the
    archive.  The archive holds, after the three fixed members, one
    member per staged file, named by the filename up to its first NUL;
    the digest
    recorded under [pass.json] is the digest of the bytes of the member
    [pass.json] when no staged filename is cut to that name, and the
    digest recorded under a filename is the digest of the bytes of its
    member, the only one of its name when that name is none of the three
    fixed ones and no other staged filename is cut to it. *)
Lemma models_digests_match_members certificate key wwdr password zip_file
    s f n z m' :
  reachable s ->
  Models.create_into certificate key wwdr password zip_file (mkMachine s f n)
    = (Ok z, m') ->
  ZipFile_w (sink_of zip_file) =
    Ok (mkSink (sink_before z) [] (sink_beyond z)) /\
  map fst (skipn 3 (sink_members z)) = map arcname (PyDict.keys (_files s)) /\
  (~ In "pass.json" (map arcname (PyDict.keys (_files s))) ->
   exists written,
     members_named "pass.json" (sink_members z) = [written] /\
     PyDict.get "pass.json" (_hashes (self m')) = Some (sha1_hexdigest written)) /\
  (forall name v,
     PyDict.get name (_files s) = Some v ->
     ~ In (arcname name) fixed_members ->
     (forall k, In k (PyDict.keys (_files s)) ->
                arcname k = arcname name -> k = name) ->
     exists written,
       members_named (arcname name) (sink_members z) = [written] /\
       PyDict.get name (_hashes (self m')) = Some (sha1_hexdigest written)).
Proof.
  intros Hr Hcreate.
  destruct (models_create_archive _ _ _ _ _ _ _ _ _ _ Hr Hcreate)
    as [pj [sg [_ [Hh [_ [-> Hsink]]]]]].
  pose proof (inv_files_wf _ (reachable_inv _ Hr)) as Hwf.
  split; [exact Hsink|]. split; [|split].
  - cbn [skipn]. unfold contents, PyDict.keys. now rewrite !map_map.
  - intros Hk. exists (utf8_encode pj). split.
    + rewrite members_named_pass_json, members_named_absent by exact Hk.
      reflexivity.
    + rewrite Hh. apply entries_get_pass_json.
      apply not_cut_to_not_key; [simpl; tauto | exact Hk].
  - intros name v Hget Hname Huniq. exists (content v). split.
    + rewrite members_named_fixed by exact Hname.
      now apply members_named_contents.
    + rewrite Hh. now apply entries_get_attachment.
Qed.

(** X2. In every successful build of [models.py], whatever sink [create]
    is handed, the first member of the archive is [signature], and it is
    the detached DER signature, by one SHA-1 signer, of exactly the bytes
    of the member [manifest.json] (the only one of that name when no
    staged filename is cut to it): the signer's certificate is the one
    loaded from the certificate file, its key the one loaded from the key
    file with the UTF-8 bytes of the password, and the one certificate
    attached is the one loaded from the WWDR file. *)
Lemma models_signature_over_manifest_member certificate key wwdr password
    zip_file s f n z m' :
  reachable s ->
  ~ In "manifest.json" (map arcname (PyDict.keys (_files s))) ->
  Models.create_into certificate key wwdr password zip_file (mkMachine s f n)
    = (Ok z, m') ->
  exists sg written cert_pem cert key_pem priv_key wwdr_pem wwdr_cert,
    hd_error (sink_members z) = Some ("signature", sg) /\
    members_named "manifest.json" (sink_members z) = [written] /\
    fst (_read_file_bytes certificate (mkMachine s f n)) = Ok cert_pem /\
    load_pem_x509_certificate cert_pem = Ok cert /\
    fst (_read_file_bytes key (mkMachine s f n)) = Ok key_pem /\
    load_pem_private_key key_pem (option_map utf8_encode password) = Ok priv_key /\
    fst (_read_file_bytes wwdr (mkMachine s f n)) = Ok wwdr_pem /\
    load_pem_x509_certificate wwdr_pem = Ok wwdr_cert /\
    pkcs7_sign
      (mkBuilder (Some written) [(cert, priv_key, SHA1_alg)] [wwdr_cert])
      DER [DetachedSignature] n = Ok sg.
Proof.
  intros Hr Hk Hcreate.
  destruct (models_create_archive _ _ _ _ _ _ _ _ _ _ Hr Hcreate)
    as [pj [sg [_ [_ [Hsig [-> _]]]]]].
  destruct (models_signature_ok _ _ _ _ _ _ _ _ Hsig)
    as [cert_pem [cert [key_pem [priv_key [wwdr_pem [wwdr_cert
          [Hc [Hlc [Hkey [Hload [Hw [Hlw [Hs _]]]]]]]]]]]]].
  exists sg, (utf8_encode (dumps_hashes (_hashes (self m')))), cert_pem, cert,
    key_pem, priv_key, wwdr_pem, wwdr_cert.
  split; [reflexivity|]. split.
  { rewrite members_named_manifest_json, members_named_absent by exact Hk.
    reflexivity. }
  split; [rewrite <- Hc; now apply read_file_bytes_fs|].
  split; [exact Hlc|].
  split; [rewrite <- Hkey; now apply read_file_bytes_fs|].
  split; [exact Hload|].
  split; [rewrite <- Hw; now apply read_file_bytes_fs|].
  split; [exact Hlw | exact Hs].
Qed.

End ModelsRoundTrip.

(* ===================================================================== *)
(** * Concrete builds for the round-trip lemmas *)
(* ===================================================================== *)

Lemma sink_build_ok :
  exists z, Demo.sink_build = (Ok z, snd Demo.sink_build) /\
            sink_before z = [x01] /\ sink_beyond z = [x02; x03].
Proof.
  destruct Demo.sink_build as [[z|e] m'] eqn:E;
    [|exfalso; vm_compute in E; discriminate].
  exists z. split; [reflexivity|].
  vm_compute in E. injection E as <- _. split; reflexivity.
Defined.

Lemma models_digests_match_members_witness :
  let r := Demo.sink_build in
  let zf := Demo.members_of (fst r) in
  reachable Demo.with_icon /\
  (exists z, r = (Ok z, snd r) /\
             sink_before z = [x01] /\ sink_beyond z = [x02; x03]) /\
  ~ In "pass.json" (map arcname (PyDict.keys (_files Demo.with_icon))) /\
  PyDict.get "icon.png" (_files Demo.with_icon) = Some (PyBytes Demo.icon) /\
  (exists written,
     members_named "pass.json" zf = [written] /\
     PyDict.get "pass.json" (_hashes (self (snd r))) =
       Some (sha1_hexdigest written)) /\
  (exists written,
     members_named "icon.png" zf = [written] /\
     PyDict.get "icon.png" (_hashes (self (snd r))) =
       Some (sha1_hexdigest written)).
Proof.
  intros r zf.
  destruct sink_build_ok as [z [H _]]. fold r in H.
  assert (Hzf : zf = sink_members z) by (subst zf; now rewrite H).
  assert (Hp : ~ In "pass.json"
                 (map arcname (PyDict.keys (_files Demo.with_icon)))).
  { intros [E|[]]. discriminate E. }
  assert (Hg : PyDict.get "icon.png" (_files Demo.with_icon)
               = Some (PyBytes Demo.icon)) by reflexivity.
  assert (Hn : ~ In (arcname "icon.png") fixed_members).
  { intros [E|[E|[E|[]]]]; discriminate E. }
  destruct (models_digests_match_members (X := Demo.extern) "cert.pem"
              "key.pem" "wwdr.pem" None
              (Some (OpenBytesIO [x01; x02; x03] 1)) Demo.with_icon
              Demo.disk 0 z (snd r) with_icon_reachable H)
    as [Hsink [_ [Hdoc Hatt]]].
  split; [exact with_icon_reachable|]. split.
  { exists z. split; [exact H|].
    cbn [sink_of ZipFile_w firstn skipn List.length repeat Nat.sub app]
      in Hsink.
    injection Hsink as Hb Hy. now split. }
  split; [exact Hp|]. split; [exact Hg|]. rewrite Hzf.
  split; [exact (Hdoc Hp)|].
  apply (Hatt "icon.png" _ Hg Hn). intros k [<-|[]] _. reflexivity.
Defined.

Lemma models_signature_over_manifest_member_witness :
  let r := Demo.sink_build in
  let zf := Demo.members_of (fst r) in
  reachable Demo.with_icon /\
  (exists z, r = (Ok z, snd r)) /\
  exists sg written,
    hd_error zf = Some ("signature", sg) /\
    members_named "manifest.json" zf = [written] /\
    pkcs7_sign (Extern := Demo.extern)
      (mkBuilder (Some written)
         [(Demo.cert_pem, utf8_encode "KEY", SHA1_alg)] [Demo.wwdr_pem])
      DER [DetachedSignature] 0 = Ok sg.
Proof.
  intros r zf.
  destruct sink_build_ok as [z [H _]]. fold r in H.
  assert (Hzf : zf = sink_members z) by (subst zf; now rewrite H).
  assert (Hk : ~ In "manifest.json"
                 (map arcname (PyDict.keys (_files Demo.with_icon)))).
  { intros [E|[]]. discriminate E. }
  split; [exact with_icon_reachable|]. split; [now exists z|].
  destruct (models_signature_over_manifest_member (X := Demo.extern)
              "cert.pem" "key.pem" "wwdr.pem" None
              (Some (OpenBytesIO [x01; x02; x03] 1)) Demo.with_icon
              Demo.disk 0 z (snd r) with_icon_reachable Hk H)
    as [sg [written [cert_pem [cert [key_pem [priv_key [wwdr_pem [wwdr_cert
          [Hhd [Hmf [Hc [Hlc [Hkey [Hload [Hw [Hlw Hs]]]]]]]]]]]]]]]].
  exists sg, written. rewrite Hzf.
  split; [exact Hhd|]. split; [exact Hmf|].
  vm_compute in Hc. injection Hc as <-.
  vm_compute in Hlc. injection Hlc as <-.
  vm_compute in Hkey. injection Hkey as <-.
  vm_compute in Hload. injection Hload as <-.
  vm_compute in Hw. injection Hw as <-.
  vm_compute in Hlw. injection Hlw as <-.
  exact Hs.
Defined.


(* ===================================================================== *)
(** * models.py: what create leaves alone, and what it refuses *)
(* ===================================================================== *)

Section ModelsFrame.

Context {Certificate PrivateKey : Type} {X : Extern Certificate PrivateKey}.

Lemma same_document_set_hashes h s : same_document s (set_hashes h s).
Proof. reflexivity. Qed.

Lemma models_create_fs certificate key wwdr password m :
  fs (snd (Models.create certificate key wwdr password m)) = fs m.
Proof.
  rewrite models_create_eq.
  destruct (Models._create_pass_json (self m)) as [pj|e]; [|reflexivity].
  destruct (Models._create_manifest pj (self m)) as [[manifest|e] s1];
    [|reflexivity].
  destruct (models_signature_frame manifest certificate key wwdr password
              (set_self s1 m)) as [_ Hf].
  destruct (Models._create_signature_crypto manifest certificate key wwdr
              password (set_self s1 m)) as [[sg|e] m2]; simpl in *;
    [|exact Hf].
  destruct (Models.write_members pj manifest sg (self m2)); exact Hf.
Qed.

(** X4. [create] of [models.py], whether it returns or raises, writes
    nothing to the filesystem, stages and drops no file and changes no
    document field: of the session only [_hashes] can differ
    afterwards. *)
Theorem models_create_frame certificate key wwdr password m :
  let m' := snd (Models.create certificate key wwdr password m) in
  fs m' = fs m /\
  _files (self m') = _files (self m) /\
  same_document (self m) (self m').
Proof.
  cbv zeta. split; [apply models_create_fs|].
  destruct (models_create_self certificate key wwdr password m)
    as [->|[pj ->]]; [now split|].
  destruct (models_manifest_run pj (self m)) as [n [-> _]].
  split; [reflexivity | apply same_document_set_hashes].
Qed.

Lemma models_create_into_fs certificate key wwdr password zip_file m :
  fs (snd (Models.create_into certificate key wwdr password zip_file m))
    = fs m.
Proof.
  rewrite models_create_into_eq.
  destruct (Models._create_pass_json (self m)) as [pj|e]; [|reflexivity].
  destruct (Models._create_manifest pj (self m)) as [[manifest|e] s1];
    [|reflexivity].
  destruct (models_signature_frame manifest certificate key wwdr password
              (set_self s1 m)) as [_ Hf].
  destruct (Models._create_signature_crypto manifest certificate key wwdr
              password (set_self s1 m)) as [[sg|e] m2]; simpl in *;
    [|exact Hf].
  destruct (Models._create_zip pj manifest sg (sink_of zip_file) (self m2));
    exact Hf.
Qed.

Lemma models_hash_files_non_bytes items : forall s,
  (exists name v, In (name, v) items /\ bytes_like v = false) ->
  exists msg,
    fst (Models.hash_files items s) = Err (TypeError msg) /\
    (msg = "Strings must be encoded before hashing" \/
     msg = "object supporting the buffer API required").
Proof.
  induction items as [|[k v] items IH]; intros s [name [v0 [Hin Hv]]];
    [destruct Hin|].
  cbn [Models.hash_files]. unfold mbind at 1, lift.
  destruct (bytes_like v) eqn:Hb.
  - assert (Hrest : exists name v, In (name, v) items /\ bytes_like v = false).
    { destruct Hin as [[= <- <-]|Hin]; [congruence|]. now exists name, v0. }
    destruct v; try discriminate Hb; simpl;
      unfold mbind at 1, modify; now apply IH.
  - destruct v; try discriminate Hb; simpl; eexists; split;
      try reflexivity; auto.
Qed.

(** X5. [models.py] digests a staged value with [hashlib.sha1] as it is,
    so it builds with the objects that have the buffer protocol only:
    once the document has rendered, a staged value without it (a text, a
    stream, open or closed, any other such object, all of which
    [add_file] stores as they are, a [BytesIO] apart) makes [create],
    with or without a sink, raise [PassCreationError] over a [TypeError]
    of [hashlib], whose message does not name the file; the filesystem is
    untouched. *)
Theorem models_rejects_non_bytes certificate key wwdr password zip_file m
    pass_json :
  Models._create_pass_json (self m) = Ok pass_json ->
  (exists name v, In (name, v) (_files (self m)) /\ bytes_like v = false) ->
  exists msg m',
    Models.create_into certificate key wwdr password zip_file m =
      (Err (PassCreationError ("Failed to create pass: " +++ msg)
              (TypeError msg)), m') /\
    (msg = "Strings must be encoded before hashing" \/
     msg = "object supporting the buffer API required") /\
    fs m' = fs m.
Proof.
  intros Hpj Hbad.
  pose proof (models_create_into_fs certificate key wwdr password zip_file m)
    as Hfs.
  revert Hfs.
  rewrite models_create_into_eq, Hpj.
  unfold Models._create_manifest, mbind, modify, gets, mret. cbn [fst snd].
  set (s1 := set_hashes _ (self m)).
  change (_files s1) with (_files (self m)).
  destruct (models_hash_files_non_bytes (_files (self m)) s1 Hbad)
    as [msg [Hrun Hmsg]].
  destruct (Models.hash_files (_files (self m)) s1) as [r s2].
  cbn [fst] in Hrun. subst r. intros Hfs.
  exists msg. eexists. split; [reflexivity|]. split; [exact Hmsg | exact Hfs].
Qed.

End ModelsFrame.

Lemma models_rejects_non_bytes_witness :
  let m := Demo.machine_of Demo.with_text in
  (exists pass_json, Models._create_pass_json (self m) = Ok pass_json) /\
  In ("notes.txt", PyStr "hi") (_files (self m)) /\
  bytes_like (PyStr "hi") = false /\
  exists msg m',
    Models.create_into (X := Demo.extern) "cert.pem" "key.pem" "wwdr.pem"
      None None m =
      (Err (PassCreationError ("Failed to create pass: " +++ msg)
              (TypeError msg)), m') /\
    fs m' = fs m.
Proof.
  intros m.
  destruct (Models._create_pass_json (self m)) as [pj|e] eqn:Hpj;
    [|exfalso; vm_compute in Hpj; discriminate].
  assert (Hin : In ("notes.txt", PyStr "hi") (_files (self m)))
    by (right; left; reflexivity).
  split; [now exists pj|]. split; [exact Hin|]. split; [reflexivity|].
  destruct (models_rejects_non_bytes (X := Demo.extern) "cert.pem" "key.pem"
              "wwdr.pem" None None m pj Hpj
              (ex_intro _ "notes.txt"
                 (ex_intro _ (PyStr "hi") (conj Hin eq_refl))))
    as [msg [m' [Hc [_ Hf]]]].
  exists msg, m'. now split.
Defined.

(* ===================================================================== *)
(** * apple_pass.py: what a build writes, and when *)
(* ===================================================================== *)

Section ApplePassPyEffects.

Context {Certificate PrivateKey : Type} {X : Extern Certificate PrivateKey}.

Lemma rewinds_rewinds d : rewinds (rewinds d) = rewinds d.
Proof.
  unfold rewinds. rewrite map_map. apply map_ext.
  intros [k v]. now destruct v.
Qed.







End ApplePassPyEffects.






(** A build with a staged file whose name is empty: the loop of
    [_create_zip] raises [IndexError] after the destination has been
    created, and leaves there an archive with the three fixed members,
    not closed. *)
Example empty_name_leaves_partial_archive :
  let m := Demo.machine_of Demo.with_empty_name in
  let r := ApplePassPy.create (X := Demo.extern) "cert.pem" "key.pem"
             "wwdr.pem" None "pass.pkpass" m in
  fst r = Err (PassCreationError
                 "Failed to create pass: string index out of range"
                 (IndexError "string index out of range")) /\
  PyDict.get "pass.pkpass" (nodes (fs m)) = None /\
  exists zf,
    PyDict.get "pass.pkpass" (nodes (fs (snd r))) = Some (PkPass true zf) /\
    map fst zf = ["signature"; "manifest.json"; "pass.json"].
Proof.
  cbv zeta. split; [vm_compute; reflexivity|].
  split; [reflexivity|].
  eexists. split; vm_compute; reflexivity.
Qed.


(* ===================================================================== *)
(** * Signing material: which error comes first *)
(* ===================================================================== *)

Section MaterialOrder.

Context {Certificate PrivateKey : Type} {X : Extern Certificate PrivateKey}.





End MaterialOrder.


(* ===================================================================== *)
(** * Manifest construction run again *)
(* ===================================================================== *)

Section ManifestAgain.

Lemma fold_add_key_absorb l : forall ks,
  (forall k, In k l -> In k ks) -> fold_left add_key l ks = ks.
Proof.
  induction l as [|x l IH]; intros ks H; [reflexivity|]. simpl.
  assert (Hx : add_key ks x = ks).
  { unfold add_key.
    destruct (existsb (String.eqb x) ks) eqn:E; [reflexivity|].
    assert (Hin : In x ks) by (apply H; now left).
    apply existsb_eqb_In in Hin. congruence. }
  rewrite Hx. apply IH. intros k Hk. apply H. now right.
Qed.

(** Assigning the same entries a second time changes nothing. *)
Lemma update_idem {V} (l d : PyDict.t V) :
  PyDict.wf d -> PyDict.update (PyDict.update d l) l = PyDict.update d l.
Proof.
  intros Hwf.
  assert (Hkeys : PyDict.keys (PyDict.update (PyDict.update d l) l) =
                  PyDict.keys (PyDict.update d l)).
  { rewrite (keys_update l (PyDict.update d l)). apply fold_add_key_absorb.
    intros k Hk. rewrite keys_update. apply In_fold_add_key. now right. }
  apply dict_ext.
  - now apply wf_update, wf_update.
  - exact Hkeys.
  - intros k _. destruct (in_dec string_dec k (PyDict.keys l)) as [Hin|Hout].
    + now apply get_update_in.
    + now apply get_update_notin.
Qed.

Lemma models_hash_files_fst items : forall s s',
  fst (Models.hash_files items s) = fst (Models.hash_files items s').
Proof.
  induction items as [|[k v] items IH]; intros s s'; [reflexivity|].
  cbn [Models.hash_files]. unfold mbind, lift, modify.
  destruct (Models.hashlib_sha1_hexdigest v); [|reflexivity].
  cbv beta iota zeta. apply IH.
Qed.

(** X10. [_create_manifest] of [models.py] is idempotent: when it has
    returned on a session whose [_hashes] is a dict, running it again on
    the same document text returns the same manifest text and leaves the
    session exactly as the first run left it. *)
Theorem models_manifest_idempotent pass_json s manifest s1 :
  PyDict.wf (_hashes s) ->
  Models._create_manifest pass_json s = (Ok manifest, s1) ->
  Models._create_manifest pass_json s1 = (Ok manifest, s1).
Proof.
  intros Hwf Hrun.
  destruct (models_manifest_run pass_json s) as [n [Hs Hok]].
  rewrite Hrun in Hs, Hok. cbn [fst snd] in Hs, Hok.
  destruct (Hok manifest eq_refl) as [Hall Hm]. rewrite Hall in Hs. clear Hok.
  assert (Hfiles : _files s1 = _files s) by now rewrite Hs.
  assert (Hent : manifest_entries utf8_encode pass_json s1 =
                 manifest_entries utf8_encode pass_json s).
  { unfold manifest_entries. now rewrite Hfiles. }
  assert (Hfst : exists manifest', fst (Models._create_manifest pass_json s1)
                                   = Ok manifest').
  { assert (H0 : fst (Models._create_manifest pass_json s) = Ok manifest)
      by now rewrite Hrun.
    revert H0.
    unfold Models._create_manifest, mbind, modify, gets, mret.
    cbn [fst snd].
    assert (Hfr : forall h a, _files (set_hashes h a) = _files a)
      by reflexivity.
    rewrite !Hfr, Hfiles. clear Hfr.
    pose proof (models_hash_files_fst (_files s)
      (set_hashes (PyDict.set "pass.json"
         (sha1_hexdigest (utf8_encode pass_json)) (_hashes s)) s)
      (set_hashes (PyDict.set "pass.json"
         (sha1_hexdigest (utf8_encode pass_json)) (_hashes s1)) s1)) as Hsame.
    destruct (Models.hash_files _ _) as [[[]|e] sa]; [|discriminate].
    intros _. 
    destruct (Models.hash_files _ _) as [[[]|e] sb]; [|discriminate Hsame].
    now eexists. }
  destruct Hfst as [manifest' Hfst].
  destruct (models_manifest_run pass_json s1) as [n' [Hs' Hok']].
  destruct (Hok' manifest' Hfst) as [Hall' Hm'].
  rewrite Hall', Hent in Hs'.
  assert (Hstate : snd (Models._create_manifest pass_json s1) = s1).
  { assert (Hh1 : _hashes s1 =
                    PyDict.update (_hashes s)
                      (manifest_entries utf8_encode pass_json s))
      by now rewrite Hs.
    rewrite Hs', Hh1, update_idem by exact Hwf.
    rewrite <- Hh1. apply set_hashes_id. }
  destruct (Models._create_manifest pass_json s1) as [r s2].
  cbn [fst snd] in Hfst, Hstate, Hm'.
  rewrite Hfst, Hstate, Hm', Hstate, Hm. reflexivity.
Qed.

Lemma digests_rewinds d : digests (rewinds d) = digests d.
Proof.
  unfold digests, rewinds. rewrite map_map. apply map_ext.
  intros [k v]. now destruct v.
Qed.

(** X11. [_create_manifest] of [apple_pass.py] is idempotent as well, the
    rewinding of the staged streams included: when it has returned on a
    session whose stores are dicts, running it again on the same document
    text returns the same manifest text and leaves the session, the
    positions of its streams among the rest, as the first run left it. *)
Theorem apple_pass_py_manifest_idempotent pass_json s manifest s1 :
  PyDict.wf (_files s) -> PyDict.wf (_hashes s) ->
  ApplePassPy._create_manifest pass_json s = (Ok manifest, s1) ->
  ApplePassPy._create_manifest pass_json s1 = (Ok manifest, s1).
Proof.
  intros Hf Hh Hrun.
  pose proof (app_manifest_run pass_json s) as H1. rewrite Hrun in H1.
  destruct (first_unreadable (_files s)) as [[name e]|] eqn:Hsup.
  { destruct H1 as [n H1]. discriminate H1. }
  injection H1 as Hm Hs. rewrite (update_rewinds _ Hf) in Hs.
  assert (Hfiles : _files s1 = rewinds (_files s)) by now rewrite Hs.
  assert (Hhashes : _hashes s1 =
                    PyDict.update (_hashes s)
                      (manifest_entries utf16_encode pass_json s))
    by now rewrite Hs.
  assert (Hent : manifest_entries utf16_encode pass_json s1 =
                 manifest_entries utf16_encode pass_json s).
  { unfold manifest_entries. now rewrite Hfiles, digests_rewinds. }
  pose proof (app_manifest_run pass_json s1) as H2.
  rewrite Hfiles, (first_unreadable_rewinds _ Hsup) in H2.
  rewrite H2, Hent, Hhashes, update_idem by exact Hh.
  rewrite update_rewinds by (unfold PyDict.wf; now rewrite keys_rewinds).
  rewrite rewinds_rewinds, <- Hhashes, <- Hfiles.
  rewrite set_files_id, set_hashes_id. f_equal. f_equal.
  now rewrite Hm, Hhashes.
Qed.

End ManifestAgain.

Lemma models_manifest_idempotent_witness :
  let r := Models._create_manifest "{}" Demo.with_icon in
  PyDict.wf (_hashes Demo.with_icon) /\
  r = (Ok (dumps_hashes (_hashes (snd r))), snd r) /\
  Models._create_manifest "{}" (snd r) = r /\
  snd r <> Demo.with_icon.
Proof.
  intros r.
  assert (Hwf : PyDict.wf (_hashes Demo.with_icon)) by constructor.
  assert (H : Models._create_manifest "{}" Demo.with_icon =
              (Ok (dumps_hashes (_hashes (snd r))), snd r))
    by (vm_compute; reflexivity).
  split; [exact Hwf|]. split; [exact H|]. split.
  - rewrite (models_manifest_idempotent "{}" Demo.with_icon _ _ Hwf H).
    symmetry. exact H.
  - vm_compute. discriminate.
Defined.

Lemma apple_pass_py_manifest_idempotent_witness :
  let r := ApplePassPy._create_manifest "{}" Demo.with_reader in
  PyDict.wf (_files Demo.with_reader) /\ PyDict.wf (_hashes Demo.with_reader) /\
  r = (Ok (dumps_hashes (_hashes (snd r))), snd r) /\
  ApplePassPy._create_manifest "{}" (snd r) = r /\
  PyDict.get "strip.png" (_files (snd r)) = Some (PyBufferedReader Demo.icon 10).
Proof.
  intros r.
  assert (Hf : PyDict.wf (_files Demo.with_reader)).
  { repeat constructor. intros []. }
  assert (Hh : PyDict.wf (_hashes Demo.with_reader)) by constructor.
  assert (H : ApplePassPy._create_manifest "{}" Demo.with_reader =
              (Ok (dumps_hashes (_hashes (snd r))), snd r))
    by (vm_compute; reflexivity).
  split; [exact Hf|]. split; [exact Hh|]. split; [exact H|]. split.
  - rewrite (apple_pass_py_manifest_idempotent "{}" Demo.with_reader _ _ Hf Hh H).
    symmetry. exact H.
  - vm_compute. reflexivity.
Defined.

(* ===================================================================== *)
(** * Builds of a pass whose barcode cannot be rendered *)
(* ===================================================================== *)

Section UnrenderableBarcode.

Context {Certificate PrivateKey : Type} {X : Extern Certificate PrivateKey}.

(** X12. A pass with a barcode cannot be built by [models.py], and a pass
    with a Code 128 barcode cannot be built by [apple_pass.py]: whatever
    the certificates, the key and the destination are, [create] raises
    [PassCreationError] over the [AttributeError] of the barcode and
    leaves session and filesystem as they were; no digest has been
    recorded and no file has been read. *)
Theorem create_with_unrenderable_barcode certificate key wwdr password
    pass_path m b :
  barcode (self m) = Some b ->
  Models.create certificate key wwdr password m =
    (Err (PassCreationError
            "Failed to create pass: 'Barcode' object has no attribute 'format'"
            (AttributeError "'Barcode' object has no attribute 'format'")),
     m) /\
  (_format b = CODE128 ->
   ApplePassPy.create certificate key wwdr password pass_path m =
     (Err (PassCreationError
             "Failed to create pass: 'Barcode' object has no attribute 'message'"
             (AttributeError "'Barcode' object has no attribute 'message'")),
      m)).
Proof.
  intros Hb. split.
  - rewrite models_create_eq.
    unfold Models._create_pass_json, Models.json_dict, Models.barcode_block.
    rewrite Hb. reflexivity.
  - intros Hf. rewrite app_create_eq, app_create_body_eq.
    unfold ApplePassPy._create_pass_json, ApplePassPy.json_dict,
      ApplePassPy.barcode_block.
    rewrite Hb, Hf. reflexivity.
Qed.

End UnrenderableBarcode.

Lemma create_with_unrenderable_barcode_witness :
  let m := Demo.machine_of (Demo.with_barcode CODE128) in
  (exists e,
     Models.create (X := Demo.extern) "/certs/pass.pem" "/certs/key.pem"
       "/certs/wwdr.pem" None m = (Err e, m)) /\
  (exists e,
     ApplePassPy.create (X := Demo.extern) "/certs/pass.pem"
       "/certs/key.pem" "/certs/wwdr.pem" None "pass.pkpass" m = (Err e, m)).
Proof.
  intros m.
  destruct (create_with_unrenderable_barcode (X := Demo.extern)
              "/certs/pass.pem" "/certs/key.pem" "/certs/wwdr.pem" None
              "pass.pkpass" m _ eq_refl) as [H1 H2].
  split; [eexists; exact H1 | eexists; exact (H2 eq_refl)].
Defined.

(* ===================================================================== *)
(** * What the rendered document holds *)
(* ===================================================================== *)

Section DocumentEntries.

Lemma get_update_assoc {V} (l : PyDict.t V) : forall d k,
  PyDict.wf l ->
  PyDict.get k (PyDict.update d l) =
  match PyDict.get k l with
  | Some v => Some v
  | None => PyDict.get k d
  end.
Proof.
  unfold PyDict.update, PyDict.wf.
  induction l as [|[k0 v0] l IH]; intros d k Hnd; [reflexivity|].
  inversion Hnd as [|? ? Hk0 Hl]; subst. cbn [fold_left fst snd PyDict.get].
  destruct (String.eqb k k0) eqn:E.
  - apply String.eqb_eq in E. subst k0.
    fold (PyDict.update (PyDict.set k v0 d) l).
    rewrite get_update_notin by exact Hk0. apply get_set_eq.
  - rewrite IH by exact Hl. apply String.eqb_neq in E.
    destruct (PyDict.get k l); [reflexivity|].
    apply get_set_neq. congruence.
Qed.

Lemma keys_present l k : In k (PyDict.keys (present l)) -> In k (map fst l).
Proof.
  induction l as [|[k0 [v|]] l IH]; simpl; [tauto| |]; intros H.
  - destruct H; [now left | right; auto].
  - right; auto.
Qed.

Lemma wf_present l : NoDup (map fst l) -> PyDict.wf (present l).
Proof.
  unfold PyDict.wf.
  induction l as [|[k0 [v|]] l IH]; simpl; intros Hnd;
    inversion Hnd as [|? ? Hk Hl]; subst; [constructor| |auto].
  constructor; [|auto]. intros H. apply Hk. now apply keys_present.
Qed.

Lemma get_present l k :
  NoDup (map fst l) ->
  PyDict.get k (present l) =
  match PyDict.get k l with
  | Some (Some v) => Some v
  | _ => None
  end.
Proof.
  induction l as [|[k0 o] l IH]; simpl; intros Hnd; [reflexivity|].
  inversion Hnd as [|? ? Hk Hl]; subst.
  destruct (String.eqb k k0) eqn:E.
  - apply String.eqb_eq in E. subst k0. destruct o as [v|]; simpl.
    + now rewrite String.eqb_refl.
    + apply get_None_notin. intros H. apply Hk. now apply keys_present.
  - destruct o as [v|]; simpl; [rewrite E|]; now apply IH.
Qed.

Lemma optional_fields_nodup s : NoDup (map fst (optional_fields s)).
Proof.
  simpl. repeat (constructor; [simpl; intuition discriminate|]). constructor.
Qed.

Lemma json_dict_tail_eq s d :
  json_dict_tail s d =
  PyDict.update
    (PyDict.update (PyDict.update d (present (optional_fields s)))
       (voided_entries s))
    (web_service_entries s).
Proof.
  unfold json_dict_tail, voided_entries, web_service_entries.
  destruct (web_service_url s) as [url|];
    [destruct (String.eqb url EmptyString)|];
    destruct (voided s) as [[|]|]; reflexivity.
Qed.

Lemma wf_voided_entries s : PyDict.wf (voided_entries s).
Proof.
  unfold voided_entries, PyDict.wf.
  destruct (voided s) as [[|]|]; simpl; repeat constructor; simpl; tauto.
Qed.

Lemma wf_web_service_entries s : PyDict.wf (web_service_entries s).
Proof.
  unfold web_service_entries, PyDict.wf.
  destruct (web_service_url s) as [url|];
    [destruct (String.eqb url EmptyString)|]; simpl;
    repeat (constructor; [simpl; intuition discriminate|]); constructor.
Qed.

Lemma wf_barcode_entries s : PyDict.wf (barcode_entries s).
Proof.
  unfold barcode_entries, PyDict.wf.
  destruct (barcode s); simpl;
    repeat (constructor; [simpl; intuition discriminate|]); constructor.
Qed.

Lemma json_dict_head_eq s :
  json_dict_head s =
  PyDict.set (jsonname (pass_information s)) (pi_json_dict (pass_information s))
    (required_entries s).
Proof. reflexivity. Qed.

(** Where a key of the rendered document comes from: the last of the
    places that assign it. *)
Lemma document_get s k :
  PyDict.get k
    (json_dict_tail s (PyDict.update (json_dict_head s) (barcode_entries s))) =
  match PyDict.get k (web_service_entries s) with
  | Some v => Some v
  | None =>
  match PyDict.get k (voided_entries s) with
  | Some v => Some v
  | None =>
  match PyDict.get k (optional_fields s) with
  | Some (Some v) => Some v
  | _ =>
  match PyDict.get k (barcode_entries s) with
  | Some v => Some v
  | None =>
      if String.eqb k (jsonname (pass_information s))
      then Some (pi_json_dict (pass_information s))
      else PyDict.get k (required_entries s)
  end end end end.
Proof.
  rewrite json_dict_tail_eq.
  rewrite (get_update_assoc _ _ _ (wf_web_service_entries s)).
  destruct (PyDict.get k (web_service_entries s)); [reflexivity|].
  rewrite (get_update_assoc _ _ _ (wf_voided_entries s)).
  destruct (PyDict.get k (voided_entries s)); [reflexivity|].
  rewrite (get_update_assoc _ _ _ (wf_present _ (optional_fields_nodup s))).
  rewrite (get_present _ k (optional_fields_nodup s)).
  assert (Hrest :
    PyDict.get k (PyDict.update (json_dict_head s) (barcode_entries s)) =
    match PyDict.get k (barcode_entries s) with
    | Some v => Some v
    | None =>
        if String.eqb k (jsonname (pass_information s))
        then Some (pi_json_dict (pass_information s))
        else PyDict.get k (required_entries s)
    end).
  { rewrite (get_update_assoc _ _ _ (wf_barcode_entries s)).
    destruct (PyDict.get k (barcode_entries s)); [reflexivity|].
    rewrite json_dict_head_eq.
    destruct (String.eqb k (jsonname (pass_information s))) eqn:E.
    - apply String.eqb_eq in E. subst k. apply get_set_eq.
    - apply String.eqb_neq in E. apply get_set_neq. congruence. }
  destruct (PyDict.get k (optional_fields s)) as [[v|]|];
    [reflexivity | exact Hrest | exact Hrest].
Qed.

(** A rendered document is the head, the barcode keys and the tail of
    [json_dict]; [models.py] renders without a barcode only. *)
Lemma json_dict_shape s d :
  Models.json_dict s = Ok d \/ ApplePassPy.json_dict s = Ok d ->
  d = json_dict_tail s (PyDict.update (json_dict_head s) (barcode_entries s)).
Proof.
  unfold Models.json_dict, Models.barcode_block, ApplePassPy.json_dict,
    ApplePassPy.barcode_block, barcode_entries.
  destruct (barcode s) as [b|].
  - intros [H|H]; [discriminate H|].
    destruct (format_in (_format b) original_formats); [|discriminate H].
    simpl in H. now injection H as <-.
  - intros [H|H]; simpl in H; now injection H as <-.
Qed.

Lemma snapshot_jsonname p pi :
  PassInformationPy.snapshot p = Ok pi ->
  pi_json_dict pi = JDict (PassInformationPy.json_dict p) /\
  In (jsonname pi)
    ["boardingPass"; "coupon"; "eventTicket"; "generic"; "storeCard"].
Proof.
  unfold PassInformationPy.snapshot, PassInformationPy.getattr_jsonname.
  destruct (PassInformationPy.cls p); simpl; intros H;
    [discriminate H| | | | |]; injection H as <-; simpl; tauto.
Qed.

Ltac document_cases s :=
  unfold web_service_entries, voided_entries, barcode_entries;
  destruct (web_service_url s) as [?url|];
    [destruct (String.eqb _ EmptyString)|];
  destruct (voided s) as [[|]|];
  destruct (barcode s) as [?b|].

(** X13. The required part of a rendered document, for a pass whose
    [pass_information] is an object of one of the five subclasses: each
    of the seven required keys holds the value of its attribute, and the
    key named by [jsonname] holds what [json_dict] of the object returns;
    no later assignment of [json_dict] replaces any of them. *)
Theorem document_required_entries s p d :
  PassInformationPy.snapshot p = Ok (pass_information s) ->
  Models.json_dict s = Ok d \/ ApplePassPy.json_dict s = Ok d ->
  (forall k v, In (k, v) (required_entries s) -> PyDict.get k d = Some v) /\
  PyDict.get (jsonname (pass_information s)) d =
    Some (JDict (PassInformationPy.json_dict p)).
Proof.
  intros Hp Hd. apply json_dict_shape in Hd. subst d.
  destruct (snapshot_jsonname _ _ Hp) as [Hpi Hjn]. split.
  - intros k v Hin. rewrite document_get.
    simpl in Hjn, Hin.
    repeat (destruct Hin as [Hin|Hin];
            [injection Hin as <- <-;
             repeat (destruct Hjn as [<-|Hjn]; [document_cases s; reflexivity|]);
             destruct Hjn|]).
    destruct Hin.
  - rewrite document_get, String.eqb_refl, Hpi. simpl in Hjn.
    repeat (destruct Hjn as [<-|Hjn]; [document_cases s; reflexivity|]).
    destruct Hjn.
Qed.

(** X14. The optional part of a rendered document, for such a pass.  An
    optional attribute appears under its key exactly when it is not
    [None], with its value.  [voided] appears only when the attribute is
    [True], and is [true] then.  The two web-service keys appear together
    or not at all: with a URL that is not empty, [authenticationToken]
    holds the token, [null] when there is none; without a URL, or with an
    empty one, neither key appears and a token that was set is dropped. *)
Theorem document_optional_entries s p d :
  PassInformationPy.snapshot p = Ok (pass_information s) ->
  Models.json_dict s = Ok d \/ ApplePassPy.json_dict s = Ok d ->
  (forall k o, In (k, o) (optional_fields s) -> PyDict.get k d = o) /\
  PyDict.get "voided" d =
    (match voided s with Some true => Some (JBool true) | _ => None end) /\
  (forall url,
     web_service_url s = Some url -> url <> EmptyString ->
     PyDict.get "webServiceURL" d = Some (JStr url) /\
     PyDict.get "authenticationToken" d =
       Some (json_of_option_str (authentication_token s))) /\
  (web_service_url s = None \/ web_service_url s = Some EmptyString ->
   PyDict.get "webServiceURL" d = None /\
   PyDict.get "authenticationToken" d = None).
Proof.
  intros Hp Hd. apply json_dict_shape in Hd. subst d.
  destruct (snapshot_jsonname _ _ Hp) as [_ Hjn]. simpl in Hjn.
  split; [|split; [|split]].
  - intros k o Hin. rewrite document_get. simpl in Hin.
    repeat (destruct Hin as [Hin|Hin];
            [injection Hin as <- <-;
             repeat (destruct Hjn as [<-|Hjn];
                     [document_cases s; simpl;
                      match goal with
                      | |- context [match ?o with _ => _ end] =>
                          destruct o; reflexivity
                      | |- _ => reflexivity
                      end|]);
             destruct Hjn|]).
    destruct Hin.
  - rewrite document_get.
    repeat (destruct Hjn as [<-|Hjn]; [document_cases s; reflexivity|]).
    destruct Hjn.
  - intros url Hurl Hne. rewrite !document_get.
    unfold web_service_entries. rewrite Hurl.
    apply String.eqb_neq in Hne. rewrite Hne. split; reflexivity.
  - intros Hurl. rewrite !document_get.
    assert (Hws : web_service_entries s = [])
      by (unfold web_service_entries; destruct Hurl as [->| ->]; reflexivity).
    rewrite Hws.
    repeat (destruct Hjn as [<-|Hjn];
            [unfold voided_entries, barcode_entries;
             destruct (voided s) as [[|]|]; destruct (barcode s);
             split; reflexivity|]).
    destruct Hjn.
Qed.

(** X15. The barcode keys of a rendered document, for such a pass.  A
    document of [models.py] has neither.  In a document of
    [apple_pass.py] both [barcodes] and [barcode] come from the attribute
    [barcode]: absent without one, and with one [barcodes] is the list of
    its rendering alone and [barcode] is that rendering.  The attribute
    [barcodes] of the pass is never read: assigning it changes the
    document of neither file. *)
Theorem document_barcode_entries s p :
  PassInformationPy.snapshot p = Ok (pass_information s) ->
  (forall d, Models.json_dict s = Ok d ->
     PyDict.get "barcodes" d = None /\ PyDict.get "barcode" d = None) /\
  (forall d, ApplePassPy.json_dict s = Ok d ->
     match barcode s with
     | Some b =>
         PyDict.get "barcodes" d = Some (JList [Barcode_json_dict b]) /\
         PyDict.get "barcode" d = Some (Barcode_json_dict b)
     | None =>
         PyDict.get "barcodes" d = None /\ PyDict.get "barcode" d = None
     end) /\
  (forall value,
     Models.json_dict (set_barcodes value s) = Models.json_dict s /\
     ApplePassPy.json_dict (set_barcodes value s) = ApplePassPy.json_dict s).
Proof.
  intros Hp. destruct (snapshot_jsonname _ _ Hp) as [_ Hjn]. simpl in Hjn.
  split; [|split].
  - intros d Hd.
    assert (Hb : barcode s = None).
    { revert Hd. unfold Models.json_dict, Models.barcode_block.
      destruct (barcode s); [discriminate | reflexivity]. }
    pose proof (json_dict_shape s d (or_introl Hd)) as ->.
    rewrite !document_get.
    repeat (destruct Hjn as [<-|Hjn];
            [document_cases s; try discriminate Hb; split; reflexivity|]).
    destruct Hjn.
  - intros d Hd.
    pose proof (json_dict_shape s d (or_intror Hd)) as ->.
    rewrite !document_get.
    repeat (destruct Hjn as [<-|Hjn];
            [document_cases s; split; reflexivity|]).
    destruct Hjn.
  - intros value. split; reflexivity.
Qed.

End DocumentEntries.

Lemma document_required_entries_witness :
  match Models.json_dict Demo.boarding_pass with
  | Ok d =>
      PyDict.get "serialNumber" d = Some (JStr "0001") /\
      PyDict.get "boardingPass" d =
        Some (JDict (PassInformationPy.json_dict Demo.boarding))
  | Err _ => False
  end.
Proof.
  destruct (Models.json_dict Demo.boarding_pass) as [d|e] eqn:Hd;
    [|vm_compute in Hd; discriminate Hd].
  destruct (document_required_entries Demo.boarding_pass Demo.boarding d
              eq_refl (or_introl Hd)) as [H1 H2].
  split; [apply H1; simpl; tauto | exact H2].
Defined.

Lemma document_optional_entries_witness :
  match ApplePassPy.json_dict Demo.boarding_pass with
  | Ok d =>
      PyDict.get "foregroundColor" d = Some (JStr "rgb(0, 0, 0)") /\
      PyDict.get "labelColor" d = None /\
      PyDict.get "voided" d = None /\
      PyDict.get "webServiceURL" d = Some (JStr "https://example.com/passes") /\
      PyDict.get "authenticationToken" d = Some JNull
  | Err _ => False
  end.
Proof.
  destruct (ApplePassPy.json_dict Demo.boarding_pass) as [d|e] eqn:Hd;
    [|vm_compute in Hd; discriminate Hd].
  destruct (document_optional_entries Demo.boarding_pass Demo.boarding d
              eq_refl (or_intror Hd)) as [H1 [H2 [H3 _]]].
  split; [apply (H1 _ (Some (JStr "rgb(0, 0, 0)"))); simpl; tauto|].
  split; [apply (H1 _ None); simpl; tauto|].
  split; [exact H2|].
  apply (H3 _ eq_refl). discriminate.
Defined.

Lemma document_barcode_entries_witness :
  match ApplePassPy.json_dict (Demo.with_barcode QR) with
  | Ok d =>
      PyDict.get "barcodes" d =
        Some (JList [Barcode_json_dict
                       (mkBarcode QR "0001" "iso-8859-1" EmptyString)]) /\
      PyDict.get "barcode" d =
        Some (Barcode_json_dict
                (mkBarcode QR "0001" "iso-8859-1" EmptyString))
  | Err _ => False
  end.
Proof.
  destruct (ApplePassPy.json_dict (Demo.with_barcode QR)) as [d|e] eqn:Hd;
    [|vm_compute in Hd; discriminate Hd].
  destruct (document_barcode_entries (Demo.with_barcode QR)
              (PassInformationPy.PassInfo_init PassInformationPy.Generic)
              eq_refl) as [_ [H _]].
  exact (H d Hd).
Defined.

(* ===================================================================== *)
(** * pass_information.py: sections and fields *)
(* ===================================================================== *)

Section PassInformationFacts.

Import PassInformationPy.

Lemma json_dict_get_part p x :
  PyDict.get (part_key x) (json_dict p) =
  match part_fields x p with
  | [] => None
  | _ :: _ => Some (render_fields (part_fields x p))
  end.
Proof.
  destruct p as [c h pr se ba au]. unfold json_dict, PassInformation_json_dict.
  destruct x, c, h, pr, se, ba, au; reflexivity.
Qed.

Lemma json_dict_get_transit p :
  PyDict.get "transitType" (json_dict p) =
  match cls p with
  | BoardingPass t => Some (JStr (TransitType_value t))
  | _ => None
  end.
Proof.
  destruct p as [c h pr se ba au]. unfold json_dict, PassInformation_json_dict.
  destruct c, h, pr, se, ba, au; reflexivity.
Qed.

(** X16. What [json_dict] of a pass-information object returns.  Its
    keys are the names of the sections that hold at least one field, in
    the order header, primary, secondary, back, auxiliary, followed by
    [transitType] when the object is a boarding pass, and nothing else; a
    section without fields is left out, not rendered as an empty list.
    Each section present holds the renderings of its fields in their
    order, and [transitType] holds the value of the transit type. *)
Theorem pass_information_sections p :
  PyDict.keys (json_dict p) =
    map fst
      (filter (fun kf => negb (Nat.eqb (List.length (snd kf)) 0))
         (field_mapping p)) ++
    (match cls p with BoardingPass _ => ["transitType"] | _ => [] end) /\
  (forall x,
     PyDict.get (part_key x) (json_dict p) =
     match part_fields x p with
     | [] => None
     | _ :: _ =>
         Some (JList (map (fun f => JDict (Field_json_dict f))
                        (part_fields x p)))
     end) /\
  PyDict.get "transitType" (json_dict p) =
    match cls p with
    | BoardingPass t => Some (JStr (TransitType_value t))
    | _ => None
    end.
Proof.
  split; [|split; [exact (json_dict_get_part p) | exact (json_dict_get_transit p)]].
  destruct p as [c h pr se ba au]. unfold json_dict, PassInformation_json_dict.
  destruct c, h, pr, se, ba, au; reflexivity.
Qed.

Lemma Field_init_ok key value label :
  key <> EmptyString ->
  Field_init key value label = Ok (mkField key value label EmptyString LEFT).
Proof.
  intros H. unfold Field_init. apply String.eqb_neq in H. now rewrite H.
Qed.

Lemma Field_init_key key value label f :
  Field_init key value label = Ok f -> _key f <> EmptyString.
Proof.
  unfold Field_init. destruct (String.eqb key EmptyString) eqn:E;
    [discriminate|]. intros [= <-]. now apply String.eqb_neq.
Qed.

Lemma add_field_eq x key value label p :
  add_field x key value label p =
  match Field_init key value label with
  | Ok f => (Ok tt, set_part_fields x (part_fields x p ++ [f]) p)
  | Err e => (Err e, p)
  end.
Proof.
  destruct x; unfold add_field, add_header_field, add_primary_field,
    add_secondary_field, add_back_field, add_auxiliary_field, mbind, lift,
    modify; destruct (Field_init key value label); reflexivity.
Qed.

Lemma part_fields_set_same x l p : part_fields x (set_part_fields x l p) = l.
Proof. destruct x; reflexivity. Qed.

Lemma part_fields_set_other x y l p :
  y <> x -> part_fields y (set_part_fields x l p) = part_fields y p.
Proof. destruct x, y; intros H; try reflexivity; now destruct H. Qed.

Lemma cls_set_part_fields x l p : cls (set_part_fields x l p) = cls p.
Proof. destruct x; reflexivity. Qed.

(** X17. What an [add_*_field] method does, for each of the five.  With
    an empty key it raises [ValueError] and the object is as before.
    With any other key it returns and the object has one more field, the
    last of the section of the method: in the rendering that section
    holds the renderings it held followed by that of the new field, whose
    label is [null] when none was given, whose change message is empty
    and whose alignment is left; a field already there under the same key
    stays.  Every other section and [transitType] render as before. *)
Theorem add_field_appends x key value label p :
  (key = EmptyString ->
   add_field x key value label p =
     (Err (ValueError "Field key cannot be empty"), p)) /\
  (key <> EmptyString ->
   exists p',
     add_field x key value label p = (Ok tt, p') /\
     PyDict.get (part_key x) (json_dict p') =
       Some (JList
               (map (fun f => JDict (Field_json_dict f)) (part_fields x p) ++
                [JDict [ ("key", JStr key);
                         ("value", value);
                         ("label", json_of_option_str label);
                         ("changeMessage", JStr EmptyString);
                         ("textAlignment", JStr "PKTextAlignmentLeft") ]])) /\
     (forall y, y <> x ->
        PyDict.get (part_key y) (json_dict p') =
        PyDict.get (part_key y) (json_dict p)) /\
     PyDict.get "transitType" (json_dict p') =
       PyDict.get "transitType" (json_dict p)).
Proof.
  rewrite add_field_eq. split.
  - intros ->. reflexivity.
  - intros Hk. rewrite (Field_init_ok _ value label Hk).
    eexists. split; [reflexivity|]. split; [|split].
    + rewrite json_dict_get_part, part_fields_set_same.
      unfold render_fields. rewrite map_app.
      destruct (part_fields x p); reflexivity.
    + intros y Hy.
      now rewrite !json_dict_get_part, part_fields_set_other.
    + now rewrite !json_dict_get_transit, cls_set_part_fields.
Qed.

Lemma part_eq_dec_aux (x y : part) : {x = y} + {x <> y}.
Proof. decide equality. Qed.

Lemma In_list_assign {A} (y x : A) l : forall i,
  In y (list_assign i x l) -> y = x \/ In y l.
Proof.
  induction l as [|z l IH]; intros i H; [destruct i; destruct H|].
  destruct i; simpl in H.
  - destruct H as [<-|H]; [now left | right; now right].
  - destruct H as [<-|H]; [right; now left|].
    destruct (IH _ H); [now left | right; now right].
Qed.

Lemma built_keys p :
  built p -> forall x f, In f (part_fields x p) -> _key f <> EmptyString.
Proof.
  induction 1 as [c|x key value label p p' Hb IH Hadd
                  |x i f0 value p Hb IH Hnth|x i f0 value p Hb IH Hnth];
    intros y f Hin.
  - destruct y; destruct Hin.
  - rewrite add_field_eq in Hadd.
    destruct (Field_init key value label) as [f1|e] eqn:Hinit;
      [|discriminate Hadd].
    injection Hadd as <-.
    destruct (part_eq_dec_aux y x) as [->|Hne].
    + rewrite part_fields_set_same in Hin. apply in_app_or in Hin.
      destruct Hin as [Hin|Hin]; [now apply (IH x)|].
      simpl in Hin. destruct Hin as [<-|Hin]; [|destruct Hin].
      exact (Field_init_key _ _ _ _ Hinit).
    + rewrite part_fields_set_other in Hin by exact Hne. now apply (IH y).
  - destruct (part_eq_dec_aux y x) as [->|Hne].
    + rewrite part_fields_set_same in Hin.
      apply In_list_assign in Hin. destruct Hin as [->|Hin];
        [|now apply (IH x)].
      apply (IH x f0). now apply nth_error_In with i.
    + rewrite part_fields_set_other in Hin by exact Hne. now apply (IH y).
  - destruct (part_eq_dec_aux y x) as [->|Hne].
    + rewrite part_fields_set_same in Hin.
      apply In_list_assign in Hin. destruct Hin as [->|Hin];
        [|now apply (IH x)].
      apply (IH x f0). now apply nth_error_In with i.
    + rewrite part_fields_set_other in Hin by exact Hne. now apply (IH y).
Qed.

(** X18. No field of a pass-information object has an empty key.  For an
    object made by the constructor with its defaults, the [add_*_field]
    methods and the setters of its fields, every entry of every section
    of the rendering is an object whose [key] is a string that is not
    empty. *)
Theorem built_fields_have_keys p x entries :
  built p ->
  PyDict.get (part_key x) (json_dict p) = Some (JList entries) ->
  entries <> [] /\
  forall entry, In entry entries ->
    exists d key,
      entry = JDict d /\
      PyDict.get "key" d = Some (JStr key) /\
      key <> EmptyString.
Proof.
  intros Hb Hget. rewrite json_dict_get_part in Hget.
  pose proof (built_keys p Hb x) as Hkeys.
  destruct (part_fields x p) as [|f0 l] eqn:Hl; [discriminate Hget|].
  assert (He : entries = map (fun f => JDict (Field_json_dict f)) (f0 :: l))
    by (unfold render_fields in Hget; congruence).
  clear Hget. subst entries. split; [discriminate|].
  intros entry Hin. apply in_map_iff in Hin. destruct Hin as [f [<- Hin]].
  exists (Field_json_dict f), (_key f).
  split; [reflexivity|]. split; [reflexivity|]. now apply Hkeys.
Qed.

End PassInformationFacts.

Lemma add_field_appends_witness :
  "gate"%string <> EmptyString /\
  exists p',
    PassInformationPy.add_field PassInformationPy.Header "gate" (JStr "24")
      None Demo.boarding = (Ok tt, p') /\
    PyDict.get "headerFields" (PassInformationPy.json_dict p') =
      Some (JList
              (map (fun f => JDict (PassInformationPy.Field_json_dict f))
                 (PassInformationPy.header_fields Demo.boarding) ++
               [JDict [ ("key", JStr "gate");
                        ("value", JStr "24");
                        ("label", JNull);
                        ("changeMessage", JStr EmptyString);
                        ("textAlignment", JStr "PKTextAlignmentLeft") ]])).
Proof.
  split; [discriminate|].
  destruct (add_field_appends PassInformationPy.Header
              "gate" (JStr "24") None Demo.boarding) as [_ H].
  destruct H as [p' [H1 [H2 _]]]; [discriminate|].
  exists p'. split; [exact H1 | exact H2].
Defined.

Lemma built_boarding : PassInformationPy.built Demo.boarding.
Proof.
  unfold Demo.boarding.
  eapply PassInformationPy.built_add
    with (x := PassInformationPy.Primary) (key := "gate"%string)
         (value := JStr "23") (label := None);
    [|reflexivity].
  eapply PassInformationPy.built_add
    with (x := PassInformationPy.Header) (key := "gate"%string)
         (value := JStr "22") (label := Some "GATE"%string);
    [|reflexivity].
  eapply PassInformationPy.built_add
    with (x := PassInformationPy.Header) (key := "seat"%string)
         (value := JStr "12A") (label := None);
    [|reflexivity].
  apply PassInformationPy.built_init.
Defined.

Lemma built_fields_have_keys_witness :
  exists entries,
    PyDict.get "headerFields" (PassInformationPy.json_dict Demo.boarding) =
      Some (JList entries) /\
    List.length entries = 2 /\
    forall entry, In entry entries ->
      exists d key,
        entry = JDict d /\
        PyDict.get "key" d = Some (JStr key) /\
        key <> EmptyString.
Proof.
  eexists. split; [reflexivity|]. split; [reflexivity|].
  apply (built_fields_have_keys Demo.boarding
           PassInformationPy.Header _ built_boarding eq_refl).
Defined.
